(** * Artifact Age Estimator: history store and image asset store

    A shallow embedding of [src/myproject/app.py]: the JSON-backed history
    document ([load_history], [save_history]), the image asset helpers
    ([safe_ext], [save_uploaded_image_locally], [delete_image_file]), the
    sidebar with its select box, and the three button handlers of the
    Streamlit script (Delete, Clear All, Estimate Artifact Age).

    Python values are the values [json.load] can produce; exceptions are an
    explicit result type; the disk, the session state and the widgets' output
    are threaded through a state-and-exception monad.  A write to the disk
    can fail before or after the file was opened, and [json.dump] can fail
    in the middle of the document. *)

From Stdlib Require Import ZArith String Ascii List Lia DecimalString DecimalN DecimalFacts.
From stdpp Require Import base option gmap strings list.

Local Open Scope string_scope.
Local Open Scope Z_scope.

(** ** Python values *)

(** The values [json.load] returns and [json.dump] accepts.  A [dict] keeps
    its insertion order, so it is an association list.  Numbers are the
    integers: a history document with a float is outside this model (the
    script writes strings only, and passes a loaded float through
    unchanged). *)
#[local] Unset Elimination Schemes.
Inductive pyval : Type :=
| VNone
| VBool (b : bool)
| VInt (n : Z)
| VStr (s : string)
| VList (items : list pyval)
| VDict (fields : list (string * pyval)).
#[local] Set Elimination Schemes.

(** Induction over values, with the items of a list and the values of a
    dict as premises. *)
Section PyvalInd.
Variable P : pyval -> Prop.
Hypothesis HNone : P VNone.
Hypothesis HBool : forall b, P (VBool b).
Hypothesis HInt : forall n, P (VInt n).
Hypothesis HStr : forall s, P (VStr s).
Hypothesis HList : forall items, Forall P items -> P (VList items).
Hypothesis HDict : forall fields, Forall (fun kv => P (snd kv)) fields -> P (VDict fields).

Fixpoint pyval_ind (v : pyval) : P v :=
  match v with
  | VNone => HNone
  | VBool b => HBool b
  | VInt n => HInt n
  | VStr s => HStr s
  | VList items =>
      HList items
        ((fix all (l : list pyval) : Forall P l :=
            match l with
            | [] => List.Forall_nil P
            | x :: rest => List.Forall_cons P x rest (pyval_ind x) (all rest)
            end) items)
  | VDict fields =>
      HDict fields
        ((fix all (l : list (string * pyval)) : Forall (fun kv => P (snd kv)) l :=
            match l with
            | [] => List.Forall_nil _
            | kv :: rest => List.Forall_cons _ kv rest (pyval_ind (snd kv)) (all rest)
            end) fields)
  end.
End PyvalInd.

(** Python's truth value of an object, as used by [if x:] and [x or y]. *)
Definition truthy (v : pyval) : bool :=
  match v with
  | VNone => false
  | VBool b => b
  | VInt n => negb (n =? 0)
  | VStr s => negb (String.eqb s "")
  | VList items => match items with [] => false | _ => true end
  | VDict fields => match fields with [] => false | _ => true end
  end.

(** A Python [dict] has one entry per key, at every depth. *)
Fixpoint well_formed (v : pyval) : bool :=
  match v with
  | VList items => forallb well_formed items
  | VDict fields =>
      bool_decide (NoDup (map fst fields))
      && forallb (fun kv => well_formed (snd kv)) fields
  | _ => true
  end.

(** [type(v).__name__]. *)
Definition type_name (v : pyval) : string :=
  match v with
  | VNone => "NoneType"
  | VBool _ => "bool"
  | VInt _ => "int"
  | VStr _ => "str"
  | VList _ => "list"
  | VDict _ => "dict"
  end.

(** ** Strings

    A [str] is held as the bytes UTF-8 gives its characters; a byte
    [10xxxxxx] continues the character begun before it.  Python lets a [str]
    hold a surrogate code point (U+D800 to U+DFFF) on its own, as [json.load]
    returns for the escape [\ud800], although UTF-8 has no encoding for it.
    Such a character is held as the three bytes the bit pattern of its
    neighbours gives it ([ED], then [A0] to [BF], then [80] to [BF]): it is
    one character, and no text that UTF-8 can encode contains it. *)
Definition is_continuation (c : ascii) : bool :=
  match c with
  | Ascii _ _ _ _ _ _ false true => true
  | _ => false
  end.

(** The continuation bytes [s] starts with, then its characters. *)
Fixpoint split_chars (s : string) : string * list string :=
  match s with
  | EmptyString => ("", [])
  | String c rest =>
      let '(cont, chars) := split_chars rest in
      if is_continuation c then (String c cont, chars)
      else ("", String c cont :: chars)
  end.

(** The characters of a [str], each as a string of its own. *)
Definition str_chars (s : string) : list string := snd (split_chars s).

Definition in_range (lo hi : nat) (c : ascii) : bool :=
  (lo <=? nat_of_ascii c)%nat && (nat_of_ascii c <=? hi)%nat.

(** The decoder of UTF-8 (RFC 3629), which is also what the encoder accepts:
    where it stands inside a character. *)
Inductive utf8_state : Type :=
| Start
| Tail1
| Tail2
| Tail3
| AfterE0
| AfterED
| AfterF0
| AfterF4.

(** One byte more; [None] when the byte cannot come there.  After [ED] only
    [80] to [9F] may come: the bytes [A0] to [BF] would make a surrogate. *)
Definition utf8_step (st : utf8_state) (c : ascii) : option utf8_state :=
  match st with
  | Start =>
      if in_range 0 127 c then Some Start
      else if in_range 194 223 c then Some Tail1
      else if in_range 224 224 c then Some AfterE0
      else if in_range 237 237 c then Some AfterED
      else if in_range 225 239 c then Some Tail2
      else if in_range 240 240 c then Some AfterF0
      else if in_range 241 243 c then Some Tail3
      else if in_range 244 244 c then Some AfterF4
      else None
  | Tail1 => if in_range 128 191 c then Some Start else None
  | Tail2 => if in_range 128 191 c then Some Tail1 else None
  | Tail3 => if in_range 128 191 c then Some Tail2 else None
  | AfterE0 => if in_range 160 191 c then Some Tail1 else None
  | AfterED => if in_range 128 159 c then Some Tail1 else None
  | AfterF0 => if in_range 144 191 c then Some Tail2 else None
  | AfterF4 => if in_range 128 143 c then Some Tail2 else None
  end.

Fixpoint utf8_run (st : utf8_state) (s : string) : option utf8_state :=
  match s with
  | EmptyString => Some st
  | String c rest =>
      match utf8_step st c with
      | Some st' => utf8_run st' rest
      | None => None
      end
  end.

(** [s.encode("utf-8")] succeeds: [s] holds no surrogate. *)
Definition utf8_encodable (s : string) : bool :=
  match utf8_run Start s with
  | Some Start => true
  | _ => false
  end.

(** A text the decoder reads to the end of a character. *)
Definition utf8_text (s : string) : Prop := utf8_run Start s = Some Start.

(** Every [str] of [v], the keys of its dicts included, can be encoded. *)
Fixpoint encodable (v : pyval) : bool :=
  match v with
  | VStr s => utf8_encodable s
  | VList items => forallb encodable items
  | VDict fields =>
      forallb (fun kv => utf8_encodable (fst kv) && encodable (snd kv)) fields
  | _ => true
  end.

(** A character that is a surrogate, and its code point. *)
Definition is_surrogate (char : string) : bool :=
  match char with
  | String c (String d (String _ EmptyString)) =>
      Ascii.eqb c (ascii_of_nat 237) && in_range 160 191 d
  | _ => false
  end.

Definition surrogate_code (char : string) : N :=
  match char with
  | String _ (String d (String e _)) =>
      (55296 + (N_of_ascii d - 160) * 64 + (N_of_ascii e - 128))%N
  | _ => 0%N
  end.

(** ** Exceptions *)

Inductive exn_class : Type :=
| OSError
| TypeError
| AttributeError
| KeyError
| ValueError
| IndexError
| AuthenticationError
| RateLimitError
| OtherException.

(** Every class above derives from Python's [Exception]; [exn_msg] is what
    [str(e)] returns.  A [json.JSONDecodeError], a [UnicodeDecodeError] and a
    [UnicodeEncodeError] are [ValueError]s. *)
Record exn : Type := Exn { exn_cls : exn_class; exn_msg : string }.

Inductive result (A : Type) : Type :=
| Ok (a : A)
| Raise (e : exn).
Arguments Ok {A} a.
Arguments Raise {A} e.

(** ** The disk *)

(** Regular files with their text, and the paths on which an operation
    fails with an [OSError]: [os.remove], opening for reading, writing.  A
    write fails either when the file is opened (permissions, a directory in
    the way, a missing directory), and then the file is as it was, or after
    [open] has created or emptied it (a full disk, a quota), and then the
    file holds the part of the text that reached it.  For a path of
    [deny_write], [write_reaches] has no entry in the first case and the
    number of bytes that reach the file in the second.

    A file is known by the path under which it was stored: the paths are
    relative ones in the form [os.path.join] gives them ([plain_path]
    below), on a case-sensitive file system without links, where two such
    paths name two files.  A path is looked up as it is written: two
    spellings of one file ([a] and [./a], [a/b] and [a//b], a relative and
    an absolute path) are not identified, so what is stated below of the
    files a handler leaves alone is to be read of plain paths. *)
Record filesystem : Type := Fs {
  files : gmap string string;
  deny_read : gset string;
  deny_write : gset string;
  deny_remove : gset string;
  write_reaches : gmap string nat
}.

(** The disk with [text] in the file [path], and without the file [path]. *)
Definition fs_put (path text : string) (d : filesystem) : filesystem :=
  Fs (<[path := text]> (files d)) (deny_read d) (deny_write d) (deny_remove d)
     (write_reaches d).

Definition fs_delete (path : string) (d : filesystem) : filesystem :=
  Fs (delete path (files d)) (deny_read d) (deny_write d) (deny_remove d)
     (write_reaches d).

Definition os_path_exists (path : string) (d : filesystem) : bool :=
  bool_decide (is_Some (files d !! path)).

(** ** The state of one script run *)

Inductive ui_event : Type :=
| StError (msg : string)
| StSuccess (msg : string)
| StMarkdown (msg : string)
| StInfo (msg : string)
| StRerun.

(** [history] and [selected_history_index] are the two entries of
    [st.session_state]; [ui] collects what the handlers display, oldest
    first. *)
Record world : Type := World {
  disk : filesystem;
  history : pyval;
  selected_history_index : option Z;
  ui : list ui_event
}.

Definition set_disk (d : filesystem) (w : world) : world :=
  World d (history w) (selected_history_index w) (ui w).
Definition set_history (h : pyval) (w : world) : world :=
  World (disk w) h (selected_history_index w) (ui w).
Definition set_selected_history_index (i : option Z) (w : world) : world :=
  World (disk w) (history w) i (ui w).
Definition show (e : ui_event) (w : world) : world :=
  World (disk w) (history w) (selected_history_index w) (ui w ++ [e])%list.

(** ** A state-and-exception monad *)

Definition M (A : Type) : Type := world -> result A * world.

Definition ret {A} (a : A) : M A := fun w => (Ok a, w).
Definition raise {A} (e : exn) : M A := fun w => (Raise e, w).
Definition bind {A B} (m : M A) (k : A -> M B) : M B :=
  fun w =>
    match m w with
    | (Ok a, w') => k a w'
    | (Raise e, w') => (Raise e, w')
    end.
Definition lift {A} (r : result A) : M A := fun w => (r, w).
Definition get : M world := fun w => (Ok w, w).
Definition modify (f : world -> world) : M unit := fun w => (Ok tt, f w).

(** [try: body / except Exception: handler(e)]. *)
Definition try_except {A} (body : M A) (handler : exn -> M A) : M A :=
  fun w =>
    match body w with
    | (Ok a, w') => (Ok a, w')
    | (Raise e, w') => handler e w'
    end.

Declare Scope py_scope.
Delimit Scope py_scope with py.
Notation "x <- m ;; k" := (bind m (fun x => k))
  (at level 20, m at level 99, k at level 200, only parsing) : py_scope.
Notation "m ;; k" := (bind m (fun _ => k))
  (at level 100, k at level 200, right associativity, only parsing) : py_scope.
Local Open Scope py_scope.

Definition st_error (msg : string) : M unit := modify (show (StError msg)).
Definition st_success (msg : string) : M unit := modify (show (StSuccess msg)).
Definition st_markdown (msg : string) : M unit := modify (show (StMarkdown msg)).
Definition st_info (msg : string) : M unit := modify (show (StInfo msg)).
Definition st_rerun : M unit := modify (show StRerun).

(** ** File operations *)

(** [os.remove(path)]. *)
Definition os_remove (path : string) : M unit :=
  fun w =>
    let d := disk w in
    if negb (os_path_exists path d) then
      (Raise (Exn OSError ("[Errno 2] No such file or directory: '" ++ path ++ "'")), w)
    else if bool_decide (path ∈ deny_remove d) then
      (Raise (Exn OSError ("[Errno 13] Permission denied: '" ++ path ++ "'")), w)
    else (Ok tt, set_disk (fs_delete path d) w).

(** [with open(path, "r") as f: f.read()]. *)
Definition read_file (path : string) : M string :=
  fun w =>
    let d := disk w in
    match files d !! path with
    | None =>
        (Raise (Exn OSError ("[Errno 2] No such file or directory: '" ++ path ++ "'")), w)
    | Some text =>
        if bool_decide (path ∈ deny_read d) then
          (Raise (Exn OSError ("[Errno 13] Permission denied: '" ++ path ++ "'")), w)
        else (Ok text, w)
    end.

(** [with open(path, "w") as f: f.write(text)]: [open] creates the file or
    empties it, the text is written, and leaving the [with] block closes the
    file. *)
Definition write_file (path text : string) : M unit :=
  fun w =>
    let d := disk w in
    if bool_decide (path ∈ deny_write d) then
      match write_reaches d !! path with
      | None =>
          (Raise (Exn OSError ("[Errno 13] Permission denied: '" ++ path ++ "'")), w)
      | Some n =>
          (Raise (Exn OSError "[Errno 28] No space left on device"),
           set_disk (fs_put path (substring 0 n text) d) w)
      end
    else (Ok tt, set_disk (fs_put path text d) w).

(** The state after a write of [text] to [path] that failed. *)
Definition failed_write (path text : string) (w : world) : world :=
  match write_reaches (disk w) !! path with
  | None => w
  | Some n => set_disk (fs_put path (substring 0 n text) (disk w)) w
  end.

(** ** The Python operations the script applies to its history *)

(** [len(v)]. *)
Definition py_len (v : pyval) : result Z :=
  match v with
  | VStr s => Ok (Z.of_nat (length (str_chars s)))
  | VList items => Ok (Z.of_nat (length items))
  | VDict fields => Ok (Z.of_nat (length fields))
  | _ => Raise (Exn TypeError ("object of type '" ++ type_name v ++ "' has no len()"))
  end.

(** [v[i]] for an integer [i] that is not negative. *)
Definition py_getitem (v : pyval) (i : Z) : result pyval :=
  match v with
  | VList items =>
      match items !! Z.to_nat i with
      | Some x => Ok x
      | None => Raise (Exn IndexError "list index out of range")
      end
  | VStr s =>
      match str_chars s !! Z.to_nat i with
      | Some c => Ok (VStr c)
      | None => Raise (Exn IndexError "string index out of range")
      end
  | VDict _ => Raise (Exn KeyError "the index is not a key")
  | _ => Raise (Exn TypeError ("'" ++ type_name v ++ "' object is not subscriptable"))
  end.

(** First binding of [key] in a [dict]. *)
Fixpoint assoc (key : string) (fields : list (string * pyval)) : option pyval :=
  match fields with
  | [] => None
  | (k, v) :: rest => if String.eqb k key then Some v else assoc key rest
  end.

(** [item.get(key, default)]: only a [dict] has the method. *)
Definition py_get (item : pyval) (key : string) (default : pyval) : result pyval :=
  match item with
  | VDict fields => Ok (match assoc key fields with Some v => v | None => default end)
  | _ => Raise (Exn AttributeError
                  ("'" ++ type_name item ++ "' object has no attribute 'get'"))
  end.

(** [v.pop(i)] for an integer [i] within [0 <= i < len(v)], returning the
    object as it is after the call. *)
Definition py_pop (v : pyval) (i : Z) : result pyval :=
  match v with
  | VList items => Ok (VList (delete (Z.to_nat i) items))
  | VDict _ => Raise (Exn KeyError "the index is not a key")
  | _ => Raise (Exn AttributeError
                  ("'" ++ type_name v ++ "' object has no attribute 'pop'"))
  end.

(** [v.append(x)], returning the object as it is after the call. *)
Definition py_append (v x : pyval) : result pyval :=
  match v with
  | VList items => Ok (VList (items ++ [x]))
  | _ => Raise (Exn AttributeError
                  ("'" ++ type_name v ++ "' object has no attribute 'append'"))
  end.

(** The sequence [for item in v] runs over. *)
Definition py_iter (v : pyval) : result (list pyval) :=
  match v with
  | VList items => Ok items
  | VDict fields => Ok (map (fun kv => VStr (fst kv)) fields)
  | VStr s => Ok (map VStr (str_chars s))
  | _ => Raise (Exn TypeError ("'" ++ type_name v ++ "' object is not iterable"))
  end.

(** [for x in xs: body(x)]. *)
Fixpoint for_each {A} (xs : list A) (body : A -> M unit) : M unit :=
  match xs with
  | [] => ret tt
  | x :: rest => body x ;; for_each rest body
  end.

(** ** Image asset store *)

Definition HISTORY_FILE : string := "history.json".
Definition IMAGES_DIR : string := "saved_images".

Definition safe_ext (mime_type : string) : string :=
  if String.eqb mime_type "image/png" then "png" else "jpg".

(** What the script reads of Streamlit's [UploadedFile]. *)
Record UploadedFile : Type := {
  uf_name : string;
  uf_type : option string;
  uf_getvalue : string
}.

(** [uploaded_file.type or "image/jpeg"]. *)
Definition declared_mime (uploaded_file : UploadedFile) : string :=
  match uf_type uploaded_file with
  | Some t => if String.eqb t "" then "image/jpeg" else t
  | None => "image/jpeg"
  end.

(** [os.path.join(IMAGES_DIR, filename)] on a POSIX system, for a relative
    [filename]. *)
Definition os_path_join (dir filename : string) : string :=
  dir ++ "/" ++ filename.

(** The names a path is made of, between its slashes. *)
Fixpoint split_path (path : string) : list string :=
  match path with
  | EmptyString => [""]
  | String c rest =>
      match split_path rest with
      | name :: names =>
          if Ascii.eqb c "/" then "" :: name :: names else String c name :: names
      | [] => [String c ""]
      end
  end.

(** A relative path in the form [os.path.join] gives it: no name of it is
    empty, [.] or [..]. *)
Definition plain_name (name : string) : bool :=
  negb (String.eqb name "") && negb (String.eqb name ".") && negb (String.eqb name "..").

Definition plain_path (path : string) : bool := forallb plain_name (split_path path).

(** [now] is [datetime.now().strftime("%Y%m%d_%H%M%S")] and [uuid_hex] is
    [uuid.uuid4().hex] at the time of the call. *)
Definition save_uploaded_image_locally (now uuid_hex : string)
    (uploaded_file : UploadedFile) : M (string * string) :=
  let mime_type := declared_mime uploaded_file in
  let ext := safe_ext mime_type in
  let time_str := now in
  let unique_id := substring 0 8 uuid_hex in
  let filename := time_str ++ "_" ++ unique_id ++ "." ++ ext in
  let image_path := os_path_join IMAGES_DIR filename in
  write_file image_path (uf_getvalue uploaded_file) ;;
  ret (image_path, uf_name uploaded_file).

(** The caller passes [item.get("image_path", "")], which is any value the
    history document held.  [os.path.exists] rejects a list or a dict with a
    [TypeError]; a number is taken for a file descriptor, and then
    [os.remove] rejects it with a [TypeError]: in both cases nothing is
    removed and the handler absorbs the exception. *)
Definition delete_image_file (path : pyval) : M unit :=
  try_except
    (if truthy path then
       match path with
       | VStr p =>
           w <- get ;;
           if os_path_exists p (disk w) then os_remove p else ret tt
       | _ => raise (Exn TypeError "path should be string, bytes or os.PathLike")
       end
     else ret tt)
    (fun _ => ret tt).

(** ** A JSON codec *)

(** A printer in the layout of [json.dumps(v, ensure_ascii=False, indent=2)],
    the chunks in which [json.dump] hands that text to the file, and a
    parser for JSON texts whose numbers are integers (a text with a float,
    [NaN] or [Infinity] is outside the model of values, and the parser has
    no answer for it).  The handlers below are stated over any codec; this
    one is the instance at which they are run. *)
Module JsonCodec.

Definition dquote : ascii := ascii_of_nat 34.
Definition backslash : ascii := ascii_of_nat 92.

Definition hex_digit (n : nat) : ascii :=
  if (n <? 10)%nat then ascii_of_nat (48 + n) else ascii_of_nat (87 + n).

(** One character of a string literal, as [json.encoder] escapes it when
    [ensure_ascii] is off. *)
Definition escape_char (c : ascii) : string :=
  let n := nat_of_ascii c in
  if Ascii.eqb c dquote then String backslash (String dquote "")
  else if Ascii.eqb c backslash then String backslash (String backslash "")
  else if (n =? 8)%nat then String backslash "b"
  else if (n =? 9)%nat then String backslash "t"
  else if (n =? 10)%nat then String backslash "n"
  else if (n =? 12)%nat then String backslash "f"
  else if (n =? 13)%nat then String backslash "r"
  else if (n <? 32)%nat then
    String backslash ("u00" ++ String (hex_digit (n / 16)) (String (hex_digit (n mod 16)) ""))
  else String c "".

Fixpoint escape (s : string) : string :=
  match s with
  | EmptyString => ""
  | String c rest => escape_char c ++ escape rest
  end.

Definition dump_string (s : string) : string :=
  String dquote (escape s ++ String dquote "").

Definition dump_nat (n : N) : string := NilZero.string_of_uint (N.to_uint n).

Definition dump_int (n : Z) : string :=
  if (n <? 0)%Z then "-" ++ dump_nat (Z.abs_N n) else dump_nat (Z.abs_N n).

Definition newline : ascii := ascii_of_nat 10.

Fixpoint spaces (n : nat) : string :=
  match n with
  | O => ""
  | S k => String " " (spaces k)
  end.

(** A line break followed by the indentation of nesting depth [level]. *)
Definition newline_indent (level : nat) : string :=
  String newline (spaces (2 * level)).

Fixpoint dump (level : nat) (v : pyval) : string :=
  match v with
  | VNone => "null"
  | VBool true => "true"
  | VBool false => "false"
  | VInt n => dump_int n
  | VStr s => dump_string s
  | VList items =>
      match items with
      | [] => "[]"
      | _ =>
          "[" ++ newline_indent (S level)
          ++ String.concat ("," ++ newline_indent (S level)) (map (dump (S level)) items)
          ++ newline_indent level ++ "]"
      end
  | VDict fields =>
      match fields with
      | [] => "{}"
      | _ =>
          "{" ++ newline_indent (S level)
          ++ String.concat ("," ++ newline_indent (S level))
               (map (fun kv => dump_string (fst kv) ++ ": " ++ dump (S level) (snd kv)) fields)
          ++ newline_indent level ++ "}"
      end
  end.

Definition dumps (v : pyval) : string := dump 0 v.

(** *** Writing to a file

    [json.dump(v, f, ensure_ascii=False, indent=2)] writes the chunks of
    [json.JSONEncoder.iterencode] one by one ([_make_iterencode] of
    [json/encoder.py]).  In a list, the opening bracket or the separator
    comes in one chunk with the item that follows when that item is a
    string, a number, [true], [false] or [null], and on its own before a
    list or a dict; in a dict every key, colon, value and separator is a
    chunk. *)
Fixpoint list_chunks (chunks_of : pyval -> list string) (text_of : pyval -> string)
    (separator : string) (close : list string) (buf : string) (l : list pyval)
    : list string :=
  match l with
  | [] => close
  | x :: rest =>
      (match x with
       | VList _ | VDict _ => buf :: chunks_of x
       | _ => [(buf ++ text_of x)%string]
       end ++ list_chunks chunks_of text_of separator close separator rest)%list
  end.

Fixpoint dict_chunks (chunks_of : pyval -> list string) (separator : string)
    (close : list string) (first : bool) (l : list (string * pyval)) : list string :=
  match l with
  | [] => close
  | kv :: rest =>
      ((if first then [] else [separator])
       ++ dump_string (fst kv) :: ": " :: chunks_of (snd kv)
       ++ dict_chunks chunks_of separator close false rest)%list
  end.

Fixpoint iterencode (level : nat) (v : pyval) : list string :=
  match v with
  | VList items =>
      match items with
      | [] => ["[]"]
      | _ =>
          list_chunks (iterencode (S level)) (dump (S level))
            ("," ++ newline_indent (S level)) [newline_indent level; "]"]
            ("[" ++ newline_indent (S level)) items
      end
  | VDict fields =>
      match fields with
      | [] => ["{}"]
      | _ =>
          "{" :: newline_indent (S level) ::
          dict_chunks (iterencode (S level)) ("," ++ newline_indent (S level))
            [newline_indent level; "}"] true fields
      end
  | _ => [dump level v]
  end.

(** The chunks one after the other. *)
Fixpoint join (chunks : list string) : string :=
  match chunks with
  | [] => ""
  | chunk :: rest => chunk ++ join rest
  end.

(** The file encodes each chunk as it is written: the text of the chunks
    before the first one that holds a surrogate, and that chunk. *)
Fixpoint split_encodable (chunks : list string) : string * option string :=
  match chunks with
  | [] => ("", None)
  | chunk :: rest =>
      if utf8_encodable chunk then
        let '(text, bad) := split_encodable rest in (chunk ++ text, bad)
      else ("", Some chunk)
  end.

(** What is in the file when [json.dump] has raised [UnicodeEncodeError]
    and the file was closed. *)
Definition dump_partial (v : pyval) : string := fst (split_encodable (iterencode 0 v)).

(** The number of characters at the head of [chars] that are, or are not,
    surrogates. *)
Fixpoint count_while (surrogates : bool) (chars : list string) : nat :=
  match chars with
  | char :: rest =>
      if Bool.eqb (is_surrogate char) surrogates then S (count_while surrogates rest)
      else O
  | [] => O
  end.

Definition hex4_of (n : N) : string :=
  let d := N.to_nat n in
  String (hex_digit (d / 4096 mod 16)) (String (hex_digit (d / 256 mod 16))
    (String (hex_digit (d / 16 mod 16)) (String (hex_digit (d mod 16)) ""))).

(** [str(e)] of the [UnicodeEncodeError] for a chunk: it names the first
    run of surrogates by its position, counted in characters, and the
    surrogate itself when the run is a single one. *)
Definition encode_error_message (chunk : string) : string :=
  let chars := str_chars chunk in
  let start := count_while false chars in
  let run := count_while true (drop start chars) in
  if (run <=? 1)%nat then
    "'utf-8' codec can't encode character '" ++ String backslash "u"
    ++ hex4_of (surrogate_code (List.nth start chars ""))
    ++ "' in position " ++ dump_nat (N.of_nat start) ++ ": surrogates not allowed"
  else
    "'utf-8' codec can't encode characters in position " ++ dump_nat (N.of_nat start)
    ++ "-" ++ dump_nat (N.of_nat (start + run - 1)) ++ ": surrogates not allowed".

Definition dump_error (v : pyval) : string :=
  match snd (split_encodable (iterencode 0 v)) with
  | Some chunk => encode_error_message chunk
  | None => ""
  end.

(** *** Parsing *)

Definition is_ws (c : ascii) : bool :=
  let n := nat_of_ascii c in
  (n =? 32)%nat || (n =? 9)%nat || (n =? 10)%nat || (n =? 13)%nat.

Fixpoint skip_ws (s : string) : string :=
  match s with
  | String c rest => if is_ws c then skip_ws rest else s
  | EmptyString => ""
  end.

Definition is_digit (c : ascii) : bool :=
  let n := nat_of_ascii c in (48 <=? n)%nat && (n <=? 57)%nat.

Fixpoint span_digits (s : string) : string * string :=
  match s with
  | String c rest =>
      if is_digit c then
        let '(ds, tail) := span_digits rest in (String c ds, tail)
      else ("", s)
  | EmptyString => ("", "")
  end.

(** A fraction or an exponent makes the literal a float, which the model
    of Python values leaves out. *)
Definition starts_float_part (s : string) : bool :=
  match s with
  | String c _ => Ascii.eqb c "." || Ascii.eqb c "e" || Ascii.eqb c "E"
  | EmptyString => false
  end.

(** What may follow the digits of an integer literal. *)
Definition ends_number (rest : string) : bool :=
  match rest with
  | String c _ => negb (is_digit c) && negb (starts_float_part rest)
  | EmptyString => true
  end.

(** The digits of a JSON integer: [0] or a digit other than [0] followed by
    digits, that is, the decimal notation of its value. *)
Definition parse_nat (s : string) : option (N * string) :=
  let '(ds, tail) := span_digits s in
  match NilZero.uint_of_string ds with
  | Some u =>
      let n := N.of_uint u in
      if String.eqb ds (dump_nat n) && negb (starts_float_part tail)
      then Some (n, tail) else None
  | None => None
  end.

Definition parse_int (s : string) : option (Z * string) :=
  match s with
  | String "-" rest =>
      match parse_nat rest with
      | Some (n, tail) => Some (- Z.of_N n, tail)%Z
      | None => None
      end
  | _ =>
      match parse_nat s with
      | Some (n, tail) => Some (Z.of_N n, tail)
      | None => None
      end
  end.

Definition hex_value (c : ascii) : option N :=
  let n := N_of_ascii c in
  if (48 <=? n)%N && (n <=? 57)%N then Some (n - 48)%N
  else if (97 <=? n)%N && (n <=? 102)%N then Some (n - 87)%N
  else if (65 <=? n)%N && (n <=? 70)%N then Some (n - 55)%N
  else None.

Definition hex4 (a b c d : ascii) : option N :=
  match hex_value a, hex_value b, hex_value c, hex_value d with
  | Some x, Some y, Some z, Some t => Some (((x * 16 + y) * 16 + z) * 16 + t)%N
  | _, _, _, _ => None
  end.

(** The bytes of the character [chr(cp)] for a code point of the basic
    plane, a surrogate included. *)
Definition char_bytes (cp : N) : string :=
  if (cp <? 128)%N then String (ascii_of_N cp) ""
  else if (cp <? 2048)%N then
    String (ascii_of_N (192 + cp / 64)) (String (ascii_of_N (128 + cp mod 64)) "")
  else
    String (ascii_of_N (224 + cp / 4096))
      (String (ascii_of_N (128 + (cp / 64) mod 64))
        (String (ascii_of_N (128 + cp mod 64)) "")).

Definition is_surrogate_code (cp : N) : bool := (55296 <=? cp)%N && (cp <=? 57343)%N.

(** A surrogate pair names a code point beyond the basic plane. *)
Definition utf8_encode_pair (hi lo : N) : option string :=
  if (55296 <=? hi)%N && (hi <=? 56319)%N && (56320 <=? lo)%N && (lo <=? 57343)%N
  then
    let cp := (65536 + (hi - 55296) * 1024 + (lo - 56320))%N in
    Some (String (ascii_of_N (240 + cp / 262144))
           (String (ascii_of_N (128 + (cp / 4096) mod 64))
             (String (ascii_of_N (128 + (cp / 64) mod 64))
               (String (ascii_of_N (128 + cp mod 64)) ""))))
  else None.

Definition simple_escape (c : ascii) : option ascii :=
  if Ascii.eqb c dquote then Some dquote
  else if Ascii.eqb c backslash then Some backslash
  else if Ascii.eqb c "/" then Some "/"%char
  else if Ascii.eqb c "b" then Some (ascii_of_nat 8)
  else if Ascii.eqb c "f" then Some (ascii_of_nat 12)
  else if Ascii.eqb c "n" then Some (ascii_of_nat 10)
  else if Ascii.eqb c "r" then Some (ascii_of_nat 13)
  else if Ascii.eqb c "t" then Some (ascii_of_nat 9)
  else None.

(** The rest of a string literal after its opening quote: the text it
    denotes and what follows the closing quote.  An escaped high surrogate
    followed by an escaped low one is the character beyond the basic plane
    they name together; any other escaped surrogate stays as it is. *)
Fixpoint parse_string_body (s : string) : option (string * string) :=
  match s with
  | EmptyString => None
  | String c rest =>
      if Ascii.eqb c dquote then Some ("", rest)
      else if Ascii.eqb c backslash then
        match rest with
        | String "u" (String h1 (String h2 (String h3 (String h4 rest')))) =>
            match hex4 h1 h2 h3 h4 with
            | None => None
            | Some cp =>
                let single :=
                  match parse_string_body rest' with
                  | Some (text, tail) => Some (char_bytes cp ++ text, tail)
                  | None => None
                  end in
                if is_surrogate_code cp then
                  match rest' with
                  | String b (String "u" (String l1 (String l2 (String l3 (String l4 rest''))))) =>
                      if Ascii.eqb b backslash then
                        match hex4 l1 l2 l3 l4 with
                        | None => None
                        | Some lo =>
                            match utf8_encode_pair cp lo with
                            | Some bytes =>
                                match parse_string_body rest'' with
                                | Some (text, tail) => Some (bytes ++ text, tail)
                                | None => None
                                end
                            | None => single
                            end
                        end
                      else single
                  | _ => single
                  end
                else single
            end
        | String e rest' =>
            match simple_escape e with
            | Some d =>
                match parse_string_body rest' with
                | Some (text, tail) => Some (String d text, tail)
                | None => None
                end
            | None => None
            end
        | EmptyString => None
        end
      else if (nat_of_ascii c <? 32)%nat then None
      else
        match parse_string_body rest with
        | Some (text, tail) => Some (String c text, tail)
        | None => None
        end
  end.

(** [d[key] = value] on an insertion-ordered [dict]. *)
Fixpoint dict_set (fields : list (string * pyval)) (key : string) (value : pyval)
    : list (string * pyval) :=
  match fields with
  | [] => [(key, value)]
  | (k, v) :: rest =>
      if String.eqb k key then (k, value) :: rest
      else (k, v) :: dict_set rest key value
  end.

Definition dict_of_pairs (pairs : list (string * pyval)) : list (string * pyval) :=
  fold_left (fun d kv => dict_set d (fst kv) (snd kv)) pairs [].

(** [s] without its prefix [p], when it starts with [p]. *)
Fixpoint strip_prefix (p s : string) : option string :=
  match p with
  | EmptyString => Some s
  | String a p' =>
      match s with
      | String b s' => if Ascii.eqb a b then strip_prefix p' s' else None
      | EmptyString => None
      end
  end.

(** Recursive descent; [fuel] bounds the number of nested calls. *)
Fixpoint parse_value (fuel : nat) (s : string) : option (pyval * string) :=
  match fuel with
  | O => None
  | S fuel' =>
      match skip_ws s with
      | EmptyString => None
      | String c rest =>
          if Ascii.eqb c dquote then
            match parse_string_body rest with
            | Some (text, tail) => Some (VStr text, tail)
            | None => None
            end
          else if Ascii.eqb c "[" then
            match skip_ws rest with
            | String "]" tail => Some (VList [], tail)
            | _ =>
                match parse_items fuel' rest with
                | Some (items, tail) => Some (VList items, tail)
                | None => None
                end
            end
          else if Ascii.eqb c "{" then
            match skip_ws rest with
            | String "}" tail => Some (VDict [], tail)
            | _ =>
                match parse_members fuel' rest with
                | Some (pairs, tail) => Some (VDict (dict_of_pairs pairs), tail)
                | None => None
                end
            end
          else
            match strip_prefix "null" (String c rest) with
            | Some tail => Some (VNone, tail)
            | None =>
            match strip_prefix "true" (String c rest) with
            | Some tail => Some (VBool true, tail)
            | None =>
            match strip_prefix "false" (String c rest) with
            | Some tail => Some (VBool false, tail)
            | None =>
            match parse_int (String c rest) with
            | Some (n, tail) => Some (VInt n, tail)
            | None => None
            end end end end
      end
  end
with parse_items (fuel : nat) (s : string) : option (list pyval * string) :=
  match fuel with
  | O => None
  | S fuel' =>
      match parse_value fuel' s with
      | None => None
      | Some (v, tail) =>
          match skip_ws tail with
          | String "," tail' =>
              match parse_items fuel' tail' with
              | Some (vs, tail'') => Some (v :: vs, tail'')
              | None => None
              end
          | String "]" tail' => Some ([v], tail')
          | _ => None
          end
      end
  end
with parse_members (fuel : nat) (s : string) : option (list (string * pyval) * string) :=
  match fuel with
  | O => None
  | S fuel' =>
      match skip_ws s with
      | String c rest =>
          if Ascii.eqb c dquote then
            match parse_string_body rest with
            | None => None
            | Some (key, tail) =>
                match skip_ws tail with
                | String ":" tail' =>
                    match parse_value fuel' tail' with
                    | None => None
                    | Some (v, tail'') =>
                        match skip_ws tail'' with
                        | String "," tail3 =>
                            match parse_members fuel' tail3 with
                            | Some (ms, tail4) => Some ((key, v) :: ms, tail4)
                            | None => None
                            end
                        | String "}" tail3 => Some ([(key, v)], tail3)
                        | _ => None
                        end
                    end
                | _ => None
                end
            end
          else None
      | EmptyString => None
      end
  end.

(** [json.load] on a file opened with [encoding="utf-8"]: the bytes are
    decoded, which fails on bytes that are not UTF-8; then one value, and
    nothing but white space after it. *)
Definition loads (text : string) : option pyval :=
  if utf8_encodable text then
    match parse_value (S (String.length text)) text with
    | Some (v, tail) =>
        match skip_ws tail with
        | EmptyString => Some v
        | _ => None
        end
    | None => None
    end
  else None.

(** The text of one entry of a printed [dict]. *)
Definition dump_member (level : nat) (kv : string * pyval) : string :=
  dump_string (fst kv) ++ ": " ++ dump level (snd kv).

(** Printing [v] at any depth and parsing the text gives [v] back, when the
    parser has at least as much fuel as the text has characters and what
    follows cannot continue a number. *)
Definition parses_back (v : pyval) : Prop :=
  forall (level fuel : nat) (rest : string),
    (String.length (dump level v) <= fuel)%nat ->
    ends_number rest = true ->
    parse_value fuel (dump level v ++ rest) = Some (v, rest).

End JsonCodec.

(** ** History store and button handlers *)

Section App.

(** [json_dumps v] is the text [json.dump(v, f, ensure_ascii=False,
    indent=2)] writes for a value whose strings can all be encoded.  For a
    value with a surrogate in one of its strings, [json.dump] raises
    [UnicodeEncodeError] when it comes to that string: [json_partial v] is
    the text written until then and [json_error v] is [str(e)] of the
    exception.  [json_loads text] is what [json.load] returns on a file
    holding [text], [None] when it raises. *)
Variable json_dumps : pyval -> string.
Variable json_partial : pyval -> string.
Variable json_error : pyval -> string.
Variable json_loads : string -> option pyval.

#[local] Set Default Proof Using "Type".

Definition json_load (text : string) : result pyval :=
  match json_loads text with
  | Some v => Ok v
  | None => Raise (Exn ValueError "Expecting value")
  end.

Definition load_history : M pyval :=
  w <- get ;;
  if os_path_exists HISTORY_FILE (disk w) then
    try_except
      (text <- read_file HISTORY_FILE ;; lift (json_load text))
      (fun _ => ret (VList []))
  else ret (VList []).

(** [open(HISTORY_FILE, "w")] empties the document before [json.dump]
    writes to it, so an exception of [json.dump] leaves the part of the text
    written so far. *)
Definition save_history (h : pyval) : M unit :=
  if encodable h then write_file HISTORY_FILE (json_dumps h)
  else
    write_file HISTORY_FILE (json_partial h) ;;
    raise (Exn ValueError (json_error h)).

(** The text [save_history] sends to the document. *)
Definition document_text (h : pyval) : string :=
  if encodable h then json_dumps h else json_partial h.

(** The first run of the script in a session, whose [st.session_state] has
    neither key yet. *)
Definition start_session : M unit :=
  h <- load_history ;;
  modify (set_history h) ;;
  modify (set_selected_history_index None).

(** [item.get("image_path", "")]. *)
Definition image_path_of (item : pyval) : result pyval :=
  py_get item "image_path" (VStr "").

(** The body of [if st.sidebar.button("Delete")]. *)
Definition delete_clicked : M unit :=
  w <- get ;;
  match selected_history_index w with
  | None => ret tt
  | Some idx =>
      if 0 <=? idx then
        n <- lift (py_len (history w)) ;;
        if idx <? n then
          item <- lift (py_getitem (history w) idx) ;;
          path <- lift (image_path_of item) ;;
          delete_image_file path ;;
          w1 <- get ;;
          h <- lift (py_pop (history w1) idx) ;;
          modify (set_history h) ;;
          save_history h ;;
          modify (set_selected_history_index None) ;;
          st_rerun
        else ret tt
      else ret tt
  end.

(** The body of [if st.sidebar.button("Clear All")]. *)
Definition clear_all_clicked : M unit :=
  w <- get ;;
  items <- lift (py_iter (history w)) ;;
  for_each items (fun item =>
    path <- lift (image_path_of item) ;;
    delete_image_file path) ;;
  modify (set_history (VList [])) ;;
  save_history (VList []) ;;
  modify (set_selected_history_index None) ;;
  st_rerun.

(** What one click on "Estimate Artifact Age" reads from outside the
    script: the environment variable, the clock at the two calls of
    [datetime.now()], the random identifier, and the outcome of
    [client.chat.completions.create] with [response.choices[0].message.content]
    when it returns. *)
Record analysis_inputs : Type := {
  api_key : option string;
  now_filename : string;
  uuid_hex : string;
  provider : result (option string);
  now_record : string
}.

(** [not api_key]. *)
Definition api_key_missing (key : option string) : bool :=
  match key with
  | None => true
  | Some k => String.eqb k ""
  end.

Definition make_record (time_str original_name saved_image_path res : string) : pyval :=
  VDict [("time", VStr time_str); ("name", VStr original_name);
         ("image_path", VStr saved_image_path); ("result", VStr res)].

(** [st.session_state.history.append(record)] followed by
    [save_history(st.session_state.history)]. *)
Definition append_record (record : pyval) : M unit :=
  w <- get ;;
  h <- lift (py_append (history w) record) ;;
  modify (set_history h) ;;
  save_history h.

Definition AUTH_MESSAGE : string := "❌ Invalid API key.".
Definition RATE_LIMIT_MESSAGE : string := "❌ Rate limit exceeded.".
Definition CONFIG_MESSAGE : string := "⚠️ Please set OPENAI_API_KEY in your .env file!".
Definition generic_message (e : exn) : string := "❌ Error: " ++ exn_msg e.

(** The text the [except] clauses of the analysis block show for an
    exception, in the order of the clauses. *)
Definition handler_message (e : exn) : string :=
  match exn_cls e with
  | AuthenticationError => AUTH_MESSAGE
  | RateLimitError => RATE_LIMIT_MESSAGE
  | _ => generic_message e
  end.

Definition analysis_handler (e : exn) : M unit := st_error (handler_message e).

(** The body of [if st.button("Estimate Artifact Age")].  Building the
    client only stores the key, and encoding the image cannot fail; the
    first step of the [try] block that can raise is the storing of the
    image. *)
Definition estimate_clicked (inp : analysis_inputs) (uploaded_file : UploadedFile) : M unit :=
  if api_key_missing (api_key inp) then
    st_error CONFIG_MESSAGE
  else
    try_except
      (saved <- save_uploaded_image_locally (now_filename inp) (uuid_hex inp) uploaded_file ;;
       let saved_image_path := fst saved in
       let original_name := snd saved in
       content <- lift (provider inp) ;;
       let res := match content with
                  | Some text => if String.eqb text "" then "" else text
                  | None => ""
                  end in
       let time_str := now_record inp in
       append_record (make_record time_str original_name saved_image_path res) ;;
       st_success "✅ Analysis Complete! Saved to History." ;;
       st_markdown "---" ;;
       st_markdown res)
      analysis_handler.

(** The path [save_uploaded_image_locally] writes to. *)
Definition saved_image_path (inp : analysis_inputs) (uploaded_file : UploadedFile) : string :=
  os_path_join IMAGES_DIR
    (now_filename inp ++ "_" ++ substring 0 8 (uuid_hex inp) ++ "."
     ++ safe_ext (declared_mime uploaded_file)).

(** An object with the four string fields of an analysis record. *)
Definition valid_record (r : pyval) : Prop :=
  exists time_str name image_path res, r = make_record time_str name image_path res.

(** A [dict], the only kind of item on which [item.get] is defined. *)
Definition is_dict (item : pyval) : Prop := exists fields, item = VDict fields.

(** The [image_path] of an item is as the script stores it: a plain path,
    unless it is empty, missing or not a string. *)
Definition plain_image_path (item : pyval) : Prop :=
  forall p, image_path_of item = Ok (VStr p) -> p = "" \/ plain_path p = true.

(** [w'] is [w] up to files that were removed from the disk. *)
Definition only_removes (w w' : world) : Prop :=
  history w' = history w
  /\ selected_history_index w' = selected_history_index w
  /\ ui w' = ui w
  /\ deny_read (disk w') = deny_read (disk w)
  /\ deny_write (disk w') = deny_write (disk w)
  /\ deny_remove (disk w') = deny_remove (disk w)
  /\ write_reaches (disk w') = write_reaches (disk w)
  /\ files (disk w') ⊆ files (disk w).

(** ** The sidebar: labels and selection *)

(** [str(v)] of a list or a dict is Python's [repr] of it, with the quoting
    rules of [repr] for the strings inside. *)
Variable py_repr : pyval -> string.

(** What an f-string puts in place of [{v}]. *)
Definition format_value (v : pyval) : string :=
  match v with
  | VNone => "None"
  | VBool true => "True"
  | VBool false => "False"
  | VInt n => JsonCodec.dump_int n
  | VStr s => s
  | _ => py_repr v
  end.

(** [item[key]] for a string [key]. *)
Definition py_getitem_key (item : pyval) (key : string) : result pyval :=
  match item with
  | VDict fields =>
      match assoc key fields with
      | Some v => Ok v
      | None => Raise (Exn KeyError ("'" ++ key ++ "'"))
      end
  | VStr _ => Raise (Exn TypeError "string indices must be integers, not 'str'")
  | VList _ => Raise (Exn TypeError "list indices must be integers or slices, not str")
  | _ => Raise (Exn TypeError ("'" ++ type_name item ++ "' object is not subscriptable"))
  end.

Definition and_then {A B} (r : result A) (k : A -> result B) : result B :=
  match r with
  | Ok a => k a
  | Raise e => Raise e
  end.

(** [f"{i+1}. {item['time']} — {item['name']}"]. *)
Definition label (i : nat) (item : pyval) : result string :=
  and_then (py_getitem_key item "time") (fun t =>
  and_then (py_getitem_key item "name") (fun n =>
  Ok (JsonCodec.dump_nat (N.of_nat (i + 1)) ++ ". " ++ format_value t
      ++ " — " ++ format_value n))).

(** The list comprehension over [enumerate], counting from [i]. *)
Fixpoint labels_from (i : nat) (items : list pyval) : result (list string) :=
  match items with
  | [] => Ok []
  | item :: rest =>
      and_then (label i item) (fun l =>
      and_then (labels_from (S i) rest) (fun ls => Ok (l :: ls)))
  end.

Definition labels (h : pyval) : result (list string) :=
  and_then (py_iter h) (labels_from 0).

Definition PLACEHOLDER : string := "— Select an item —".

(** The options of the select box: the placeholder, then the labels newest
    first. *)
Definition selectbox_options (ls : list string) : list string :=
  PLACEHOLDER :: reverse ls.

(** [l.index(x)], [None] when it raises [ValueError]. *)
Fixpoint index_of (x : string) (l : list string) : option nat :=
  match l with
  | [] => None
  | y :: rest => if String.eqb y x then Some 0%nat else option_map S (index_of x rest)
  end.

(** The sidebar from [if st.session_state.history:] to the end of the
    handler of the button that was pressed, in a run where the select box
    returns [selected_label]; [pressed] is the body of that handler, [ret tt]
    when no button was pressed.  With a history that is empty (or another
    false value) the select box and the buttons are not there and only the
    note of the [else] branch is shown. *)
Definition sidebar (selected_label : string) (pressed : M unit) : M unit :=
  w <- get ;;
  if truthy (history w) then
    ls <- lift (labels (history w)) ;;
    (if String.eqb selected_label PLACEHOLDER then
       modify (set_selected_history_index None)
     else
       match index_of selected_label (reverse ls) with
       | Some reversed_index =>
           let selected_index := (Z.of_nat (length ls) - 1) - Z.of_nat reversed_index in
           modify (set_selected_history_index (Some selected_index))
       | None => raise (Exn ValueError ("'" ++ selected_label ++ "' is not in list"))
       end) ;;
    pressed
  else st_info "No history yet.".

(** A run in which no button is pressed: the sidebar up to the assignment
    of [selected_history_index]. *)
Definition select_history (selected_label : string) : M unit :=
  sidebar selected_label (ret tt).

(** A run in which Delete is pressed, and one in which Clear All is
    pressed. *)
Definition delete_pressed (selected_label : string) : M unit :=
  sidebar selected_label delete_clicked.

Definition clear_all_pressed (selected_label : string) : M unit :=
  sidebar selected_label clear_all_clicked.

(** A record as the sidebar needs it: a [dict] with the keys [time] and
    [name]. *)
Definition has_time_and_name (item : pyval) : Prop :=
  exists fields t n,
    item = VDict fields /\ assoc "time" fields = Some t /\ assoc "name" fields = Some n.

(** ** Sample states *)

Definition sample_image : string := "saved_images/20240101_101500_0a1b2c3d.jpg".

Definition sample_record : pyval :=
  make_record "2024-01-01 10:15:02" "relic.jpg" sample_image "1 Type: vase".

Definition sample_fields : list (string * pyval) :=
  [("time", VStr "2024-01-01 10:15:02"); ("name", VStr "relic.jpg");
   ("image_path", VStr sample_image); ("result", VStr "1 Type: vase")].

Definition older_record : pyval :=
  make_record "2023-12-31 09:00:00" "coin.png"
    "saved_images/20231231_085958_deadbeef.png" "1 Type: coin".

Definition plain_disk (fs : gmap string string) : filesystem := Fs fs ∅ ∅ ∅ ∅.

(** A session with one older record and nothing on the disk yet. *)
Definition sample_world : world :=
  World (plain_disk ∅) (VList [older_record]) None [].

(** A session started on a disk whose document holds both records. *)
Definition sample_reloaded : world :=
  World (plain_disk {[HISTORY_FILE := JsonCodec.dumps (VList [older_record; sample_record])]})
        VNone None [].

(** A document that is not JSON, and one that is JSON but not an array. *)
Definition corrupt_world : world :=
  World (plain_disk {[HISTORY_FILE := "{not json"]}) VNone None [].

Definition object_world : world :=
  World (plain_disk {[HISTORY_FILE := JsonCodec.dumps (VDict [("version", VInt 2)])]})
        VNone None [].

(** One record selected, with its image on the disk. *)
Definition selected_world (idx : option Z) : world :=
  World (plain_disk {[sample_image := "ABC"]}) (VList [sample_record]) idx [].


Definition sample_upload : UploadedFile :=
  {| uf_name := "relic.jpg"; uf_type := Some "image/jpeg"; uf_getvalue := "ABC" |}.

Definition sample_inputs (key : option string) (outcome : result (option string))
    : analysis_inputs :=
  {| api_key := key; now_filename := "20240101_101500";
     uuid_hex := "0a1b2c3d4e5f60718293a4b5c6d7e8f9";
     provider := outcome; now_record := "2024-01-01 10:15:02" |}.

Definition older_image : string := "saved_images/20231231_085958_deadbeef.png".

(** Two records with their images on the disk, nothing selected. *)
Definition two_records_world : world :=
  World (plain_disk {[older_image := "PNG"; sample_image := "ABC"]})
        (VList [older_record; sample_record]) None [].

(** The newest record selected, on a disk that refuses to write the
    document. *)
Definition readonly_document_world : world :=
  World (Fs {[older_image := "PNG"; sample_image := "ABC"]} ∅ {[HISTORY_FILE]} ∅ ∅)
        (VList [older_record; sample_record]) (Some 1) [].

(** A disk with room for two bytes of the image of the sample upload. *)
Definition no_image_space_world : world :=
  World (Fs ∅ ∅ {[sample_image]} ∅ {[sample_image := 2%nat]})
        (VList [older_record]) None [].

(** A session whose document held an object. *)
Definition object_history_world : world :=
  World (plain_disk ∅) (VDict [("version", VInt 2)]) None [].

(** A history with an item that has no [time]. *)
Definition malformed_world : world :=
  World (plain_disk {[sample_image := "ABC"]})
        (VList [sample_record; VDict [("name", VStr "x.png")]]) None [].





(** A disk that is full: the document can be opened, and nothing of what is
    written reaches it. *)
Definition full_disk_world : world :=
  World (Fs {[HISTORY_FILE := JsonCodec.dumps (VList [older_record; sample_record]);
              older_image := "PNG"; sample_image := "ABC"]}
            ∅ {[HISTORY_FILE]} ∅ {[HISTORY_FILE := 0%nat]})
        (VList [older_record; sample_record]) (Some 1) [].

(** The character U+D800, a surrogate, and a record whose [name] has it. *)
Definition lone_surrogate : string :=
  String (ascii_of_nat 237) (String (ascii_of_nat 160) (String (ascii_of_nat 128) "")).

Definition surrogate_record : pyval :=
  make_record "2024-01-01 10:15:02" (lone_surrogate ++ ".jpg") sample_image "1 Type: vase".

Definition sample_labels : list string :=
  ["1. 2023-12-31 09:00:00 — coin.png"; "2. 2024-01-01 10:15:02 — relic.jpg"].

(** * Properties *)

(** ** The disk *)

Lemma os_path_exists_true path d :
  os_path_exists path d = true <-> is_Some (files d !! path).
Proof. unfold os_path_exists. apply bool_decide_eq_true. Qed.

Lemma os_path_exists_false path d :
  os_path_exists path d = false <-> files d !! path = None.
Proof.
  unfold os_path_exists. rewrite bool_decide_eq_false.
  rewrite <- eq_None_not_Some. reflexivity.
Qed.

(** ** Writing *)

Lemma write_file_ok (path text : string) (w : world) :
  path ∉ deny_write (disk w) ->
  write_file path text w = (Ok tt, set_disk (fs_put path text (disk w)) w).
Proof. intros H. unfold write_file. now rewrite bool_decide_eq_false_2. Qed.

Lemma write_file_fails (path text : string) (w : world) :
  path ∈ deny_write (disk w) ->
  exists e, exn_cls e = OSError
            /\ write_file path text w = (Raise e, failed_write path text w).
Proof.
  intros H. unfold write_file, failed_write. rewrite bool_decide_eq_true_2 by assumption.
  destruct (write_reaches (disk w) !! path); eexists; (split; [|reflexivity]);
    reflexivity.
Qed.

Lemma failed_write_frame (path text : string) (w : world) :
  history (failed_write path text w) = history w
  /\ selected_history_index (failed_write path text w) = selected_history_index w
  /\ ui (failed_write path text w) = ui w
  /\ deny_read (disk (failed_write path text w)) = deny_read (disk w)
  /\ deny_write (disk (failed_write path text w)) = deny_write (disk w)
  /\ deny_remove (disk (failed_write path text w)) = deny_remove (disk w)
  /\ write_reaches (disk (failed_write path text w)) = write_reaches (disk w)
  /\ (forall other, other <> path ->
        files (disk (failed_write path text w)) !! other = files (disk w) !! other).
Proof.
  unfold failed_write. destruct (write_reaches (disk w) !! path); cbn;
    repeat split; intros other Hother; apply lookup_insert_ne; congruence.
Qed.

(** The document after a write of it that failed: as it was when the file
    could not be opened, and else the part of the text that reached it. *)
Lemma failed_write_file (path text : string) (w : world) :
  files (disk (failed_write path text w)) !! path
  = match write_reaches (disk w) !! path with
    | None => files (disk w) !! path
    | Some n => Some (substring 0 n text)
    end.
Proof.
  unfold failed_write. destruct (write_reaches (disk w) !! path); cbn;
    [apply lookup_insert_eq | reflexivity].
Qed.

Lemma save_history_ok (h : pyval) (w : world) :
  encodable h = true ->
  HISTORY_FILE ∉ deny_write (disk w) ->
  save_history h w = (Ok tt, set_disk (fs_put HISTORY_FILE (json_dumps h) (disk w)) w).
Proof. intros He Hw. unfold save_history. rewrite He. now apply write_file_ok. Qed.

Lemma save_history_unwritable (h : pyval) (w : world) :
  HISTORY_FILE ∈ deny_write (disk w) ->
  exists e, exn_cls e = OSError
            /\ save_history h w = (Raise e, failed_write HISTORY_FILE (document_text h) w).
Proof.
  intros Hw. unfold save_history, document_text.
  destruct (write_file_fails HISTORY_FILE (if encodable h then json_dumps h else json_partial h)
              w Hw) as (e & Hcls & Hrun).
  exists e. split; [exact Hcls|].
  destruct (encodable h); [exact Hrun|]. unfold bind. now rewrite Hrun.
Qed.

Lemma save_history_surrogate (h : pyval) (w : world) :
  encodable h = false ->
  HISTORY_FILE ∉ deny_write (disk w) ->
  save_history h w
  = (Raise (Exn ValueError (json_error h)),
     set_disk (fs_put HISTORY_FILE (json_partial h) (disk w)) w).
Proof.
  intros He Hw. unfold save_history. rewrite He. unfold bind.
  now rewrite write_file_ok.
Qed.

(** Whatever happens, [save_history] touches the document only, and an
    exception it raises is an [OSError] or a [ValueError]. *)
Lemma save_history_frame (h : pyval) (w : world) :
  exists r w',
    save_history h w = (r, w')
    /\ history w' = history w
    /\ selected_history_index w' = selected_history_index w
    /\ ui w' = ui w
    /\ (forall other, other <> HISTORY_FILE ->
          files (disk w') !! other = files (disk w) !! other)
    /\ (r = Ok tt
        \/ exists e, r = Raise e /\ (exn_cls e = OSError \/ exn_cls e = ValueError)).
Proof.
  destruct (decide (HISTORY_FILE ∈ deny_write (disk w))) as [Hw | Hw].
  - destruct (save_history_unwritable h w Hw) as (e & Hcls & ->).
    destruct (failed_write_frame HISTORY_FILE (document_text h) w)
      as (H1 & H2 & H3 & _ & _ & _ & _ & H4).
    eexists _, _. split; [reflexivity|]. repeat split; try assumption.
    right. eauto.
  - destruct (encodable h) eqn:He.
    + rewrite (save_history_ok h w He Hw). eexists _, _. split; [reflexivity|].
      cbn. repeat split; [|now left].
      intros other Hother. apply lookup_insert_ne. congruence.
    + rewrite (save_history_surrogate h w He Hw). eexists _, _. split; [reflexivity|].
      cbn. repeat split; [|right; eauto].
      intros other Hother. apply lookup_insert_ne. congruence.
Qed.

(** ** Loading *)

(** [load_history] returns a value and leaves the state alone, whatever is
    on the disk. *)
Lemma load_history_total (w : world) :
  exists v, load_history w = (Ok v, w).
Proof.
  unfold load_history, bind, get, try_except, read_file, lift, ret, json_load.
  destruct (os_path_exists HISTORY_FILE (disk w)); [|eauto].
  destruct (files (disk w) !! HISTORY_FILE); [|eauto].
  destruct (bool_decide _); [eauto|].
  destruct (json_loads _); eauto.
Qed.

(** C2: when the backing document is absent, or present with a text that
    [json.load] cannot parse (or that cannot be read at all), [load_history]
    returns the empty list, raises nothing and changes nothing. *)
Theorem load_history_missing_or_corrupt (w : world) :
  files (disk w) !! HISTORY_FILE = None
  \/ (exists text, files (disk w) !! HISTORY_FILE = Some text /\ json_loads text = None)
  \/ HISTORY_FILE ∈ deny_read (disk w) ->
  load_history w = (Ok (VList []), w).
Proof.
  intros [Habsent | [(text & Hfile & Hbad) | Hdenied]].
  - unfold load_history, bind, get.
    apply os_path_exists_false in Habsent. now rewrite Habsent.
  - unfold load_history, bind, get, try_except, read_file, lift, ret, json_load.
    destruct (os_path_exists HISTORY_FILE (disk w)); [|reflexivity].
    rewrite Hfile. destruct (bool_decide _); [reflexivity|].
    now rewrite Hbad.
  - unfold load_history, bind, get, try_except, read_file, lift, ret.
    destruct (os_path_exists HISTORY_FILE (disk w)); [|reflexivity].
    destruct (files (disk w) !! HISTORY_FILE); [|reflexivity].
    now rewrite bool_decide_eq_true_2.
Qed.

Lemma load_history_reads (w : world) (text : string) :
  files (disk w) !! HISTORY_FILE = Some text ->
  HISTORY_FILE ∉ deny_read (disk w) ->
  load_history w = (Ok (default (VList []) (json_loads text)), w).
Proof.
  intros Hfile Hread.
  unfold load_history, bind, get, try_except, read_file, lift.
  assert (Hex : os_path_exists HISTORY_FILE (disk w) = true).
  { apply os_path_exists_true. rewrite Hfile. eauto. }
  rewrite Hex, Hfile, bool_decide_eq_false_2 by assumption.
  unfold json_load. now destruct (json_loads text).
Qed.

(** C10: a document that can be read and parses as JSON is returned as the
    parsed value, whatever its shape: nothing checks that it is an array of
    records, and only a failure to parse gives the empty list. *)
Theorem load_history_unvalidated (w : world) (text : string) (v : pyval) :
  files (disk w) !! HISTORY_FILE = Some text ->
  HISTORY_FILE ∉ deny_read (disk w) ->
  json_loads text = Some v ->
  load_history w = (Ok v, w).
Proof.
  intros Hfile Hread Hparse.
  rewrite (load_history_reads w text Hfile Hread), Hparse. reflexivity.
Qed.

(** ** Storing an image *)

(** C3: the extension chosen for a stored image is [png] exactly when the
    declared MIME type is [image/png], and [jpg] for every other type. *)
Theorem safe_ext_png_only (mime_type : string) :
  (safe_ext mime_type = "png" <-> mime_type = "image/png")
  /\ (safe_ext mime_type = "jpg" <-> mime_type <> "image/png").
Proof.
  unfold safe_ext. destruct (String.eqb_spec mime_type "image/png") as [Heq | Hne].
  - split; split; intros H; try assumption; try reflexivity;
      try discriminate H; contradiction.
  - split; split; intros H; try assumption; try reflexivity;
      try discriminate H; contradiction.
Qed.

(** The name of the stored file ends with that extension. *)
Lemma save_uploaded_image_locally_path (now uuid : string) (uploaded_file : UploadedFile)
    (w w' : world) (path name : string) :
  save_uploaded_image_locally now uuid uploaded_file w = (Ok (path, name), w') ->
  path = "saved_images/" ++ now ++ "_" ++ substring 0 8 uuid ++ "."
         ++ safe_ext (declared_mime uploaded_file)
  /\ name = uf_name uploaded_file
  /\ files (disk w') !! path = Some (uf_getvalue uploaded_file).
Proof.
  unfold save_uploaded_image_locally, bind, write_file, ret.
  destruct (bool_decide _);
    [destruct (write_reaches (disk w) !! _); discriminate|].
  intros [= <- <- <-]. repeat split. cbn. apply lookup_insert_eq.
Qed.

(** ** Deleting an image asset *)

Lemma only_removes_refl (w : world) : only_removes w w.
Proof. unfold only_removes. repeat split; reflexivity. Qed.

Lemma only_removes_trans (w1 w2 w3 : world) :
  only_removes w1 w2 -> only_removes w2 w3 -> only_removes w1 w3.
Proof.
  unfold only_removes.
  intros (? & ? & ? & ? & ? & ? & ? & ?) (? & ? & ? & ? & ? & ? & ? & ?).
  repeat split; try congruence. etrans; eassumption.
Qed.

Lemma only_removes_gone (w w' : world) (path : string) :
  only_removes w w' -> files (disk w) !! path = None -> files (disk w') !! path = None.
Proof.
  intros (_ & _ & _ & _ & _ & _ & _ & Hsub) Hnone.
  eapply lookup_weaken_None; eassumption.
Qed.

(** What [delete_image_file] does, case by case: it returns normally, and
    the state is the one it was given unless [path] is a non-empty string
    naming a file that [os.remove] accepts to remove. *)
Lemma delete_image_file_cases (path : pyval) (w : world) :
  delete_image_file path w = (Ok tt, w)
  \/ exists p, path = VStr p /\ p <> "" /\ is_Some (files (disk w) !! p)
       /\ (p ∉ deny_remove (disk w))
       /\ delete_image_file path w = (Ok tt, set_disk (fs_delete p (disk w)) w).
Proof.
  unfold delete_image_file, try_except.
  destruct (truthy path) eqn:Htruthy; [|left; reflexivity].
  destruct path as [| b | n | p | items | fields]; try (left; reflexivity).
  unfold bind, get, os_remove, ret. cbv beta iota zeta.
  destruct (os_path_exists p (disk w)) eqn:Hex; [|left; reflexivity].
  cbv beta. rewrite Hex. cbn [negb].
  destruct (bool_decide (p ∈ deny_remove (disk w))) eqn:Hdeny; [left; reflexivity|].
  right. exists p. repeat split.
  - cbn in Htruthy. intros ->. discriminate.
  - now apply os_path_exists_true.
  - now apply bool_decide_eq_false in Hdeny.
Qed.

Lemma delete_image_file_only_removes (path : pyval) (w : world) :
  exists w', delete_image_file path w = (Ok tt, w') /\ only_removes w w'.
Proof.
  destruct (delete_image_file_cases path w) as [H | (p & _ & _ & _ & _ & H)];
    rewrite H; eexists; split; try reflexivity.
  - apply only_removes_refl.
  - unfold only_removes; cbn. repeat split; try reflexivity. apply delete_subseteq.
Qed.

Lemma delete_image_file_removes (path : string) (w w' : world) :
  path <> "" -> path ∉ deny_remove (disk w) ->
  delete_image_file (VStr path) w = (Ok tt, w') ->
  files (disk w') !! path = None.
Proof.
  intros Hne Hdeny.
  destruct (delete_image_file_cases (VStr path) w)
    as [H | (p & [= <-] & _ & _ & _ & H)]; rewrite H; intros [= <-].
  - revert H. unfold delete_image_file, try_except.
    cbn [truthy]. destruct (String.eqb_spec path ""); [contradiction|]. cbn [negb].
    unfold bind, get, os_remove, ret. cbv beta iota zeta.
    destruct (os_path_exists path (disk w)) eqn:Hex.
    + cbv beta. rewrite Hex. cbn [negb]. rewrite bool_decide_eq_false_2 by assumption.
      intros [= Hw]. rewrite <- Hw at 1. cbn. apply lookup_delete_eq.
    + intros _. now apply os_path_exists_false.
  - cbn. apply lookup_delete_eq.
Qed.

(** C8: for every path and every state of the disk, [delete_image_file]
    returns without raising; a file that exists and can be removed is
    removed, every other file is kept, and when the path is empty, names no
    file, or names a file whose removal fails, nothing changes at all. *)
Theorem delete_image_file_best_effort (path : string) (w : world) :
  exists w',
    delete_image_file (VStr path) w = (Ok tt, w')
    /\ only_removes w w'
    /\ (path <> "" -> path ∉ deny_remove (disk w) -> files (disk w') !! path = None)
    /\ (forall other, other <> path -> files (disk w') !! other = files (disk w) !! other)
    /\ (path = "" \/ files (disk w) !! path = None \/ path ∈ deny_remove (disk w) ->
       w' = w).
Proof.
  destruct (delete_image_file_cases (VStr path) w)
    as [H | (p & [= <-] & Hne & Hex & Hdeny & H)]; rewrite H; eexists; split;
    try reflexivity.
  - split; [apply only_removes_refl|]. repeat split; try reflexivity.
    intros Hne Hdeny. now apply (delete_image_file_removes path w w).
  - split.
    { unfold only_removes; cbn. repeat split; try reflexivity. apply delete_subseteq. }
    cbn. repeat split.
    + intros _ _. apply lookup_delete_eq.
    + intros other Hother. apply lookup_delete_ne. congruence.
    + intros [-> | [Hnone | Hin]]; [congruence| |contradiction].
      rewrite Hnone in Hex. now destruct Hex.
Qed.

(** ** Deleting one record *)

(** C5: with no index selected, or an index that is negative or not below
    the number of records, the Delete handler changes nothing: not the
    history, not the disk. *)
Theorem delete_out_of_bounds (w : world) (items : list pyval) :
  history w = VList items ->
  selected_history_index w = None
  \/ (exists idx, selected_history_index w = Some idx
                  /\ (idx < 0 \/ Z.of_nat (length items) <= idx)) ->
  delete_clicked w = (Ok tt, w).
Proof.
  intros Hh [Hsel | (idx & Hsel & Hout)];
    unfold delete_clicked, bind, get; rewrite Hsel; [reflexivity|].
  destruct (Z.leb_spec 0 idx) as [Hge|Hlt]; [|reflexivity].
  rewrite Hh. cbn [lift py_len].
  destruct (Z.ltb_spec idx (Z.of_nat (length items))); [lia|reflexivity].
Qed.



(** The end of the Delete and Clear All handlers: the document is
    rewritten, and only then is the selection reset and a rerun asked for. *)
Lemma save_and_rerun (h : pyval) (w : world) :
  exists r w',
    bind (save_history h)
         (fun _ => bind (modify (set_selected_history_index None)) (fun _ => st_rerun)) w
    = (r, w')
    /\ history w' = history w
    /\ (forall other, other <> HISTORY_FILE ->
          files (disk w') !! other = files (disk w) !! other)
    /\ (encodable h = true -> HISTORY_FILE ∉ deny_write (disk w) ->
        r = Ok tt
        /\ disk w' = fs_put HISTORY_FILE (json_dumps h) (disk w)
        /\ selected_history_index w' = None
        /\ ui w' = (ui w ++ [StRerun])%list)
    /\ (HISTORY_FILE ∈ deny_write (disk w) ->
        exists e, r = Raise e /\ exn_cls e = OSError
                  /\ w' = failed_write HISTORY_FILE (document_text h) w)
    /\ (encodable h = false -> HISTORY_FILE ∉ deny_write (disk w) ->
        r = Raise (Exn ValueError (json_error h))
        /\ w' = set_disk (fs_put HISTORY_FILE (json_partial h) (disk w)) w).
Proof.
  unfold bind at 1.
  destruct (decide (HISTORY_FILE ∈ deny_write (disk w))) as [Hw | Hw].
  - destruct (save_history_unwritable h w Hw) as (e & Hcls & ->).
    destruct (failed_write_frame HISTORY_FILE (document_text h) w)
      as (H1 & _ & _ & _ & _ & _ & _ & H4).
    eexists _, _. split; [reflexivity|]. split; [exact H1|]. split; [exact H4|].
    split; [intros _ Hnot; contradiction|].
    split; [intros _; eauto | intros _ Hnot; contradiction].
  - destruct (encodable h) eqn:He.
    + rewrite (save_history_ok h w He Hw).
      eexists _, _. split; [reflexivity|]. cbn. split; [reflexivity|].
      split; [intros other Hother; apply lookup_insert_ne; congruence|].
      split; [intros _ _; repeat split|].
      split; [intros Hin; contradiction | intros Hf; discriminate Hf].
    + rewrite (save_history_surrogate h w He Hw).
      eexists _, _. split; [reflexivity|]. cbn. split; [reflexivity|].
      split; [intros other Hother; apply lookup_insert_ne; congruence|].
      split; [intros Hf; discriminate Hf|].
      split; [intros Hin; contradiction | intros _ _; split; reflexivity].
Qed.

(** The Delete handler on an index within bounds, up to the rewriting of
    the document. *)
Lemma delete_clicked_run (w : world) (items : list pyval) (idx : Z)
    (fields : list (string * pyval)) :
  history w = VList items ->
  selected_history_index w = Some idx ->
  0 <= idx < Z.of_nat (length items) ->
  items !! Z.to_nat idx = Some (VDict fields) ->
  exists w1,
    delete_image_file (default (VStr "") (assoc "image_path" fields)) w = (Ok tt, w1)
    /\ only_removes w w1
    /\ delete_clicked w
       = bind (save_history (VList (delete (Z.to_nat idx) items)))
              (fun _ => bind (modify (set_selected_history_index None))
                             (fun _ => st_rerun))
              (set_history (VList (delete (Z.to_nat idx) items)) w1).
Proof.
  intros Hh Hsel [Hlo Hhi] Hitem.
  destruct (delete_image_file_only_removes
              (default (VStr "") (assoc "image_path" fields)) w)
    as (w1 & Hdel & Hframe).
  pose proof Hframe as (Hh1 & _).
  exists w1. split; [exact Hdel|]. split; [exact Hframe|].
  unfold delete_clicked. unfold bind at 1. unfold get at 1. cbv beta iota.
  rewrite Hsel. destruct (Z.leb_spec 0 idx); [|lia].
  rewrite Hh. unfold bind at 1. cbn [lift py_len].
  destruct (Z.ltb_spec idx (Z.of_nat (length items))); [|lia].
  unfold bind at 1. cbn [lift py_getitem]. rewrite Hitem.
  unfold bind at 1. cbn [lift image_path_of py_get].
  change (match assoc "image_path" fields with Some v => v | None => VStr "" end)
    with (default (VStr "") (assoc "image_path" fields)).
  unfold bind at 1. rewrite Hdel.
  unfold bind at 1. unfold get at 1. cbv beta iota.
  rewrite Hh1, Hh. unfold bind at 1. cbn [lift py_pop].
  unfold bind at 1. unfold modify at 1. reflexivity.
Qed.


(** ** Clearing the history *)

(** The loop of the Clear All handler: it ends normally, only removes
    files, and every image file it could remove is gone. *)
Lemma clear_loop (items : list pyval) (w : world) :
  Forall is_dict items ->
  exists w',
    for_each items
      (fun item => path <- lift (image_path_of item) ;; delete_image_file path) w
    = (Ok tt, w')
    /\ only_removes w w'
    /\ (forall fields p, VDict fields ∈ items ->
          assoc "image_path" fields = Some (VStr p) ->
          p <> "" -> p ∉ deny_remove (disk w) ->
          files (disk w') !! p = None).
Proof.
  intros Hitems. revert w.
  induction Hitems as [| item rest [fields ->] _ IH]; intros w.
  - exists w. split; [reflexivity|]. split; [apply only_removes_refl|].
    intros fields p Hin. now apply elem_of_nil in Hin.
  - set (path := match assoc "image_path" fields with Some v => v | None => VStr "" end).
    destruct (delete_image_file_only_removes path w) as (w1 & Hdel & Hframe1).
    destruct (IH w1) as (w' & Hloop & Hframe & Hgone).
    exists w'. split; [|split].
    + cbn [for_each]. unfold bind at 1. unfold bind at 1.
      cbn [lift image_path_of py_get]. fold path. rewrite Hdel. exact Hloop.
    + eapply only_removes_trans; eassumption.
    + intros fields' p Hin Hp Hne Hdeny.
      assert (Hdeny1 : p ∉ deny_remove (disk w1)).
      { destruct Hframe1 as (_ & _ & _ & _ & _ & -> & _ & _). exact Hdeny. }
      apply elem_of_cons in Hin as [[= <-] | Hin].
      * apply (only_removes_gone w1 w' p Hframe).
        subst path. rewrite Hp in Hdel.
        apply (delete_image_file_removes p w w1); assumption.
      * eapply Hgone; eassumption.
Qed.

(** The Clear All handler on a list of records, up to the rewriting of the
    document. *)
Lemma clear_all_clicked_run (w : world) (items : list pyval) :
  history w = VList items ->
  Forall is_dict items ->
  exists w1,
    for_each items
      (fun item => bind (lift (image_path_of item)) (fun path => delete_image_file path)) w
    = (Ok tt, w1)
    /\ only_removes w w1
    /\ clear_all_clicked w
       = bind (save_history (VList []))
              (fun _ => bind (modify (set_selected_history_index None))
                             (fun _ => st_rerun))
              (set_history (VList []) w1).
Proof.
  intros Hh Hitems.
  destruct (clear_loop items w Hitems) as (w1 & Hloop & Hframe & _).
  exists w1. split; [exact Hloop|]. split; [exact Hframe|].
  unfold clear_all_clicked. unfold bind at 1. unfold get at 1. cbv beta iota.
  rewrite Hh. unfold bind at 1. cbn [lift py_iter].
  unfold bind at 1. rewrite Hloop.
  unfold bind at 1. unfold modify at 1. reflexivity.
Qed.



(** ** Analysis *)

(** C9: without an API key, a click on the analysis button shows the
    configuration error and does nothing else: the disk and the history are
    as before. *)
Theorem estimate_without_api_key (inp : analysis_inputs) (uploaded_file : UploadedFile)
    (w : world) :
  api_key_missing (api_key inp) = true ->
  estimate_clicked inp uploaded_file w = (Ok tt, show (StError CONFIG_MESSAGE) w)
  /\ disk (show (StError CONFIG_MESSAGE) w) = disk w
  /\ history (show (StError CONFIG_MESSAGE) w) = history w
  /\ selected_history_index (show (StError CONFIG_MESSAGE) w) = selected_history_index w
  /\ ui (show (StError CONFIG_MESSAGE) w) = (ui w ++ [StError CONFIG_MESSAGE])%list.
Proof.
  intros Hkey. unfold estimate_clicked. rewrite Hkey. repeat split.
Qed.

Lemma saved_image_path_not_history (inp : analysis_inputs) (uploaded_file : UploadedFile) :
  saved_image_path inp uploaded_file <> HISTORY_FILE.
Proof. unfold saved_image_path, os_path_join, IMAGES_DIR, HISTORY_FILE. cbn. discriminate. Qed.

Lemma handler_message_auth (e : exn) :
  handler_message e = AUTH_MESSAGE <-> exn_cls e = AuthenticationError.
Proof.
  unfold handler_message.
  destruct (exn_cls e); split; intros H; try reflexivity; try discriminate H.
Qed.

Lemma generic_message_not_auth (e : exn) : generic_message e <> AUTH_MESSAGE.
Proof.
  unfold generic_message, AUTH_MESSAGE. destruct e as [cls msg]. cbn [exn_msg].
  change ("❌ Error: " ++ msg) with
    (String "226" (String "157" (String "140" (String " " (String "E" ("rror: " ++ msg)))))).
  discriminate.
Qed.

(** The text of the provider's answer that goes into the record. *)
Lemma or_empty (text : string) : (if String.eqb text "" then "" else text) = text.
Proof. now destruct (String.eqb_spec text "") as [-> | _]. Qed.

(** What a click on the analysis button displays.  The click always ends
    normally, and what it adds to the page is one of: the configuration
    error; the message of the handler for the exception that ended the
    [try] block (raised while the image was stored, by the provider, or
    while the record was appended and saved); the three lines of a
    successful analysis. *)
Lemma estimate_clicked_shows (inp : analysis_inputs) (uploaded_file : UploadedFile)
    (w : world) :
  exists w',
    estimate_clicked inp uploaded_file w = (Ok tt, w')
    /\ ((api_key_missing (api_key inp) = true
         /\ ui w' = (ui w ++ [StError CONFIG_MESSAGE])%list)
        \/ (api_key_missing (api_key inp) = false
            /\ exists e,
                 ui w' = (ui w ++ [StError (handler_message e)])%list
                 /\ (((saved_image_path inp uploaded_file ∈ deny_write (disk w))
                      /\ exn_cls e = OSError)
                     \/ ((saved_image_path inp uploaded_file ∉ deny_write (disk w))
                         /\ provider inp = Raise e)
                     \/ ((saved_image_path inp uploaded_file ∉ deny_write (disk w))
                         /\ (exists content, provider inp = Ok content)
                         /\ (exn_cls e = AttributeError \/ exn_cls e = OSError
                             \/ exn_cls e = ValueError))))
        \/ (api_key_missing (api_key inp) = false
            /\ (saved_image_path inp uploaded_file ∉ deny_write (disk w))
            /\ exists content,
                 provider inp = Ok content
                 /\ ui w' = (ui w ++ [StSuccess "✅ Analysis Complete! Saved to History.";
                                      StMarkdown "---";
                                      StMarkdown (default "" content)])%list)).
Proof.
  unfold estimate_clicked.
  destruct (api_key_missing (api_key inp)) eqn:Hkey.
  { eexists. split; [reflexivity|]. left. split; reflexivity. }
  unfold try_except, save_uploaded_image_locally.
  fold (saved_image_path inp uploaded_file).
  unfold bind at 1. unfold bind at 1.
  destruct (decide (saved_image_path inp uploaded_file ∈ deny_write (disk w))) as [Hw | Hw].
  { destruct (write_file_fails (saved_image_path inp uploaded_file)
                (uf_getvalue uploaded_file) w Hw) as (e & Hcls & ->).
    destruct (failed_write_frame (saved_image_path inp uploaded_file)
                (uf_getvalue uploaded_file) w) as (_ & _ & Hui & _).
    eexists. split; [reflexivity|]. right. left. split; [reflexivity|].
    exists e. split; [cbn; now rewrite Hui | left; auto]. }
  rewrite (write_file_ok _ _ w Hw).
  unfold ret at 1. cbv beta iota. unfold bind at 1.
  destruct (provider inp) as [content | e] eqn:Hprov; cbn [lift].
  2:{ eexists. split; [reflexivity|]. right. left. split; [reflexivity|].
      exists e. split; [reflexivity | right; left; auto]. }
  assert (Hres : match content with
                 | Some text => if String.eqb text "" then "" else text
                 | None => ""
                 end = default "" content).
  { destruct content as [text|]; [apply or_empty | reflexivity]. }
  rewrite Hres. cbv beta iota zeta. cbn [fst snd].
  unfold append_record. unfold bind at 1. unfold bind at 1. unfold get at 1.
  cbv beta iota. cbn [history set_disk]. unfold bind at 1.
  destruct (py_append (history w) _) as [h | e] eqn:Happ; cbn [lift].
  2:{ eexists. split; [reflexivity|]. right. left. split; [reflexivity|].
      exists e. split; [reflexivity|]. right. right.
      split; [exact Hw|]. split; [eauto|]. left.
      revert Happ. unfold py_append.
      destruct (history w); intros [= <-]; reflexivity. }
  unfold bind at 1. unfold modify at 1. cbv beta iota.
  match goal with
  | |- context [save_history h ?w2] =>
      destruct (save_history_frame h w2)
        as (r & w3 & -> & _ & _ & Hui & _ & [-> | (e & -> & Hcls)])
  end.
  - eexists. split; [reflexivity|]. right. right. split; [reflexivity|].
    split; [exact Hw|]. exists content. split; [reflexivity|].
    cbn. rewrite Hui. cbn. now rewrite <- !app_assoc.
  - eexists. split; [reflexivity|]. right. left. split; [reflexivity|].
    exists e. split; [cbn; now rewrite Hui|]. right. right.
    split; [exact Hw|]. split; [eauto|]. right. exact Hcls.
Qed.

(** C7: when the provider answers with an authentication failure, the
    click ends normally with the history as it was (same value, same
    length) and the document untouched, and the message shown is the
    authentication one.  That message is distinct: whatever the inputs and
    the state, a click shows it only when the image was stored and the
    provider raised an authentication failure. *)
Theorem authentication_failure_appends_nothing (inp : analysis_inputs)
    (uploaded_file : UploadedFile) (w : world) (e : exn) :
  api_key_missing (api_key inp) = false ->
  provider inp = Raise e ->
  exn_cls e = AuthenticationError ->
  exists w',
    estimate_clicked inp uploaded_file w = (Ok tt, w')
    /\ history w' = history w
    /\ py_len (history w') = py_len (history w)
    /\ files (disk w') !! HISTORY_FILE = files (disk w) !! HISTORY_FILE
    /\ (saved_image_path inp uploaded_file ∉ deny_write (disk w) ->
        ui w' = (ui w ++ [StError AUTH_MESSAGE])%list)
    /\ (forall inp' uploaded_file' w0,
          ui (snd (estimate_clicked inp' uploaded_file' w0))
          = (ui w0 ++ [StError AUTH_MESSAGE])%list ->
          api_key_missing (api_key inp') = false
          /\ (saved_image_path inp' uploaded_file' ∉ deny_write (disk w0))
          /\ exists e', provider inp' = Raise e' /\ exn_cls e' = AuthenticationError).
Proof.
  intros Hkey Hprov Hcls.
  assert (Hdistinct : forall inp' uploaded_file' w0,
            ui (snd (estimate_clicked inp' uploaded_file' w0))
            = (ui w0 ++ [StError AUTH_MESSAGE])%list ->
            api_key_missing (api_key inp') = false
            /\ (saved_image_path inp' uploaded_file' ∉ deny_write (disk w0))
            /\ exists e', provider inp' = Raise e' /\ exn_cls e' = AuthenticationError).
  { intros inp' f' w0.
    destruct (estimate_clicked_shows inp' f' w0)
      as (w' & -> & [(_ & Hshown) | [(Hk & e' & Hshown & Hwhy)
                                    | (_ & _ & content & _ & Hshown)]]);
      cbn [snd]; rewrite Hshown; intros Hui; apply app_inv_head in Hui.
    - exfalso. injection Hui as Hmsg. revert Hmsg. unfold CONFIG_MESSAGE, AUTH_MESSAGE.
      discriminate.
    - injection Hui as Hmsg. apply handler_message_auth in Hmsg.
      destruct Hwhy as [(_ & Hos) | [(Hw0 & Hraise) | (_ & _ & Hothers)]].
      + congruence.
      + split; [exact Hk|]. split; [exact Hw0|]. eauto.
      + destruct Hothers as [H | [H | H]]; congruence.
    - discriminate Hui. }
  unfold estimate_clicked. rewrite Hkey.
  unfold try_except, save_uploaded_image_locally.
  fold (saved_image_path inp uploaded_file).
  unfold bind at 1. unfold bind at 1.
  destruct (decide (saved_image_path inp uploaded_file ∈ deny_write (disk w))) as [Hw | Hw].
  - destruct (write_file_fails (saved_image_path inp uploaded_file)
                (uf_getvalue uploaded_file) w Hw) as (e0 & _ & ->).
    destruct (failed_write_frame (saved_image_path inp uploaded_file)
                (uf_getvalue uploaded_file) w) as (Hh & _ & _ & _ & _ & _ & _ & Hother).
    eexists. split; [reflexivity|]. unfold analysis_handler, st_error, modify, show.
    cbn. rewrite Hh. split; [reflexivity|]. split; [reflexivity|].
    split; [apply Hother, not_eq_sym, saved_image_path_not_history|].
    split; [intros Hnot; contradiction | exact Hdistinct].
  - rewrite (write_file_ok _ _ w Hw).
    unfold ret at 1. cbv beta iota. unfold bind at 1. rewrite Hprov. cbn [lift].
    eexists. split; [reflexivity|]. unfold analysis_handler, st_error, modify, show.
    cbn. split; [reflexivity|]. split; [reflexivity|].
    split; [apply lookup_insert_ne, saved_image_path_not_history|].
    split; [|exact Hdistinct].
    intros _. rewrite (proj2 (handler_message_auth e) Hcls). reflexivity.
Qed.

(** ** Appending, then loading in a new session *)

Lemma valid_record_well_formed (r : pyval) : valid_record r -> well_formed r = true.
Proof. intros (t & n & p & res & ->). reflexivity. Qed.

Lemma encodable_snoc (items : list pyval) (r : pyval) :
  encodable (VList items) = true -> encodable r = true ->
  encodable (VList (items ++ [r])) = true.
Proof.
  cbn [encodable]. intros Hitems Hr. rewrite forallb_app, Hitems. cbn [forallb].
  now rewrite Hr.
Qed.

(** Appending to a list history: the record is in the session's history
    before [save_history] runs. *)
Lemma append_record_run (w : world) (items : list pyval) (r : pyval) :
  history w = VList items ->
  append_record r w
  = save_history (VList (items ++ [r])) (set_history (VList (items ++ [r])) w).
Proof.
  intros Hh. unfold append_record. unfold bind at 1. unfold get at 1. cbv beta iota.
  rewrite Hh. unfold bind at 1. cbn [lift py_append].
  unfold bind at 1. unfold modify at 1. reflexivity.
Qed.

Section RoundTrip.

(** What the script relies on from the [json] module: a value that
    [json.dump] can write is read back by [json.load]. *)
Hypothesis json_round_trip :
  forall v, well_formed v = true -> encodable v = true ->
            json_loads (json_dumps v) = Some v.

(** Appending a valid record and saving, then loading in a session started
    afresh on the saved document, with any codec that reads back what it
    writes. *)
Lemma append_then_load_with_codec (w fresh : world) (items : list pyval) (r : pyval) :
  history w = VList items ->
  well_formed (VList items) = true ->
  encodable (VList items) = true ->
  valid_record r ->
  encodable r = true ->
  HISTORY_FILE ∉ deny_write (disk w) ->
  HISTORY_FILE ∉ deny_read (disk w) ->
  disk fresh = disk (snd (append_record r w)) ->
  fst (append_record r w) = Ok tt
  /\ exists loaded,
       load_history fresh = (Ok (VList loaded), fresh)
       /\ history (snd (start_session fresh)) = VList loaded
       /\ loaded = (items ++ [r])%list
       /\ last loaded = Some r.
Proof using json_round_trip.
  intros Hh Hwf Henc Hr Hrenc Hwrite Hread.
  pose proof (encodable_snoc items r Henc Hrenc) as Hall.
  rewrite (append_record_run w items r Hh), save_history_ok by assumption.
  cbn [fst snd disk set_disk]. intros Hdisk.
  split; [reflexivity|].
  assert (Hload : load_history fresh = (Ok (VList (items ++ [r])), fresh)).
  { rewrite (load_history_reads fresh (json_dumps (VList (items ++ [r])))).
    - rewrite json_round_trip; [reflexivity| |exact Hall].
      cbn [well_formed] in *. rewrite forallb_app, Hwf. cbn [forallb].
      now rewrite (valid_record_well_formed r Hr).
    - rewrite Hdisk. cbn. apply lookup_insert_eq.
    - rewrite Hdisk. exact Hread. }
  exists (items ++ [r])%list. split; [exact Hload|].
  split; [|split; [reflexivity | apply last_snoc]].
  unfold start_session, bind. rewrite Hload. reflexivity.
Qed.

End RoundTrip.

End App.

(** * The JSON codec round-trips *)

Import JsonCodec.

Ltac each_char c := destruct c as [[] [] [] [] [] [] [] []].

Lemma str_app_cons (x : ascii) (a b : string) : String x a ++ b = String x (a ++ b).
Proof. reflexivity. Qed.

Lemma str_app_nil (b : string) : "" ++ b = b.
Proof. reflexivity. Qed.

Lemma str_app_assoc (a b c : string) : (a ++ b) ++ c = a ++ (b ++ c).
Proof.
  induction a as [| x a IH]; [reflexivity|].
  rewrite !str_app_cons. f_equal. exact IH.
Qed.

Lemma str_length_app (a b : string) :
  String.length (a ++ b) = (String.length a + String.length b)%nat.
Proof.
  induction a as [| x a IH]; [reflexivity|].
  rewrite str_app_cons. cbn [String.length]. now rewrite IH.
Qed.

Lemma skip_ws_spaces (n : nat) (s : string) : skip_ws (spaces n ++ s) = skip_ws s.
Proof.
  induction n as [| n IH]; [reflexivity|].
  cbn [spaces]. rewrite str_app_cons. exact IH.
Qed.

Lemma skip_ws_newline_indent (level : nat) (s : string) :
  skip_ws (newline_indent level ++ s) = skip_ws s.
Proof. unfold newline_indent. rewrite str_app_cons. apply skip_ws_spaces. Qed.

Lemma parse_value_skip_ws (fuel : nat) (s1 s2 : string) :
  skip_ws s1 = skip_ws s2 -> parse_value fuel s1 = parse_value fuel s2.
Proof. intros H. destruct fuel; [reflexivity|]. cbn. now rewrite H. Qed.

Lemma parse_escape_char (c : ascii) (tail : string) :
  parse_string_body (escape_char c ++ tail) =
  match parse_string_body tail with
  | Some (text, rest) => Some (String c text, rest)
  | None => None
  end.
Proof. each_char c; reflexivity. Qed.

Lemma parse_string_body_escape (s rest : string) :
  parse_string_body (escape s ++ String dquote rest) = Some (s, rest).
Proof.
  induction s as [| c s IH]; [reflexivity|].
  cbn [escape]. rewrite str_app_assoc, parse_escape_char, IH. reflexivity.
Qed.

Lemma span_digits_uint (u : Decimal.uint) (rest : string) :
  ends_number rest = true ->
  span_digits (NilEmpty.string_of_uint u ++ rest) = (NilEmpty.string_of_uint u, rest).
Proof.
  intros Hrest. induction u as [| u IH | u IH | u IH | u IH | u IH | u IH | u IH | u IH | u IH | u IH];
    try (cbn [NilEmpty.string_of_uint]; rewrite str_app_cons;
         cbn [span_digits]; rewrite IH; reflexivity).
  cbn [NilEmpty.string_of_uint]. rewrite str_app_nil.
  destruct rest as [| c r]; [reflexivity|].
  cbn in Hrest. cbn [span_digits]. destruct (is_digit c); [discriminate | reflexivity].
Qed.

Lemma to_uint_nonnil (n : N) : N.to_uint n <> Decimal.Nil.
Proof.
  rewrite <- (DecimalN.Unsigned.of_to n) at 1.
  rewrite DecimalN.Unsigned.to_of. apply unorm_nonnil.
Qed.

Lemma dump_nat_digits (n : N) : dump_nat n = NilEmpty.string_of_uint (N.to_uint n).
Proof.
  unfold dump_nat, NilZero.string_of_uint.
  pose proof (to_uint_nonnil n). now destruct (N.to_uint n).
Qed.

Lemma ends_number_not_float (rest : string) :
  ends_number rest = true -> starts_float_part rest = false.
Proof.
  destruct rest as [| c r]; [reflexivity|]. unfold ends_number.
  intros H. apply andb_prop in H as [_ H]. now apply negb_true_iff in H.
Qed.

Lemma parse_nat_dump (n : N) (rest : string) :
  ends_number rest = true -> parse_nat (dump_nat n ++ rest) = Some (n, rest).
Proof.
  intros Hrest. unfold parse_nat.
  rewrite dump_nat_digits, span_digits_uint by assumption.
  rewrite <- dump_nat_digits. unfold dump_nat at 1.
  rewrite NilZero.usu by apply to_uint_nonnil.
  rewrite DecimalN.Unsigned.of_to, String.eqb_refl, ends_number_not_float by assumption.
  reflexivity.
Qed.

Lemma dump_nat_head (n : N) :
  exists c s, dump_nat n = String c s /\ is_digit c = true.
Proof.
  rewrite dump_nat_digits. pose proof (to_uint_nonnil n) as Hnil.
  destruct (N.to_uint n); [contradiction| ..]; cbn [NilEmpty.string_of_uint];
    eexists _, _; split; reflexivity.
Qed.

Lemma parse_int_digit (c : ascii) (s : string) :
  is_digit c = true ->
  parse_int (String c s) =
  match parse_nat (String c s) with
  | Some (n, tail) => Some (Z.of_N n, tail)
  | None => None
  end.
Proof. each_char c; intros H; try discriminate H; reflexivity. Qed.

Lemma parse_int_dump (z : Z) (rest : string) :
  ends_number rest = true -> parse_int (dump_int z ++ rest) = Some (z, rest).
Proof.
  intros Hrest. unfold dump_int. destruct (Z.ltb_spec z 0) as [Hneg | Hpos].
  - rewrite str_app_assoc. change ("-" ++ ?s) with (String "-" s).
    cbn [parse_int]. rewrite parse_nat_dump by assumption.
    f_equal. f_equal. rewrite N2Z.inj_abs_N. lia.
  - destruct (dump_nat_head (Z.abs_N z)) as (c & s & Hhead & Hc).
    pose proof (parse_nat_dump (Z.abs_N z) rest Hrest) as Hparse.
    rewrite Hhead in *. rewrite str_app_cons in *.
    rewrite parse_int_digit, Hparse by assumption.
    f_equal. f_equal. rewrite N2Z.inj_abs_N. lia.
Qed.

Lemma parse_value_number_head (fuel : nat) (c : ascii) (s : string) :
  c = "-"%char \/ is_digit c = true ->
  parse_value (S fuel) (String c s) =
  match parse_int (String c s) with
  | Some (n, tail) => Some (VInt n, tail)
  | None => None
  end.
Proof.
  intros [-> | H]; [reflexivity|].
  each_char c; try discriminate H; reflexivity.
Qed.

Lemma dump_int_head (z : Z) :
  exists c s, dump_int z = String c s /\ (c = "-"%char \/ is_digit c = true).
Proof.
  unfold dump_int. destruct (z <? 0)%Z.
  - eexists _, _. split; [reflexivity | now left].
  - destruct (dump_nat_head (Z.abs_N z)) as (c & s & -> & Hc). eauto.
Qed.

Lemma parse_value_int (fuel : nat) (z : Z) (rest : string) :
  ends_number rest = true ->
  parse_value (S fuel) (dump_int z ++ rest) = Some (VInt z, rest).
Proof.
  intros Hrest. pose proof (parse_int_dump z rest Hrest) as Hparse.
  destruct (dump_int_head z) as (c & s & Hhead & Hc).
  rewrite Hhead in *. rewrite str_app_cons in *.
  now rewrite parse_value_number_head, Hparse.
Qed.

(** A printed value starts with a character that is neither white space nor
    a closing bracket. *)
Lemma dump_head (level : nat) (v : pyval) :
  exists c s, dump level v = String c s
    /\ is_ws c = false /\ c <> "]"%char /\ c <> "}"%char.
Proof.
  destruct v as [| [] | z | s | [| x xs] | [| kv fields]];
    try (eexists _, _; split; [reflexivity | repeat split; discriminate]).
  destruct (dump_int_head z) as (c & s & Hhead & [-> | Hc]).
  - cbn [dump]. rewrite Hhead. eexists _, _. split; [reflexivity|].
    repeat split; discriminate.
  - cbn [dump]. rewrite Hhead. eexists _, _. split; [reflexivity|].
    revert Hc. each_char c; intros Hc; try discriminate Hc; repeat split; discriminate.
Qed.

Lemma parse_value_open_list (fuel : nat) (s : string) (c : ascii) (s' : string) :
  skip_ws s = String c s' -> c <> "]"%char ->
  parse_value (S fuel) (String "[" s) =
  match parse_items fuel s with
  | Some (items, tail) => Some (VList items, tail)
  | None => None
  end.
Proof.
  intros H Hc.
  change (parse_value (S fuel) (String "[" s)) with
    (match skip_ws s with
     | String "]" tail => Some (VList [], tail)
     | _ => match parse_items fuel s with
            | Some (items, tail) => Some (VList items, tail)
            | None => None
            end
     end).
  rewrite H. each_char c; try reflexivity. now destruct Hc.
Qed.

Lemma parse_value_open_dict (fuel : nat) (s : string) (c : ascii) (s' : string) :
  skip_ws s = String c s' -> c <> "}"%char ->
  parse_value (S fuel) (String "{" s) =
  match parse_members fuel s with
  | Some (pairs, tail) => Some (VDict (dict_of_pairs pairs), tail)
  | None => None
  end.
Proof.
  intros H Hc.
  change (parse_value (S fuel) (String "{" s)) with
    (match skip_ws s with
     | String "}" tail => Some (VDict [], tail)
     | _ => match parse_members fuel s with
            | Some (pairs, tail) => Some (VDict (dict_of_pairs pairs), tail)
            | None => None
            end
     end).
  rewrite H. each_char c; try reflexivity. now destruct Hc.
Qed.

Lemma parse_items_more (fuel : nat) (s : string) (v : pyval) (tail tail' : string) :
  parse_value fuel s = Some (v, tail) ->
  skip_ws tail = String "," tail' ->
  parse_items (S fuel) s =
  match parse_items fuel tail' with
  | Some (vs, t) => Some (v :: vs, t)
  | None => None
  end.
Proof. intros H1 H2. cbn. rewrite H1, H2. reflexivity. Qed.

Lemma parse_items_last (fuel : nat) (s : string) (v : pyval) (tail tail' : string) :
  parse_value fuel s = Some (v, tail) ->
  skip_ws tail = String "]" tail' ->
  parse_items (S fuel) s = Some ([v], tail').
Proof. intros H1 H2. cbn. rewrite H1, H2. reflexivity. Qed.

Lemma parse_members_more (fuel : nat) (s body t1 t2 t3 t4 key : string) (v : pyval) :
  skip_ws s = String dquote body ->
  parse_string_body body = Some (key, t1) ->
  skip_ws t1 = String ":" t2 ->
  parse_value fuel t2 = Some (v, t3) ->
  skip_ws t3 = String "," t4 ->
  parse_members (S fuel) s =
  match parse_members fuel t4 with
  | Some (ms, t) => Some ((key, v) :: ms, t)
  | None => None
  end.
Proof. intros H1 H2 H3 H4 H5. cbn. rewrite H1. cbn. rewrite H2, H3, H4, H5. reflexivity. Qed.

Lemma parse_members_last (fuel : nat) (s body t1 t2 t3 t4 key : string) (v : pyval) :
  skip_ws s = String dquote body ->
  parse_string_body body = Some (key, t1) ->
  skip_ws t1 = String ":" t2 ->
  parse_value fuel t2 = Some (v, t3) ->
  skip_ws t3 = String "}" t4 ->
  parse_members (S fuel) s = Some ([(key, v)], t4).
Proof. intros H1 H2 H3 H4 H5. cbn. rewrite H1. cbn. rewrite H2, H3, H4, H5. reflexivity. Qed.

Lemma str_app_nil_r (a : string) : a ++ "" = a.
Proof.
  induction a as [| x a IH]; [reflexivity|].
  rewrite str_app_cons. now rewrite IH.
Qed.

Lemma skip_ws_head (c : ascii) (s : string) :
  is_ws c = false -> skip_ws (String c s) = String c s.
Proof. intros H. cbn [skip_ws]. now rewrite H. Qed.

Lemma dict_set_fresh (fields : list (string * pyval)) (key : string) (value : pyval) :
  key ∉ map fst fields -> dict_set fields key value = (fields ++ [(key, value)])%list.
Proof.
  induction fields as [| [k v] rest IH]; intros Hfresh; [reflexivity|].
  cbn [dict_set]. cbn [map fst] in Hfresh. apply not_elem_of_cons in Hfresh as [Hne Hrest].
  destruct (String.eqb_spec k key) as [-> | _]; [contradiction|].
  cbn. now rewrite IH.
Qed.

Lemma dict_of_pairs_from (pairs acc : list (string * pyval)) :
  NoDup (map fst (acc ++ pairs)) ->
  fold_left (fun d kv => dict_set d (fst kv) (snd kv)) pairs acc = (acc ++ pairs)%list.
Proof.
  revert acc. induction pairs as [| [k v] rest IH]; intros acc Hnodup.
  - now rewrite app_nil_r.
  - cbn [fold_left fst snd]. rewrite dict_set_fresh.
    + rewrite IH; rewrite <- app_assoc; [reflexivity | exact Hnodup].
    + rewrite map_app in Hnodup. apply NoDup_app in Hnodup as (_ & Hdisj & _).
      intros Hin. apply (Hdisj k Hin). cbn. left.
Qed.

Lemma dict_of_pairs_nodup (fields : list (string * pyval)) :
  NoDup (map fst fields) -> dict_of_pairs fields = fields.
Proof. intros H. unfold dict_of_pairs. now rewrite dict_of_pairs_from. Qed.

Lemma dump_list_cons (level : nat) (x : pyval) (xs : list pyval) :
  dump level (VList (x :: xs)) =
  "[" ++ newline_indent (S level)
  ++ String.concat ("," ++ newline_indent (S level)) (map (dump (S level)) (x :: xs))
  ++ newline_indent level ++ "]".
Proof. reflexivity. Qed.

Lemma dump_dict_cons (level : nat) (kv : string * pyval) (fields : list (string * pyval)) :
  dump level (VDict (kv :: fields)) =
  "{" ++ newline_indent (S level)
  ++ String.concat ("," ++ newline_indent (S level))
       (map (fun kv => dump_string (fst kv) ++ ": " ++ dump (S level) (snd kv)) (kv :: fields))
  ++ newline_indent level ++ "}".
Proof. reflexivity. Qed.

Lemma concat_cons_cons (sep x y : string) (l : list string) :
  String.concat sep (x :: y :: l) = x ++ sep ++ String.concat sep (y :: l).
Proof. reflexivity. Qed.

Lemma concat_head (sep x : string) (l : list string) (tail : string) :
  exists tail', String.concat sep (x :: l) ++ tail = x ++ tail'.
Proof.
  destruct l as [| y l].
  - exists tail. reflexivity.
  - exists (sep ++ String.concat sep (y :: l) ++ tail).
    now rewrite concat_cons_cons, !str_app_assoc.
Qed.

Lemma parse_items_dump (level outer : nat) (items : list pyval) :
  items <> [] ->
  Forall parses_back items ->
  forall (fuel : nat) (rest : string),
    (String.length (String.concat ("," ++ newline_indent level) (map (dump level) items))
     < fuel)%nat ->
    parse_items fuel
      (newline_indent level
       ++ String.concat ("," ++ newline_indent level) (map (dump level) items)
       ++ newline_indent outer ++ "]" ++ rest)
    = Some (items, rest).
Proof.
  intros Hne Hall. induction Hall as [| x xs Hx Hxs IH]; [contradiction|].
  intros fuel rest Hfuel. destruct fuel as [| fuel]; [lia|].
  destruct xs as [| y l].
  - change (String.concat _ (map (dump level) [x])) with (dump level x) in *.
    apply parse_items_last with (tail := newline_indent outer ++ "]" ++ rest).
    + rewrite (parse_value_skip_ws fuel _ _ (skip_ws_newline_indent level _)).
      apply Hx; [lia | reflexivity].
    + rewrite skip_ws_newline_indent. reflexivity.
  - change (map (dump level) (x :: y :: l))
      with (dump level x :: dump level y :: map (dump level) l) in *.
    rewrite concat_cons_cons in *.
    change (dump level y :: map (dump level) l) with (map (dump level) (y :: l)) in *.
    rewrite !str_length_app in Hfuel. change (String.length ",") with 1%nat in Hfuel.
    rewrite !str_app_assoc.
    rewrite (parse_items_more fuel _ x
               ("," ++ newline_indent level
                ++ String.concat ("," ++ newline_indent level) (map (dump level) (y :: l))
                ++ newline_indent outer ++ "]" ++ rest)
               (newline_indent level
                ++ String.concat ("," ++ newline_indent level) (map (dump level) (y :: l))
                ++ newline_indent outer ++ "]" ++ rest)).
    + rewrite IH; [reflexivity | discriminate | lia].
    + rewrite (parse_value_skip_ws fuel _ _ (skip_ws_newline_indent level _)).
      apply Hx; [lia | reflexivity].
    + reflexivity.
Qed.

Lemma dump_dict_members (level : nat) (kv : string * pyval) (fields : list (string * pyval)) :
  dump level (VDict (kv :: fields)) =
  "{" ++ newline_indent (S level)
  ++ String.concat ("," ++ newline_indent (S level)) (map (dump_member (S level)) (kv :: fields))
  ++ newline_indent level ++ "}".
Proof. reflexivity. Qed.

Lemma dump_string_app (s rest : string) :
  dump_string s ++ rest = String dquote (escape s ++ String dquote rest).
Proof. unfold dump_string. now rewrite str_app_cons, str_app_assoc. Qed.

Lemma parse_value_string (fuel : nat) (body : string) :
  parse_value (S fuel) (String dquote body) =
  match parse_string_body body with
  | Some (text, tail) => Some (VStr text, tail)
  | None => None
  end.
Proof. reflexivity. Qed.

Lemma parse_member_dump (level fuel : nat) (k : string) (v : pyval) (tail : string) :
  parses_back v ->
  (String.length (dump level v) <= fuel)%nat ->
  ends_number tail = true ->
  exists body t1 t2,
    skip_ws (newline_indent level ++ dump_member level (k, v) ++ tail) = String dquote body
    /\ parse_string_body body = Some (k, t1)
    /\ skip_ws t1 = String ":" t2
    /\ parse_value fuel t2 = Some (v, tail).
Proof.
  intros Hv Hfuel Htail.
  exists (escape k ++ String dquote (": " ++ dump level v ++ tail)),
         (": " ++ dump level v ++ tail), (" " ++ dump level v ++ tail).
  split; [|split; [|split]].
  - rewrite skip_ws_newline_indent. unfold dump_member. cbn [fst snd].
    rewrite !str_app_assoc, dump_string_app. now apply skip_ws_head.
  - apply parse_string_body_escape.
  - reflexivity.
  - rewrite (parse_value_skip_ws fuel _ (dump level v ++ tail)) by reflexivity.
    now apply Hv.
Qed.

Lemma parse_members_dump (level outer : nat) (fields : list (string * pyval)) :
  fields <> [] ->
  Forall (fun kv => parses_back (snd kv)) fields ->
  forall (fuel : nat) (rest : string),
    (String.length
       (String.concat ("," ++ newline_indent level) (map (dump_member level) fields))
     < fuel)%nat ->
    parse_members fuel
      (newline_indent level
       ++ String.concat ("," ++ newline_indent level) (map (dump_member level) fields)
       ++ newline_indent outer ++ "}" ++ rest)
    = Some (fields, rest).
Proof.
  intros Hne Hall. induction Hall as [| [k v] xs Hx Hxs IH]; [contradiction|].
  intros fuel rest Hfuel. destruct fuel as [| fuel]; [lia|].
  cbn [snd] in Hx. destruct xs as [| y l].
  - change (String.concat _ (map (dump_member level) [(k, v)]))
      with (dump_member level (k, v)) in *.
    unfold dump_member at 1 in Hfuel. cbn [fst snd] in Hfuel.
    rewrite !str_length_app in Hfuel.
    destruct (parse_member_dump level fuel k v (newline_indent outer ++ "}" ++ rest) Hx)
      as (body & t1 & t2 & H1 & H2 & H3 & H4); [lia | reflexivity |].
    apply (parse_members_last fuel _ body t1 t2 _ rest k v H1 H2 H3 H4).
    rewrite skip_ws_newline_indent. reflexivity.
  - change (map (dump_member level) ((k, v) :: y :: l))
      with (dump_member level (k, v) :: dump_member level y :: map (dump_member level) l) in *.
    rewrite concat_cons_cons in *.
    change (dump_member level y :: map (dump_member level) l)
      with (map (dump_member level) (y :: l)) in *.
    unfold dump_member at 1 in Hfuel. cbn [fst snd] in Hfuel.
    rewrite !str_length_app in Hfuel. change (String.length ",") with 1%nat in Hfuel.
    rewrite !str_app_assoc.
    destruct (parse_member_dump level fuel k v
                ("," ++ newline_indent level
                 ++ String.concat ("," ++ newline_indent level)
                      (map (dump_member level) (y :: l))
                 ++ newline_indent outer ++ "}" ++ rest) Hx)
      as (body & t1 & t2 & H1 & H2 & H3 & H4); [lia | reflexivity |].
    rewrite (parse_members_more fuel _ body t1 t2 _ _ k v H1 H2 H3 H4 eq_refl).
    rewrite IH; [reflexivity | discriminate | lia].
Qed.

Lemma well_formed_items (items : list pyval) :
  forallb well_formed items = true ->
  Forall (fun v => well_formed v = true -> parses_back v) items ->
  Forall parses_back items.
Proof.
  intros Hwf Hall. induction Hall as [| x xs Hx _ IH]; [constructor|].
  cbn [forallb] in Hwf. apply andb_prop in Hwf as [Hwx Hwxs].
  constructor; auto.
Qed.

Lemma well_formed_fields (fields : list (string * pyval)) :
  forallb (fun kv => well_formed (snd kv)) fields = true ->
  Forall (fun kv => well_formed (snd kv) = true -> parses_back (snd kv)) fields ->
  Forall (fun kv => parses_back (snd kv)) fields.
Proof.
  intros Hwf Hall. induction Hall as [| x xs Hx _ IH]; [constructor|].
  cbn [forallb] in Hwf. apply andb_prop in Hwf as [Hwx Hwxs].
  constructor; auto.
Qed.

Lemma dump_nonempty (level : nat) (v : pyval) : (1 <= String.length (dump level v))%nat.
Proof.
  destruct (dump_head level v) as (c & s & -> & _). cbn [String.length]. lia.
Qed.

Theorem parse_value_dump (v : pyval) : well_formed v = true -> parses_back v.
Proof.
  induction v as [| b | n | s | items IH | fields IH] using pyval_ind;
    intros Hwf level fuel rest Hfuel Hrest;
    (destruct fuel as [| fuel];
     [match type of Hfuel with
      | (String.length (dump _ ?x) <= _)%nat => pose proof (dump_nonempty level x); lia
      end|]).
  - reflexivity.
  - destruct b; reflexivity.
  - now apply parse_value_int.
  - cbn [dump]. rewrite dump_string_app, parse_value_string, parse_string_body_escape.
    reflexivity.
  - destruct items as [| x xs]; [reflexivity|].
    cbn [well_formed] in Hwf. pose proof (well_formed_items _ Hwf IH) as Hall.
    rewrite dump_list_cons in *. rewrite !str_length_app in Hfuel.
    change (String.length "[") with 1%nat in Hfuel.
    change (String.length "]") with 1%nat in Hfuel.
    rewrite !str_app_assoc. rewrite (str_app_cons "[" "").  rewrite str_app_nil.
    destruct (dump_head (S level) x) as (c & s' & Hd & Hws & Hc1 & Hc2).
    destruct (concat_head ("," ++ newline_indent (S level)) (dump (S level) x)
                (map (dump (S level)) xs) (newline_indent level ++ "]" ++ rest))
      as [tail' Htail].
    rewrite (parse_value_open_list fuel _ c (s' ++ tail')).
    + rewrite parse_items_dump; [reflexivity | discriminate | assumption | lia].
    + rewrite skip_ws_newline_indent.
      change (map (dump (S level)) (x :: xs))
        with (dump (S level) x :: map (dump (S level)) xs).
      rewrite Htail, Hd, str_app_cons. now apply skip_ws_head.
    + assumption.
  - destruct fields as [| [k x] xs]; [reflexivity|].
    cbn [well_formed] in Hwf. apply andb_prop in Hwf as [Hnodup Hwf].
    apply bool_decide_eq_true in Hnodup.
    pose proof (well_formed_fields _ Hwf IH) as Hall.
    rewrite dump_dict_members in *. rewrite !str_length_app in Hfuel.
    change (String.length "{") with 1%nat in Hfuel.
    change (String.length "}") with 1%nat in Hfuel.
    rewrite !str_app_assoc. rewrite (str_app_cons "{" ""). rewrite str_app_nil.
    destruct (concat_head ("," ++ newline_indent (S level)) (dump_member (S level) (k, x))
                (map (dump_member (S level)) xs) (newline_indent level ++ "}" ++ rest))
      as [tail' Htail].
    rewrite (parse_value_open_dict fuel _ dquote
               (escape k ++ String dquote (": " ++ dump (S level) x ++ tail'))).
    + rewrite parse_members_dump; [|discriminate | assumption | lia].
      now rewrite dict_of_pairs_nodup.
    + rewrite skip_ws_newline_indent.
      change (map (dump_member (S level)) ((k, x) :: xs))
        with (dump_member (S level) (k, x) :: map (dump_member (S level)) xs).
      rewrite Htail. unfold dump_member at 1. cbn [fst snd].
      rewrite !str_app_assoc, dump_string_app. now apply skip_ws_head.
    + discriminate.
Qed.

(** ** What the printer writes is UTF-8 *)

Lemma utf8_encodable_text (s : string) : utf8_encodable s = true <-> utf8_text s.
Proof.
  unfold utf8_encodable, utf8_text.
  destruct (utf8_run Start s) as [[]|]; split; intros H; try reflexivity;
    discriminate H.
Qed.

Lemma utf8_run_app (st : utf8_state) (a b : string) :
  utf8_run st (a ++ b)
  = match utf8_run st a with
    | Some st' => utf8_run st' b
    | None => None
    end.
Proof.
  revert st. induction a as [| x a IH]; intros st; [reflexivity|].
  rewrite str_app_cons. cbn [utf8_run]. destruct (utf8_step st x); [apply IH | reflexivity].
Qed.

Lemma utf8_text_app (a b : string) : utf8_text a -> utf8_text b -> utf8_text (a ++ b).
Proof. unfold utf8_text. intros Ha Hb. now rewrite utf8_run_app, Ha. Qed.

Lemma utf8_text_cons (c : ascii) (s : string) :
  utf8_step Start c = Some Start -> utf8_text s -> utf8_text (String c s).
Proof. unfold utf8_text. intros Hc Hs. cbn [utf8_run]. now rewrite Hc. Qed.

Lemma utf8_text_spaces (n : nat) : utf8_text (spaces n).
Proof. induction n as [| n IH]; [reflexivity|]. now apply utf8_text_cons. Qed.

Lemma utf8_text_newline_indent (level : nat) : utf8_text (newline_indent level).
Proof. apply utf8_text_cons; [reflexivity | apply utf8_text_spaces]. Qed.

Lemma utf8_text_digits (u : Decimal.uint) : utf8_text (NilEmpty.string_of_uint u).
Proof.
  induction u as [| u IH | u IH | u IH | u IH | u IH | u IH | u IH | u IH | u IH | u IH];
    [reflexivity | ..]; cbn [NilEmpty.string_of_uint]; now apply utf8_text_cons.
Qed.

Lemma utf8_text_dump_nat (n : N) : utf8_text (dump_nat n).
Proof. rewrite dump_nat_digits. apply utf8_text_digits. Qed.

Lemma utf8_text_dump_int (z : Z) : utf8_text (dump_int z).
Proof.
  unfold dump_int. destruct (z <? 0)%Z; [|apply utf8_text_dump_nat].
  apply (utf8_text_app "-"); [reflexivity | apply utf8_text_dump_nat].
Qed.

(** An escape is made of ASCII characters, and a character that is not
    escaped is itself: the decoder cannot tell [escape s] from [s]. *)
Lemma utf8_run_escape_char (st : utf8_state) (c : ascii) (t : string) :
  utf8_run st (escape_char c ++ t)
  = match utf8_step st c with
    | Some st' => utf8_run st' t
    | None => None
    end.
Proof. destruct st; each_char c; reflexivity. Qed.

Lemma utf8_run_escape (st : utf8_state) (s t : string) :
  utf8_run st (escape s ++ t)
  = match utf8_run st s with
    | Some st' => utf8_run st' t
    | None => None
    end.
Proof.
  revert st. induction s as [| c s IH]; intros st; [reflexivity|].
  cbn [escape utf8_run]. rewrite str_app_assoc, utf8_run_escape_char.
  destruct (utf8_step st c); [apply IH | reflexivity].
Qed.

Lemma utf8_text_dump_string (s : string) : utf8_encodable s = true -> utf8_text (dump_string s).
Proof.
  intros Hs. apply utf8_encodable_text in Hs. unfold dump_string.
  apply utf8_text_cons; [reflexivity|]. unfold utf8_text.
  now rewrite utf8_run_escape, Hs.
Qed.

Lemma utf8_text_concat (sep : string) (l : list string) :
  utf8_text sep -> Forall utf8_text l -> utf8_text (String.concat sep l).
Proof.
  intros Hsep Hl. induction Hl as [| x l Hx Hl IH]; [reflexivity|].
  destruct l as [| y l]; [exact Hx|].
  change (String.concat sep (x :: y :: l)) with (x ++ sep ++ String.concat sep (y :: l)).
  apply utf8_text_app; [exact Hx|]. now apply utf8_text_app.
Qed.

Lemma utf8_text_dump (v : pyval) (level : nat) :
  encodable v = true -> utf8_text (dump level v).
Proof.
  revert level.
  induction v as [| b | n | s | items IH | fields IH] using pyval_ind; intros level Henc.
  - reflexivity.
  - now destruct b.
  - apply utf8_text_dump_int.
  - now apply utf8_text_dump_string.
  - destruct items as [| x items]; [reflexivity|].
    cbn [dump]. cbn [encodable] in Henc.
    apply (utf8_text_app "["); [reflexivity|].
    apply utf8_text_app; [apply utf8_text_newline_indent|].
    apply utf8_text_app;
      [|apply utf8_text_app; [apply utf8_text_newline_indent | reflexivity]].
    apply utf8_text_concat.
    + apply (utf8_text_app ","); [reflexivity | apply utf8_text_newline_indent].
    + apply Forall_map. apply Forall_forall. intros y Hy.
      rewrite Forall_forall in IH. apply IH; [exact Hy|].
      rewrite forallb_forall in Henc. apply Henc. now apply list_elem_of_In.
  - destruct fields as [| kv fields]; [reflexivity|].
    cbn [dump]. cbn [encodable] in Henc.
    apply (utf8_text_app "{"); [reflexivity|].
    apply utf8_text_app; [apply utf8_text_newline_indent|].
    apply utf8_text_app;
      [|apply utf8_text_app; [apply utf8_text_newline_indent | reflexivity]].
    apply utf8_text_concat.
    + apply (utf8_text_app ","); [reflexivity | apply utf8_text_newline_indent].
    + apply Forall_map. apply Forall_forall. intros y Hy.
      rewrite Forall_forall in IH. rewrite forallb_forall in Henc.
      specialize (Henc y (proj1 (list_elem_of_In _ _) Hy)).
      apply andb_prop in Henc as [Hk Hv]. cbn beta.
      apply utf8_text_app; [now apply utf8_text_dump_string|].
      apply (utf8_text_app ": "); [reflexivity|]. now apply IH.
Qed.

(** ** The chunks written to the file make up the printed text *)

Lemma join_app (a b : list string) : join (a ++ b) = join a ++ join b.
Proof.
  induction a as [| x a IH]; [reflexivity|].
  cbn [join app]. now rewrite IH, str_app_assoc.
Qed.

Lemma join_list_chunks (chunks_of : pyval -> list string) (text_of : pyval -> string)
    (separator : string) (close : list string) (l : list pyval) (buf : string) :
  Forall (fun x => join (chunks_of x) = text_of x) l ->
  join (list_chunks chunks_of text_of separator close buf l)
  = match l with
    | [] => join close
    | _ => buf ++ String.concat separator (map text_of l) ++ join close
    end.
Proof.
  intros Hl. revert buf. induction Hl as [| x rest Hx _ IH]; intros buf; [reflexivity|].
  cbn [list_chunks]. rewrite join_app, IH.
  assert (Hhead : join match x with
                       | VList _ | VDict _ => buf :: chunks_of x
                       | _ => [buf ++ text_of x]
                       end = buf ++ text_of x).
  { destruct x; cbn [join]; rewrite ?Hx, ?str_app_nil_r; reflexivity. }
  rewrite Hhead. destruct rest as [| y rest].
  - cbn [map String.concat]. now rewrite str_app_assoc.
  - change (String.concat separator (map text_of (x :: y :: rest)))
      with (text_of x ++ separator ++ String.concat separator (map text_of (y :: rest))).
    now rewrite !str_app_assoc.
Qed.

Lemma join_dict_chunks (chunks_of : pyval -> list string) (text_of : pyval -> string)
    (separator : string) (close : list string) (l : list (string * pyval)) (first : bool) :
  Forall (fun kv => join (chunks_of (snd kv)) = text_of (snd kv)) l ->
  join (dict_chunks chunks_of separator close first l)
  = match l with
    | [] => join close
    | _ =>
        (if first then "" else separator)
        ++ String.concat separator
             (map (fun kv => dump_string (fst kv) ++ ": " ++ text_of (snd kv)) l)
        ++ join close
    end.
Proof.
  intros Hl. revert first. induction Hl as [| kv rest Hkv _ IH]; intros first; [reflexivity|].
  cbn [dict_chunks]. rewrite join_app. cbn [join]. rewrite join_app, IH, Hkv.
  assert (Hsep : join (if first then [] else [separator]) = if first then "" else separator).
  { destruct first; [reflexivity | apply str_app_nil_r]. }
  rewrite Hsep. destruct rest as [| kv' rest].
  - cbn [map String.concat]. now rewrite !str_app_assoc.
  - change (String.concat separator
              (map (fun kv => dump_string (fst kv) ++ ": " ++ text_of (snd kv))
                 (kv :: kv' :: rest)))
      with ((dump_string (fst kv) ++ ": " ++ text_of (snd kv)) ++ separator
            ++ String.concat separator
                 (map (fun kv => dump_string (fst kv) ++ ": " ++ text_of (snd kv))
                    (kv' :: rest))).
    now rewrite !str_app_assoc.
Qed.

Lemma join_iterencode (v : pyval) (level : nat) : join (iterencode level v) = dump level v.
Proof.
  revert level.
  induction v as [| b | n | s | items IH | fields IH] using pyval_ind; intros level;
    try apply str_app_nil_r.
  - destruct items as [| x items]; [reflexivity|].
    cbn [iterencode dump]. rewrite join_list_chunks.
    + cbn [join]. now rewrite str_app_nil_r, ?str_app_assoc.
    + eapply Forall_impl; [exact IH|]. intros y Hy. apply Hy.
  - destruct fields as [| kv fields]; [reflexivity|].
    cbn [iterencode dump join]. rewrite (join_dict_chunks _ (dump (S level))).
    + cbn [join]. now rewrite str_app_nil_r, ?str_app_assoc.
    + eapply Forall_impl; [exact IH|]. intros y Hy. apply Hy.
Qed.

Lemma split_encodable_all (chunks : list string) :
  Forall utf8_text chunks -> split_encodable chunks = (join chunks, None).
Proof.
  intros H. induction H as [| x rest Hx _ IH]; [reflexivity|].
  cbn [split_encodable join]. apply utf8_encodable_text in Hx. now rewrite Hx, IH.
Qed.

Lemma utf8_text_list_chunks (chunks_of : pyval -> list string) (text_of : pyval -> string)
    (separator : string) (close : list string) (l : list pyval) (buf : string) :
  Forall (fun x => Forall utf8_text (chunks_of x) /\ utf8_text (text_of x)) l ->
  utf8_text separator -> Forall utf8_text close -> utf8_text buf ->
  Forall utf8_text (list_chunks chunks_of text_of separator close buf l).
Proof.
  intros Hl Hsep Hclose. revert buf.
  induction Hl as [| x rest [Hc Ht] _ IH]; intros buf Hbuf; [exact Hclose|].
  cbn [list_chunks]. apply Forall_app. split; [|now apply IH].
  destruct x; try (apply List.Forall_cons; [now apply utf8_text_app | constructor]);
    now apply List.Forall_cons.
Qed.

Lemma utf8_text_dict_chunks (chunks_of : pyval -> list string)
    (separator : string) (close : list string) (l : list (string * pyval)) (first : bool) :
  Forall (fun kv => utf8_encodable (fst kv) = true /\ Forall utf8_text (chunks_of (snd kv))) l ->
  utf8_text separator -> Forall utf8_text close ->
  Forall utf8_text (dict_chunks chunks_of separator close first l).
Proof.
  intros Hl Hsep Hclose. revert first.
  induction Hl as [| kv rest [Hk Hc] _ IH]; intros first; [exact Hclose|].
  cbn [dict_chunks]. apply Forall_app. split.
  - destruct first; [constructor | now repeat constructor].
  - apply List.Forall_cons; [now apply utf8_text_dump_string|].
    apply List.Forall_cons; [reflexivity|]. apply Forall_app. split; [exact Hc | apply IH].
Qed.

Lemma utf8_text_iterencode (v : pyval) (level : nat) :
  encodable v = true -> Forall utf8_text (iterencode level v).
Proof.
  revert level.
  induction v as [| b | n | s | items IH | fields IH] using pyval_ind; intros level Henc.
  - now repeat constructor.
  - destruct b; now repeat constructor.
  - repeat constructor. apply utf8_text_dump_int.
  - repeat constructor. now apply utf8_text_dump_string.
  - destruct items as [| x items]; [now repeat constructor|].
    cbn [iterencode]. cbn [encodable] in Henc. rewrite forallb_forall in Henc.
    apply utf8_text_list_chunks.
    + rewrite Forall_forall in IH. apply Forall_forall. intros y Hy.
      pose proof (Henc y (proj1 (list_elem_of_In _ _) Hy)) as Hye.
      split; [now apply IH | now apply utf8_text_dump].
    + apply (utf8_text_app ","); [reflexivity | apply utf8_text_newline_indent].
    + repeat constructor. apply utf8_text_newline_indent.
    + apply (utf8_text_app "["); [reflexivity | apply utf8_text_newline_indent].
  - destruct fields as [| kv fields]; [now repeat constructor|].
    cbn [iterencode]. cbn [encodable] in Henc. rewrite forallb_forall in Henc.
    apply List.Forall_cons; [reflexivity|].
    apply List.Forall_cons; [apply utf8_text_newline_indent|].
    apply utf8_text_dict_chunks.
    + rewrite Forall_forall in IH. apply Forall_forall. intros y Hy.
      pose proof (Henc y (proj1 (list_elem_of_In _ _) Hy)) as Hye.
      apply andb_prop in Hye as [Hk Hv]. split; [exact Hk | now apply IH].
    + apply (utf8_text_app ","); [reflexivity | apply utf8_text_newline_indent].
    + repeat constructor. apply utf8_text_newline_indent.
Qed.

(** For a value whose strings can all be encoded, every chunk reaches the
    file: what [json.dump] writes is the text of [dumps]. *)
Lemma split_encodable_dump (v : pyval) :
  encodable v = true -> split_encodable (iterencode 0 v) = (dumps v, None).
Proof.
  intros Henc. rewrite split_encodable_all by now apply utf8_text_iterencode.
  now rewrite join_iterencode.
Qed.

Lemma dump_partial_encodable (v : pyval) : encodable v = true -> dump_partial v = dumps v.
Proof. intros Henc. unfold dump_partial. now rewrite split_encodable_dump. Qed.

(** Otherwise what is written is the beginning of that text, up to the
    chunk with the surrogate. *)
Lemma split_encodable_prefix (chunks : list string) (text chunk : string) :
  split_encodable chunks = (text, Some chunk) ->
  utf8_encodable chunk = false /\ exists rest, join chunks = text ++ chunk ++ rest.
Proof.
  revert text. induction chunks as [| c chunks IH]; intros text; [discriminate|].
  cbn [split_encodable join]. destruct (utf8_encodable c) eqn:Hc.
  - destruct (split_encodable chunks) as [text' bad] eqn:Hrest.
    intros [= <- ->]. destruct (IH text' eq_refl) as (Hbad & rest & ->).
    split; [exact Hbad|]. exists rest. now rewrite str_app_assoc.
  - intros [= <- <-]. split; [exact Hc|]. exists (join chunks). reflexivity.
Qed.

Lemma dump_partial_prefix (v : pyval) (chunk : string) :
  snd (split_encodable (iterencode 0 v)) = Some chunk ->
  utf8_encodable chunk = false /\ exists rest, dumps v = dump_partial v ++ chunk ++ rest.
Proof.
  unfold dump_partial, dumps. rewrite <- join_iterencode.
  destruct (split_encodable (iterencode 0 v)) as [text bad] eqn:Hsplit.
  cbn [fst snd]. intros ->. now apply split_encodable_prefix.
Qed.

(** Reading back what was written: for every value the printer can write,
    [loads (dumps v)] is [v]. *)
Theorem loads_dumps (v : pyval) :
  well_formed v = true -> encodable v = true -> loads (dumps v) = Some v.
Proof.
  intros Hwf Henc. unfold loads, dumps.
  rewrite (proj2 (utf8_encodable_text (dump 0 v)) (utf8_text_dump v 0 Henc)).
  rewrite <- (str_app_nil_r (dump 0 v)) at 2.
  rewrite (parse_value_dump v Hwf 0%nat _ ""); [reflexivity | lia | reflexivity].
Qed.

(** * Appending, then loading in a new session, with the codec above *)

Ltac decide_by_computation := apply (bool_decide_unpack _); vm_compute; exact I.

(** C1, with the strings as [json.dump] needs them: for every valid record
    and every list history whose strings hold no surrogate, appending the
    record and saving, then loading in a session started afresh on the saved
    document, yields a sequence whose last element is the appended record.
    The codec is the one of this file, which reads back what it writes
    ([loads_dumps]). *)
Theorem append_then_load (w fresh : world) (items : list pyval) (r : pyval) :
  history w = VList items ->
  well_formed (VList items) = true ->
  encodable (VList items) = true ->
  valid_record r ->
  encodable r = true ->
  HISTORY_FILE ∉ deny_write (disk w) ->
  HISTORY_FILE ∉ deny_read (disk w) ->
  disk fresh = disk (snd (append_record dumps dump_partial dump_error r w)) ->
  fst (append_record dumps dump_partial dump_error r w) = Ok tt
  /\ exists loaded,
       load_history loads fresh = (Ok (VList loaded), fresh)
       /\ history (snd (start_session loads fresh)) = VList loaded
       /\ loaded = (items ++ [r])%list
       /\ last loaded = Some r.
Proof.
  exact (append_then_load_with_codec dumps dump_partial dump_error loads loads_dumps
           w fresh items r).
Qed.

(** * The properties at sample states *)

Lemma append_then_load_witness :
  fst (append_record dumps dump_partial dump_error sample_record sample_world) = Ok tt
  /\ exists loaded,
       load_history loads sample_reloaded = (Ok (VList loaded), sample_reloaded)
       /\ history (snd (start_session loads sample_reloaded)) = VList loaded
       /\ loaded = [older_record; sample_record]
       /\ last loaded = Some sample_record.
Proof.
  apply (append_then_load sample_world sample_reloaded [older_record] sample_record).
  - reflexivity.
  - reflexivity.
  - reflexivity.
  - exists "2024-01-01 10:15:02", "relic.jpg", sample_image, "1 Type: vase". reflexivity.
  - reflexivity.
  - decide_by_computation.
  - decide_by_computation.
  - vm_compute. reflexivity.
Defined.

(** C1 as stated fails: a valid record whose [name] holds a surrogate (a
    [str] that [json.load] itself returns for the escape [\ud800]).  The
    record enters the session's history, [json.dump] raises when it comes
    to the name, the document is left with the text written until then, and
    a session started on that document loads the empty list: the appended
    record is not its last element, and the older record is lost too. *)
Lemma append_surrogate_record_lost :
  valid_record surrogate_record
  /\ history sample_world = VList [older_record]
  /\ (HISTORY_FILE ∉ deny_write (disk sample_world))
  /\ (HISTORY_FILE ∉ deny_read (disk sample_world))
  /\ fst (append_record dumps dump_partial dump_error surrogate_record sample_world)
     = Raise (Exn ValueError
                ("'utf-8' codec can't encode character '" ++ String backslash "ud800"
                 ++ "' in position 1: surrogates not allowed"))
  /\ history (snd (append_record dumps dump_partial dump_error surrogate_record
                     sample_world))
     = VList [older_record; surrogate_record]
  /\ loads (String dquote (String backslash ("ud800" ++ String dquote "")))
     = Some (VStr lone_surrogate)
  /\ files (disk (snd (append_record dumps dump_partial dump_error surrogate_record
                         sample_world))) !! HISTORY_FILE
     = Some ("[" ++ newline_indent 1 ++ dump 1 older_record ++ "," ++ newline_indent 1
             ++ "{" ++ newline_indent 2 ++ dump_string "time" ++ ": "
             ++ dump_string "2024-01-01 10:15:02" ++ "," ++ newline_indent 2
             ++ dump_string "name" ++ ": ")
  /\ exists loaded,
       load_history loads
         (World (disk (snd (append_record dumps dump_partial dump_error surrogate_record
                              sample_world))) VNone None [])
       = (Ok (VList loaded),
          World (disk (snd (append_record dumps dump_partial dump_error surrogate_record
                              sample_world))) VNone None [])
       /\ loaded = []
       /\ last loaded <> Some surrogate_record.
Proof.
  split; [exists "2024-01-01 10:15:02", (lone_surrogate ++ ".jpg"), sample_image,
                 "1 Type: vase"; reflexivity|].
  split; [reflexivity|].
  split; [decide_by_computation|].
  split; [decide_by_computation|].
  split; [vm_compute; reflexivity|].
  split; [vm_compute; reflexivity|].
  split; [vm_compute; reflexivity|].
  split; [vm_compute; reflexivity|].
  exists []. split; [vm_compute; reflexivity|]. split; [reflexivity | discriminate].
Qed.

Lemma load_history_missing_or_corrupt_witness :
  load_history loads corrupt_world = (Ok (VList []), corrupt_world).
Proof.
  apply (load_history_missing_or_corrupt loads corrupt_world).
  right. left. exists "{not json". split; vm_compute; reflexivity.
Defined.

Lemma load_history_unvalidated_witness :
  load_history loads object_world = (Ok (VDict [("version", VInt 2)]), object_world).
Proof.
  apply (load_history_unvalidated loads object_world
           (dumps (VDict [("version", VInt 2)]))).
  - vm_compute. reflexivity.
  - decide_by_computation.
  - vm_compute. reflexivity.
Defined.

Lemma delete_out_of_bounds_witness :
  delete_clicked dumps dump_partial dump_error (selected_world (Some 1)) = (Ok tt, selected_world (Some 1)).
Proof.
  apply (delete_out_of_bounds dumps dump_partial dump_error (selected_world (Some 1)) [sample_record]).
  - reflexivity.
  - right. exists 1%Z. split; [reflexivity|]. right. vm_compute. discriminate.
Defined.

Lemma estimate_without_api_key_witness :
  estimate_clicked dumps dump_partial dump_error (sample_inputs None (Ok (Some "1 Type: vase"))) sample_upload
    sample_world
  = (Ok tt, show (StError CONFIG_MESSAGE) sample_world)
  /\ disk (show (StError CONFIG_MESSAGE) sample_world) = disk sample_world
  /\ history (show (StError CONFIG_MESSAGE) sample_world) = history sample_world
  /\ selected_history_index (show (StError CONFIG_MESSAGE) sample_world)
     = selected_history_index sample_world
  /\ ui (show (StError CONFIG_MESSAGE) sample_world)
     = (ui sample_world ++ [StError CONFIG_MESSAGE])%list.
Proof.
  apply (estimate_without_api_key dumps dump_partial dump_error (sample_inputs None (Ok (Some "1 Type: vase")))
           sample_upload sample_world).
  reflexivity.
Defined.

Lemma authentication_failure_appends_nothing_witness :
  exists w',
    estimate_clicked dumps dump_partial dump_error
      (sample_inputs (Some "sk-test") (Raise (Exn AuthenticationError "Incorrect API key")))
      sample_upload sample_world = (Ok tt, w')
    /\ history w' = history sample_world
    /\ py_len (history w') = py_len (history sample_world)
    /\ files (disk w') !! HISTORY_FILE = files (disk sample_world) !! HISTORY_FILE
    /\ ui w' = [StError AUTH_MESSAGE].
Proof.
  destruct (authentication_failure_appends_nothing dumps dump_partial dump_error
              (sample_inputs (Some "sk-test")
                 (Raise (Exn AuthenticationError "Incorrect API key")))
              sample_upload sample_world (Exn AuthenticationError "Incorrect API key"))
    as (w' & Hrun & Hh & Hlen & Hdoc & Hui & _).
  - reflexivity.
  - reflexivity.
  - reflexivity.
  - exists w'. repeat split; try assumption. apply Hui. decide_by_computation.
Defined.





(** A successful analysis at the sample state: one record appended, the
    image on the disk with the uploaded bytes, the document rewritten. *)
Example estimate_success_sample :
  history (snd (estimate_clicked dumps dump_partial dump_error
                  (sample_inputs (Some "sk-test") (Ok (Some "1 Type: vase")))
                  sample_upload sample_world))
  = VList [older_record; sample_record]
  /\ files (disk (snd (estimate_clicked dumps dump_partial dump_error
                         (sample_inputs (Some "sk-test") (Ok (Some "1 Type: vase")))
                         sample_upload sample_world))) !! sample_image
     = Some "ABC"
  /\ load_history loads
       (snd (estimate_clicked dumps dump_partial dump_error
               (sample_inputs (Some "sk-test") (Ok (Some "1 Type: vase")))
               sample_upload sample_world))
     = (Ok (VList [older_record; sample_record]),
        snd (estimate_clicked dumps dump_partial dump_error
               (sample_inputs (Some "sk-test") (Ok (Some "1 Type: vase")))
               sample_upload sample_world)).
Proof. vm_compute. repeat split. Qed.

(** * Further properties of the handlers *)

Section MoreProperties.

Variable json_dumps : pyval -> string.
Variable json_partial : pyval -> string.
Variable json_error : pyval -> string.
Variable json_loads : string -> option pyval.
Variable py_repr : pyval -> string.

#[local] Set Default Proof Using "Type".

(** ** Storing an image *)

(** X1: when the image file can be written, [save_uploaded_image_locally]
    returns the path [saved_images/<time>_<first 8 hex digits>.<ext>] and the
    original file name; the file then holds the uploaded bytes (none, for an
    empty upload), every other file is as before, and the path is never the
    history document. *)
Theorem save_uploaded_image_locally_stores (now uuid : string)
    (uploaded_file : UploadedFile) (w : world) (path : string) :
  path = os_path_join IMAGES_DIR
           (now ++ "_" ++ substring 0 8 uuid ++ "."
            ++ safe_ext (declared_mime uploaded_file)) ->
  path ∉ deny_write (disk w) ->
  exists w',
    save_uploaded_image_locally now uuid uploaded_file w
    = (Ok (path, uf_name uploaded_file), w')
    /\ files (disk w') !! path = Some (uf_getvalue uploaded_file)
    /\ (forall other, other <> path -> files (disk w') !! other = files (disk w) !! other)
    /\ path <> HISTORY_FILE
    /\ history w' = history w
    /\ selected_history_index w' = selected_history_index w
    /\ ui w' = ui w.
Proof.
  intros Hpath Hw.
  unfold save_uploaded_image_locally, bind, write_file, ret. rewrite <- Hpath.
  rewrite bool_decide_eq_false_2 by assumption.
  eexists. split; [reflexivity|]. cbn. repeat split.
  - apply lookup_insert_eq.
  - intros other Hother. apply lookup_insert_ne. congruence.
  - subst path. discriminate.
Qed.

(** X2: the stored file gets the extension [png] exactly when the upload
    declares the type [image/png]; an upload with no declared type, or an
    empty one, is stored as [jpg]. *)
Theorem extension_of_declared_type (uploaded_file : UploadedFile) :
  (safe_ext (declared_mime uploaded_file) = "png"
   <-> uf_type uploaded_file = Some "image/png")
  /\ (uf_type uploaded_file = None \/ uf_type uploaded_file = Some "" ->
      safe_ext (declared_mime uploaded_file) = "jpg").
Proof.
  unfold declared_mime, safe_ext. destruct (uf_type uploaded_file) as [t|].
  - destruct (String.eqb_spec t "") as [-> | Hne].
    + split; [split; intros H; discriminate H | reflexivity].
    + destruct (String.eqb_spec t "image/png") as [-> | Hpng].
      * split; [split; reflexivity | intros [H | H]; [discriminate H | congruence]].
      * split; [split; intros H; [discriminate H | congruence]
               | intros [H | H]; [discriminate H | congruence]].
  - split; [split; intros H; discriminate H | reflexivity].
Qed.

(** ** Analysis *)

(** The click up to the provider's answer, when the key is there and the
    image was stored: the record is appended and saved, and the outcome of
    [save_history] decides between the success lines and the handler. *)
Lemma estimate_clicked_answered (inp : analysis_inputs) (uploaded_file : UploadedFile)
    (w : world) (items : list pyval) (content : option string) :
  api_key_missing (api_key inp) = false ->
  saved_image_path inp uploaded_file ∉ deny_write (disk w) ->
  provider inp = Ok content ->
  history w = VList items ->
  estimate_clicked json_dumps json_partial json_error inp uploaded_file w
  = match save_history json_dumps json_partial json_error
            (VList (items ++ [make_record (now_record inp) (uf_name uploaded_file)
                                (saved_image_path inp uploaded_file)
                                (default "" content)]))
            (set_history
               (VList (items ++ [make_record (now_record inp) (uf_name uploaded_file)
                                   (saved_image_path inp uploaded_file)
                                   (default "" content)]))
               (set_disk (fs_put (saved_image_path inp uploaded_file)
                            (uf_getvalue uploaded_file) (disk w)) w))
    with
    | (Ok _, w') =>
        (Ok tt, show (StMarkdown (default "" content))
                  (show (StMarkdown "---")
                     (show (StSuccess "✅ Analysis Complete! Saved to History.") w')))
    | (Raise e, w') => (Ok tt, show (StError (handler_message e)) w')
    end.
Proof.
  intros Hkey Hw Hprov Hh. unfold estimate_clicked. rewrite Hkey.
  unfold try_except, save_uploaded_image_locally.
  fold (saved_image_path inp uploaded_file).
  unfold bind at 1. unfold bind at 1. rewrite (write_file_ok _ _ w Hw).
  unfold ret at 1. cbv beta iota. unfold bind at 1. rewrite Hprov. cbn [lift].
  assert (Hres : match content with
                 | Some text => if String.eqb text "" then "" else text
                 | None => ""
                 end = default "" content).
  { destruct content as [text|]; [apply or_empty | reflexivity]. }
  rewrite Hres. cbv beta iota zeta. cbn [fst snd].
  unfold bind at 1.
  rewrite (append_record_run json_dumps json_partial json_error _ items) by exact Hh.
  destruct (save_history _ _ _ _ _) as [[[] | e] w']; reflexivity.
Qed.

(** X3: when the image cannot be stored, the click ends normally and shows
    the generic error for an [OSError].  The history, the selection and
    every other file are as before; the image file is as it was when it
    could not be opened, and holds the part of the upload that reached it
    when the write failed after that (a full disk).  The provider's answer
    plays no part in the outcome. *)
Theorem estimate_stores_failure (inp : analysis_inputs) (uploaded_file : UploadedFile)
    (w : world) :
  api_key_missing (api_key inp) = false ->
  saved_image_path inp uploaded_file ∈ deny_write (disk w) ->
  exists e w',
    exn_cls e = OSError
    /\ estimate_clicked json_dumps json_partial json_error inp uploaded_file w = (Ok tt, w')
    /\ ui w' = (ui w ++ [StError (generic_message e)])%list
    /\ history w' = history w
    /\ selected_history_index w' = selected_history_index w
    /\ (forall other, other <> saved_image_path inp uploaded_file ->
          files (disk w') !! other = files (disk w) !! other)
    /\ files (disk w') !! saved_image_path inp uploaded_file
       = match write_reaches (disk w) !! saved_image_path inp uploaded_file with
         | None => files (disk w) !! saved_image_path inp uploaded_file
         | Some n => Some (substring 0 n (uf_getvalue uploaded_file))
         end
    /\ forall outcome,
         estimate_clicked json_dumps json_partial json_error
           {| api_key := api_key inp; now_filename := now_filename inp;
              uuid_hex := uuid_hex inp; provider := outcome;
              now_record := now_record inp |} uploaded_file w
         = estimate_clicked json_dumps json_partial json_error inp uploaded_file w.
Proof.
  intros Hkey Hw.
  destruct (write_file_fails (saved_image_path inp uploaded_file)
              (uf_getvalue uploaded_file) w Hw) as (e & Hcls & Hwrite).
  assert (Hrun : forall inp',
            api_key inp' = api_key inp -> now_filename inp' = now_filename inp ->
            uuid_hex inp' = uuid_hex inp ->
            estimate_clicked json_dumps json_partial json_error inp' uploaded_file w
            = (Ok tt,
               show (StError (generic_message e))
                 (failed_write (saved_image_path inp uploaded_file)
                    (uf_getvalue uploaded_file) w))).
  { intros inp' Hk Hn Hu. unfold estimate_clicked. rewrite Hk, Hkey.
    unfold try_except, save_uploaded_image_locally. rewrite Hn, Hu.
    fold (saved_image_path inp uploaded_file).
    unfold bind at 1. unfold bind at 1. rewrite Hwrite.
    unfold analysis_handler, handler_message. now rewrite Hcls. }
  destruct (failed_write_frame (saved_image_path inp uploaded_file)
              (uf_getvalue uploaded_file) w) as (H1 & H2 & H3 & _ & _ & _ & _ & H4).
  eexists e, _. split; [exact Hcls|]. split; [apply Hrun; reflexivity|].
  cbn [ui history selected_history_index disk show].
  split; [now rewrite H3|]. split; [exact H1|]. split; [exact H2|].
  split; [exact H4|]. split; [apply failed_write_file|].
  intros outcome. rewrite !Hrun; reflexivity.
Qed.

(** X4: when the provider raises, whatever the exception, the click ends
    normally with the history unchanged and the handler's message for that
    exception as the only output; the image stored before the call stays on
    the disk although no record refers to it. *)
Theorem estimate_provider_failure (inp : analysis_inputs) (uploaded_file : UploadedFile)
    (w : world) (e : exn) :
  api_key_missing (api_key inp) = false ->
  saved_image_path inp uploaded_file ∉ deny_write (disk w) ->
  provider inp = Raise e ->
  exists w',
    estimate_clicked json_dumps json_partial json_error inp uploaded_file w = (Ok tt, w')
    /\ history w' = history w
    /\ ui w' = (ui w ++ [StError (handler_message e)])%list
    /\ files (disk w') !! saved_image_path inp uploaded_file
       = Some (uf_getvalue uploaded_file)
    /\ (forall other, other <> saved_image_path inp uploaded_file ->
          files (disk w') !! other = files (disk w) !! other).
Proof.
  intros Hkey Hw Hprov. unfold estimate_clicked. rewrite Hkey.
  unfold try_except, save_uploaded_image_locally.
  fold (saved_image_path inp uploaded_file).
  unfold bind at 1. unfold bind at 1. unfold write_file at 1. cbv beta zeta.
  rewrite bool_decide_eq_false_2 by assumption.
  unfold ret at 1. cbv beta iota. unfold bind at 1. rewrite Hprov. cbn [lift].
  eexists. split; [reflexivity|]. unfold analysis_handler, st_error, modify, show.
  cbn. repeat split.
  - apply lookup_insert_eq.
  - intros other Hother. apply lookup_insert_ne. congruence.
Qed.

(** X5: a successful analysis appends one record holding the clock's time,
    the uploaded file's name, the path of the stored image and the provider's
    text (empty when there is none); when the strings of the new history can
    be encoded, the image and the rewritten document are on the disk, no
    other file changes, and the success message, a rule and the text are
    shown. *)
Theorem estimate_success (inp : analysis_inputs) (uploaded_file : UploadedFile)
    (w : world) (items : list pyval) (content : option string) :
  api_key_missing (api_key inp) = false ->
  saved_image_path inp uploaded_file ∉ deny_write (disk w) ->
  HISTORY_FILE ∉ deny_write (disk w) ->
  provider inp = Ok content ->
  history w = VList items ->
  encodable (VList (items ++ [make_record (now_record inp) (uf_name uploaded_file)
                                (saved_image_path inp uploaded_file)
                                (default "" content)])) = true ->
  exists w',
    estimate_clicked json_dumps json_partial json_error inp uploaded_file w = (Ok tt, w')
    /\ history w'
       = VList (items ++ [make_record (now_record inp) (uf_name uploaded_file)
                            (saved_image_path inp uploaded_file) (default "" content)])
    /\ files (disk w') !! saved_image_path inp uploaded_file
       = Some (uf_getvalue uploaded_file)
    /\ files (disk w') !! HISTORY_FILE = Some (json_dumps (history w'))
    /\ (forall other, other <> saved_image_path inp uploaded_file ->
          other <> HISTORY_FILE ->
          files (disk w') !! other = files (disk w) !! other)
    /\ ui w' = (ui w ++ [StSuccess "✅ Analysis Complete! Saved to History.";
                         StMarkdown "---"; StMarkdown (default "" content)])%list.
Proof.
  intros Hkey Hw Hdoc Hprov Hh Henc.
  rewrite (estimate_clicked_answered inp uploaded_file w items content Hkey Hw Hprov Hh).
  rewrite save_history_ok by assumption.
  eexists. split; [reflexivity|]. cbn. repeat split.
  - rewrite lookup_insert_ne by apply not_eq_sym, saved_image_path_not_history.
    apply lookup_insert_eq.
  - apply lookup_insert_eq.
  - intros other H1 H2. rewrite !lookup_insert_ne by congruence. reflexivity.
  - now rewrite <- !app_assoc.
Qed.

(** X6: when the session's history is not a list (a document holding an
    object, a string, a number or [null] was loaded), a successful answer
    of the provider still yields no record: [append] raises, the generic
    error names the missing attribute, the image stays stored and the
    document is not rewritten. *)
Theorem estimate_history_not_a_list (inp : analysis_inputs) (uploaded_file : UploadedFile)
    (w : world) (content : option string) :
  api_key_missing (api_key inp) = false ->
  saved_image_path inp uploaded_file ∉ deny_write (disk w) ->
  provider inp = Ok content ->
  (forall items, history w <> VList items) ->
  exists w',
    estimate_clicked json_dumps json_partial json_error inp uploaded_file w = (Ok tt, w')
    /\ history w' = history w
    /\ ui w' = (ui w ++ [StError ("❌ Error: '" ++ type_name (history w)
                                  ++ "' object has no attribute 'append'")])%list
    /\ files (disk w') !! saved_image_path inp uploaded_file
       = Some (uf_getvalue uploaded_file)
    /\ files (disk w') !! HISTORY_FILE = files (disk w) !! HISTORY_FILE.
Proof.
  intros Hkey Hw Hprov Hh. unfold estimate_clicked. rewrite Hkey.
  unfold try_except, save_uploaded_image_locally.
  fold (saved_image_path inp uploaded_file).
  unfold bind at 1. unfold bind at 1. unfold write_file at 1. cbv beta zeta.
  rewrite bool_decide_eq_false_2 by assumption.
  unfold ret at 1. cbv beta iota. unfold bind at 1. rewrite Hprov. cbn [lift].
  cbv beta iota zeta. cbn [fst snd].
  unfold append_record. unfold bind at 1. unfold bind at 1. unfold get at 1.
  cbv beta iota. cbn [history set_disk]. unfold bind at 1.
  destruct (history w) as [| b | n | s | items | fields] eqn:Hhist;
    try (cbn [lift py_append]; cbv beta iota;
         eexists; split; [reflexivity|];
         unfold analysis_handler, st_error, modify, show; cbn; rewrite ?Hhist;
         repeat split;
         [apply lookup_insert_eq
         |apply lookup_insert_ne, saved_image_path_not_history]).
  now destruct (Hh items).
Qed.

(** X7: when the document cannot be written, the record is already in the
    session's history when [save_history] raises: the history in memory has
    the new record, the generic error is shown instead of the success
    message, the image stays stored, and the document is as it was when it
    could not be opened, or holds the part of the new text that reached it
    when the write failed after that (a full disk). *)
Theorem estimate_document_unwritable (inp : analysis_inputs)
    (uploaded_file : UploadedFile) (w : world) (items : list pyval)
    (content : option string) :
  api_key_missing (api_key inp) = false ->
  saved_image_path inp uploaded_file ∉ deny_write (disk w) ->
  HISTORY_FILE ∈ deny_write (disk w) ->
  provider inp = Ok content ->
  history w = VList items ->
  exists w',
    estimate_clicked json_dumps json_partial json_error inp uploaded_file w = (Ok tt, w')
    /\ history w'
       = VList (items ++ [make_record (now_record inp) (uf_name uploaded_file)
                            (saved_image_path inp uploaded_file) (default "" content)])
    /\ files (disk w') !! HISTORY_FILE
       = match write_reaches (disk w) !! HISTORY_FILE with
         | None => files (disk w) !! HISTORY_FILE
         | Some n =>
             Some (substring 0 n (document_text json_dumps json_partial (history w')))
         end
    /\ files (disk w') !! saved_image_path inp uploaded_file
       = Some (uf_getvalue uploaded_file)
    /\ exists e, exn_cls e = OSError
                 /\ ui w' = (ui w ++ [StError (generic_message e)])%list.
Proof.
  intros Hkey Hw Hdoc Hprov Hh.
  rewrite (estimate_clicked_answered inp uploaded_file w items content Hkey Hw Hprov Hh).
  match goal with
  | |- context [save_history _ _ _ ?h ?w2] =>
      destruct (save_history_unwritable json_dumps json_partial json_error h w2)
        as (e & Hcls & ->); [exact Hdoc|];
      destruct (failed_write_frame HISTORY_FILE (document_text json_dumps json_partial h) w2)
        as (H1 & _ & H3 & _ & _ & _ & _ & H4);
      pose proof (failed_write_file HISTORY_FILE (document_text json_dumps json_partial h) w2)
        as H5
  end.
  eexists. split; [reflexivity|].
  cbn [ui history selected_history_index disk show].
  split; [exact H1|]. rewrite H1. split; [|split].
  - rewrite H5. cbn [disk set_history set_disk write_reaches fs_put files].
    destruct (write_reaches (disk w) !! HISTORY_FILE); [reflexivity|].
    apply lookup_insert_ne, saved_image_path_not_history.
  - rewrite H4 by apply saved_image_path_not_history. cbn. apply lookup_insert_eq.
  - exists e. split; [exact Hcls|]. rewrite H3. cbn.
    unfold handler_message. now rewrite Hcls.
Qed.


(** X8: the rate-limit message is shown for a [RateLimitError] and for
    nothing else, the generic message for every class other than the two
    named ones, and no exception shows the configuration message. *)
Theorem handler_messages_distinct (e : exn) :
  (handler_message e = RATE_LIMIT_MESSAGE <-> exn_cls e = RateLimitError)
  /\ (handler_message e = generic_message e
      <-> exn_cls e <> AuthenticationError /\ exn_cls e <> RateLimitError)
  /\ handler_message e <> CONFIG_MESSAGE
  /\ AUTH_MESSAGE <> RATE_LIMIT_MESSAGE.
Proof.
  unfold handler_message.
  destruct (exn_cls e); repeat split; intros; try discriminate; try congruence;
    try (intros [H1 H2]; congruence); intuition congruence.
Qed.

(** ** Starting a session *)

(** X9: starting a session never raises and never touches the disk: the
    history becomes what [load_history] returns (the empty list without a
    document, the parsed value or the empty list with one) and nothing is
    selected. *)
Theorem start_session_never_fails (w : world) :
  exists v,
    start_session json_loads w = (Ok tt, World (disk w) v None (ui w))
    /\ (files (disk w) !! HISTORY_FILE = None -> v = VList [])
    /\ (forall text, files (disk w) !! HISTORY_FILE = Some text ->
          HISTORY_FILE ∉ deny_read (disk w) ->
          v = default (VList []) (json_loads text)).
Proof.
  destruct (load_history_total json_loads w) as [v Hv].
  exists v. split; [|split].
  - unfold start_session, bind. rewrite Hv. reflexivity.
  - intros Habsent. revert Hv. unfold load_history, bind, get.
    apply os_path_exists_false in Habsent. rewrite Habsent. now intros [= <-].
  - intros text Hfile Hread.
    rewrite (load_history_reads json_loads w text Hfile Hread) in Hv.
    now injection Hv as <-.
Qed.

(** ** Saving the history *)


(** X25: when the document cannot be written, [save_history] raises an
    [OSError]; the document is as it was when it could not be opened, and
    holds the part of the text that reached it when the write failed after
    [open] had emptied it (a full disk).  No other file changes. *)
Theorem save_history_unwritable_document (h : pyval) (w : world) :
  HISTORY_FILE ∈ deny_write (disk w) ->
  exists e w',
    save_history json_dumps json_partial json_error h w = (Raise e, w')
    /\ exn_cls e = OSError
    /\ files (disk w') !! HISTORY_FILE
       = match write_reaches (disk w) !! HISTORY_FILE with
         | None => files (disk w) !! HISTORY_FILE
         | Some n => Some (substring 0 n (document_text json_dumps json_partial h))
         end
    /\ (forall other, other <> HISTORY_FILE ->
          files (disk w') !! other = files (disk w) !! other)
    /\ history w' = history w
    /\ selected_history_index w' = selected_history_index w
    /\ ui w' = ui w.
Proof.
  intros Hw.
  destruct (save_history_unwritable json_dumps json_partial json_error h w Hw)
    as (e & Hcls & ->).
  destruct (failed_write_frame HISTORY_FILE (document_text json_dumps json_partial h) w)
    as (H1 & H2 & H3 & _ & _ & _ & _ & H4).
  eexists _, _. split; [reflexivity|]. split; [exact Hcls|].
  split; [apply failed_write_file|]. repeat split; assumption.
Qed.

(** ** Deleting one record *)

Lemma delete_image_file_keeps (path : pyval) (w w' : world) (q : string) :
  delete_image_file path w = (Ok tt, w') ->
  path <> VStr q \/ q = "" ->
  files (disk w') !! q = files (disk w) !! q.
Proof.
  destruct (delete_image_file_cases path w) as [H | (p & -> & Hne & _ & _ & H)];
    rewrite H; intros [= <-]; [reflexivity|].
  intros [Hq | ->]; cbn; apply lookup_delete_ne; congruence.
Qed.

(** X10: deleting a record leaves every file alone except the document and
    the image of that record: a file under another path is as before.  The
    paths are plain ones, as the script stores them. *)
Theorem delete_keeps_other_files (w : world) (items : list pyval) (idx : Z)
    (fields : list (string * pyval)) (other : string) :
  history w = VList items ->
  selected_history_index w = Some idx ->
  0 <= idx < Z.of_nat (length items) ->
  items !! Z.to_nat idx = Some (VDict fields) ->
  plain_image_path (VDict fields) ->
  plain_path other = true ->
  other <> HISTORY_FILE ->
  assoc "image_path" fields <> Some (VStr other) ->
  files (disk (snd (delete_clicked json_dumps json_partial json_error w))) !! other
  = files (disk w) !! other.
Proof.
  intros Hh Hsel Hidx Hitem _ _ Hdoc Hpath.
  destruct (delete_clicked_run json_dumps json_partial json_error w items idx fields
              Hh Hsel Hidx Hitem) as (w1 & Hdel & Hframe & ->).
  assert (Hkeep : files (disk w1) !! other = files (disk w) !! other).
  { destruct (decide (other = "")) as [-> | Hne].
    - apply (delete_image_file_keeps _ w w1 "" Hdel). now right.
    - apply (delete_image_file_keeps _ w w1 other Hdel). left.
      destruct (assoc "image_path" fields) as [v|]; cbn; congruence. }
  match goal with
  | |- context [bind (save_history _ _ _ ?h) _ ?w2] =>
      destruct (save_and_rerun json_dumps json_partial json_error h w2)
        as (r & w' & -> & _ & Hother & _)
  end.
  cbn [snd]. rewrite Hother by exact Hdoc. exact Hkeep.
Qed.

(** X11: when the document cannot be written, the Delete handler raises
    after the record has left the history in memory: the selection is not
    reset and no rerun is asked for.  The image of the record is removed as
    far as it can be, no other file changes, and the document is as it was
    when it could not be opened, or holds the part of the new text that
    reached it when the write failed after that (a full disk). *)
Theorem delete_document_unwritable (w : world) (items : list pyval) (idx : Z)
    (fields : list (string * pyval)) :
  history w = VList items ->
  selected_history_index w = Some idx ->
  0 <= idx < Z.of_nat (length items) ->
  items !! Z.to_nat idx = Some (VDict fields) ->
  plain_image_path (VDict fields) ->
  assoc "image_path" fields <> Some (VStr HISTORY_FILE) ->
  HISTORY_FILE ∈ deny_write (disk w) ->
  exists e w',
    delete_clicked json_dumps json_partial json_error w = (Raise e, w')
    /\ exn_cls e = OSError
    /\ history w' = VList (delete (Z.to_nat idx) items)
    /\ selected_history_index w' = Some idx
    /\ ui w' = ui w
    /\ files (disk w') !! HISTORY_FILE
       = match write_reaches (disk w) !! HISTORY_FILE with
         | None => files (disk w) !! HISTORY_FILE
         | Some n =>
             Some (substring 0 n (document_text json_dumps json_partial (history w')))
         end
    /\ (forall other, other <> HISTORY_FILE ->
          assoc "image_path" fields <> Some (VStr other) ->
          files (disk w') !! other = files (disk w) !! other).
Proof.
  intros Hh Hsel Hidx Hitem _ Hnot Hdoc.
  destruct (delete_clicked_run json_dumps json_partial json_error w items idx fields
              Hh Hsel Hidx Hitem) as (w1 & Hdel & Hframe & ->).
  pose proof Hframe as (Hh1 & Hsel1 & Hui1 & Hdr & Hdw & Hdrm & Hwr & Hsub).
  assert (Hkeep : forall other, assoc "image_path" fields <> Some (VStr other) ->
            files (disk w1) !! other = files (disk w) !! other).
  { intros other Hother. destruct (decide (other = "")) as [-> | Hne].
    - apply (delete_image_file_keeps _ w w1 "" Hdel). now right.
    - apply (delete_image_file_keeps _ w w1 other Hdel). left.
      destruct (assoc "image_path" fields) as [v|]; cbn; congruence. }
  match goal with
  | |- context [bind (save_history _ _ _ ?h) _ ?w2] =>
      destruct (save_and_rerun json_dumps json_partial json_error h w2)
        as (r & w' & -> & Hh' & Hrest & _ & Hfail & _);
      destruct Hfail as (e & -> & Hcls & ->);
        [cbn [disk set_history]; now rewrite Hdw|];
      destruct (failed_write_frame HISTORY_FILE (document_text json_dumps json_partial h) w2)
        as (_ & H2 & H3 & _);
      pose proof (failed_write_file HISTORY_FILE (document_text json_dumps json_partial h) w2)
        as H5
  end.
  eexists _, _. split; [reflexivity|]. split; [exact Hcls|].
  split; [exact Hh'|]. split; [rewrite H2; cbn; congruence|].
  split; [rewrite H3; cbn; congruence|]. split.
  - rewrite H5, Hh'. cbn [disk set_history history]. rewrite Hwr.
    destruct (write_reaches (disk w) !! HISTORY_FILE); [reflexivity|].
    now apply Hkeep.
  - intros other Hne Hother. rewrite (Hrest other Hne). cbn [disk set_history].
    now apply Hkeep.
Qed.

(** X12: an [image_path] that is not a string (a number, a list, [null])
    makes [delete_image_file] do nothing, without raising. *)
Theorem delete_image_file_ignores_non_strings (path : pyval) (w : world) :
  (forall p, path <> VStr p) -> delete_image_file path w = (Ok tt, w).
Proof.
  intros Hp.
  destruct (delete_image_file_cases path w) as [H | (p & -> & _)]; [exact H|].
  now destruct (Hp p).
Qed.

(** ** Clearing the history *)

Lemma clear_loop_keeps (items : list pyval) (w w' : world) (q : string) :
  for_each items
    (fun item => bind (lift (image_path_of item)) (fun path => delete_image_file path)) w
  = (Ok tt, w') ->
  (forall item, item ∈ items -> image_path_of item <> Ok (VStr q)) ->
  files (disk w') !! q = files (disk w) !! q.
Proof.
  revert w. induction items as [| x rest IH]; intros w Hrun Hq.
  - cbn in Hrun. unfold ret in Hrun. now injection Hrun as <-.
  - cbn [for_each] in Hrun. unfold bind at 1 in Hrun. unfold bind at 1 in Hrun.
    unfold lift at 1 in Hrun.
    destruct (image_path_of x) as [path | e] eqn:Hpath; [|discriminate Hrun].
    destruct (delete_image_file_only_removes path w) as (w1 & Hdel & _).
    rewrite Hdel in Hrun.
    rewrite (IH w1 Hrun).
    + apply (delete_image_file_keeps path w w1 q Hdel). left. intros ->.
      apply (Hq x); [left | exact Hpath].
    + intros item Hin. apply Hq. now right.
Qed.

(** X13: Clear All removes only what the records refer to: a file that is
    not the document and not the image of any record is as before.  The
    paths are plain ones, as the script stores them. *)
Theorem clear_all_keeps_unreferenced_files (w : world) (items : list pyval)
    (other : string) :
  history w = VList items ->
  Forall is_dict items ->
  Forall plain_image_path items ->
  plain_path other = true ->
  other <> HISTORY_FILE ->
  (forall item, item ∈ items -> image_path_of item <> Ok (VStr other)) ->
  files (disk (snd (clear_all_clicked json_dumps json_partial json_error w))) !! other
  = files (disk w) !! other.
Proof.
  intros Hh Hitems _ _ Hdoc Hother.
  destruct (clear_all_clicked_run json_dumps json_partial json_error w items Hh Hitems)
    as (w1 & Hloop & _ & ->).
  pose proof (clear_loop_keeps items w w1 other Hloop Hother) as Hkeep.
  match goal with
  | |- context [bind (save_history _ _ _ ?h) _ ?w2] =>
      destruct (save_and_rerun json_dumps json_partial json_error h w2)
        as (r & w' & -> & _ & Hrest & _)
  end.
  cbn [snd]. rewrite Hrest by exact Hdoc. exact Hkeep.
Qed.

(** ** What is saved is what a later session loads *)

Section Persistence.

Hypothesis json_round_trip :
  forall v, well_formed v = true -> encodable v = true ->
            json_loads (json_dumps v) = Some v.

(** Saving and loading, with any codec that reads back what it writes. *)
Lemma save_then_load_with_codec (h : pyval) (w : world) :
  well_formed h = true ->
  encodable h = true ->
  HISTORY_FILE ∉ deny_write (disk w) ->
  HISTORY_FILE ∉ deny_read (disk w) ->
  exists w',
    save_history json_dumps json_partial json_error h w = (Ok tt, w')
    /\ load_history json_loads w' = (Ok h, w')
    /\ history w' = history w
    /\ (forall other, other <> HISTORY_FILE ->
          files (disk w') !! other = files (disk w) !! other).
Proof using json_round_trip.
  intros Hwf Henc Hwrite Hread. rewrite save_history_ok by assumption.
  eexists. split; [reflexivity|]. split; [|split].
  - rewrite (load_history_reads json_loads _ (json_dumps h)).
    + now rewrite json_round_trip.
    + cbn. apply lookup_insert_eq.
    + exact Hread.
  - reflexivity.
  - intros other Hother. cbn. apply lookup_insert_ne. congruence.
Qed.

Lemma forallb_delete {A} (f : A -> bool) (l : list A) (i : nat) :
  forallb f l = true -> forallb f (delete i l) = true.
Proof.
  revert i. induction l as [| x l IH]; intros i H; [now destruct i|].
  cbn [forallb] in H. apply andb_prop in H as [Hx Hl].
  destruct i as [| i]; cbn; [exact Hl|]. now rewrite Hx, IH.
Qed.

(** Deleting and loading, with any codec that reads back what it writes. *)
Lemma delete_then_load_with_codec (w : world) (items : list pyval) (idx : Z)
    (fields : list (string * pyval)) :
  history w = VList items ->
  well_formed (VList items) = true ->
  encodable (VList (delete (Z.to_nat idx) items)) = true ->
  selected_history_index w = Some idx ->
  0 <= idx < Z.of_nat (length items) ->
  items !! Z.to_nat idx = Some (VDict fields) ->
  HISTORY_FILE ∉ deny_write (disk w) ->
  HISTORY_FILE ∉ deny_read (disk w) ->
  exists w',
    delete_clicked json_dumps json_partial json_error w = (Ok tt, w')
    /\ load_history json_loads w' = (Ok (VList (delete (Z.to_nat idx) items)), w')
    /\ selected_history_index w' = None
    /\ ui w' = (ui w ++ [StRerun])%list.
Proof using json_round_trip.
  intros Hh Hwf Henc Hsel Hidx Hitem Hwrite Hread.
  destruct (delete_clicked_run json_dumps json_partial json_error w items idx fields
              Hh Hsel Hidx Hitem) as (w1 & Hdel & Hframe & ->).
  pose proof Hframe as (Hh1 & Hsel1 & Hui1 & Hdr & Hdw & Hdrm & Hwr & Hsub).
  unfold bind at 1. rewrite save_history_ok;
    [|exact Henc|cbn [disk set_history]; now rewrite Hdw].
  eexists. split; [reflexivity|]. split; [|split].
  - rewrite (load_history_reads json_loads _
               (json_dumps (VList (delete (Z.to_nat idx) items)))).
    + rewrite json_round_trip; [reflexivity| |exact Henc].
      cbn [well_formed] in *. now apply forallb_delete.
    + cbn. apply lookup_insert_eq.
    + cbn. now rewrite Hdr.
  - reflexivity.
  - cbn. now rewrite Hui1.
Qed.

(** X16: after Clear All the document loads as the empty list, and Clear All
    once more succeeds and leaves the disk as it is. *)
Theorem clear_all_then_load_and_repeat (w : world) (items : list pyval) :
  history w = VList items ->
  Forall is_dict items ->
  HISTORY_FILE ∉ deny_write (disk w) ->
  HISTORY_FILE ∉ deny_read (disk w) ->
  exists w' w'',
    clear_all_clicked json_dumps json_partial json_error w = (Ok tt, w')
    /\ load_history json_loads w' = (Ok (VList []), w')
    /\ clear_all_clicked json_dumps json_partial json_error w' = (Ok tt, w'')
    /\ history w'' = VList []
    /\ disk w'' = disk w'.
Proof using json_round_trip.
  intros Hh Hitems Hwrite Hread.
  destruct (clear_all_clicked_run json_dumps json_partial json_error w items Hh Hitems)
    as (w1 & Hloop & Hframe & ->).
  pose proof Hframe as (Hh1 & Hsel1 & Hui1 & Hdr & Hdw & Hdrm & Hwr & Hsub).
  unfold bind at 1. rewrite save_history_ok;
    [|reflexivity|cbn [disk set_history]; now rewrite Hdw].
  eexists _, _. split; [reflexivity|]. split; [|split].
  - rewrite (load_history_reads json_loads _ (json_dumps (VList []))).
    + now rewrite json_round_trip.
    + cbn. apply lookup_insert_eq.
    + cbn. now rewrite Hdr.
  - unfold clear_all_clicked, bind, get, lift, modify, st_rerun.
    cbn [history show set_selected_history_index set_history set_disk py_iter for_each ret].
    rewrite save_history_ok; [reflexivity | reflexivity|].
    cbn. now rewrite Hdw.
  - cbn. split; [reflexivity|]. unfold fs_put. cbn. now rewrite insert_insert_eq.
Qed.

End Persistence.

(** ** The sidebar *)

Lemma span_digits_decimal (u : Decimal.uint) (c : ascii) (rest : string) :
  is_digit c = false ->
  span_digits (NilEmpty.string_of_uint u ++ String c rest)
  = (NilEmpty.string_of_uint u, String c rest).
Proof.
  intros Hc.
  induction u as [| u IH | u IH | u IH | u IH | u IH | u IH | u IH | u IH | u IH | u IH];
    try (cbn [NilEmpty.string_of_uint]; rewrite str_app_cons;
         cbn [span_digits]; rewrite IH; reflexivity).
  cbn [NilEmpty.string_of_uint]. rewrite str_app_nil.
  cbn [span_digits]. now rewrite Hc.
Qed.

Lemma dump_nat_prefix_inj (a b : N) (x y : string) :
  dump_nat a ++ ". " ++ x = dump_nat b ++ ". " ++ y -> a = b.
Proof.
  intros Heq. apply (f_equal span_digits) in Heq.
  rewrite !dump_nat_digits in Heq.
  change (". " ++ x) with (String "." (String " " x)) in Heq.
  change (". " ++ y) with (String "." (String " " y)) in Heq.
  rewrite !span_digits_decimal in Heq by reflexivity.
  injection Heq as Hdigits _.
  apply DecimalN.Unsigned.to_uint_inj.
  assert (Hsome : Some (N.to_uint a) = Some (N.to_uint b)).
  { rewrite <- (NilZero.usu (N.to_uint a)) by apply to_uint_nonnil.
    rewrite <- (NilZero.usu (N.to_uint b)) by apply to_uint_nonnil.
    unfold NilZero.string_of_uint.
    pose proof (to_uint_nonnil a). pose proof (to_uint_nonnil b).
    destruct (N.to_uint a), (N.to_uint b); try contradiction; now rewrite Hdigits. }
  now injection Hsome.
Qed.

Lemma label_shape (i : nat) (item : pyval) (l : string) :
  label py_repr i item = Ok l ->
  has_time_and_name item
  /\ exists x, l = dump_nat (N.of_nat (i + 1)) ++ ". " ++ x.
Proof.
  unfold label, and_then, py_getitem_key.
  destruct item as [| b | n | s | items | fields]; try discriminate.
  destruct (assoc "time" fields) as [t|] eqn:Ht; [|discriminate].
  destruct (assoc "name" fields) as [n|] eqn:Hn; [|discriminate].
  intros [= <-]. split; [exists fields, t, n; auto | eauto].
Qed.

Lemma labels_from_lookup (i0 : nat) (items : list pyval) (ls : list string) :
  labels_from py_repr i0 items = Ok ls ->
  length ls = length items
  /\ forall k, (k < length items)%nat ->
       exists item l, items !! k = Some item /\ ls !! k = Some l
                      /\ label py_repr (i0 + k) item = Ok l.
Proof.
  revert i0 ls. induction items as [| item rest IH]; intros i0 ls.
  - intros [= <-]. split; [reflexivity|]. intros k Hk. cbn in Hk. lia.
  - cbn [labels_from]. unfold and_then at 1.
    destruct (label py_repr i0 item) as [l | e] eqn:Hl; [|discriminate].
    unfold and_then at 1.
    destruct (labels_from py_repr (S i0) rest) as [ls' | e] eqn:Hrest; [|discriminate].
    intros [= <-]. destruct (IH (S i0) ls' Hrest) as [Hlen Hall].
    split; [cbn; now rewrite Hlen|].
    intros [| k] Hk.
    + exists item, l. rewrite Nat.add_0_r. auto.
    + cbn in Hk. destruct (Hall k) as (it & l' & H1 & H2 & H3); [lia|].
      exists it, l'. rewrite Nat.add_succ_r. auto.
Qed.

Lemma labels_from_nodup (items : list pyval) (ls : list string) :
  labels_from py_repr 0 items = Ok ls -> NoDup ls.
Proof.
  intros Hls. destruct (labels_from_lookup 0 items ls Hls) as [Hlen Hall].
  apply NoDup_alt. intros i j l Hi Hj.
  destruct (Hall i) as (it1 & l1 & _ & Hi' & Hl1);
    [rewrite <- Hlen; eapply lookup_lt_Some; eassumption|].
  destruct (Hall j) as (it2 & l2 & _ & Hj' & Hl2);
    [rewrite <- Hlen; eapply lookup_lt_Some; eassumption|].
  rewrite Hi in Hi'. rewrite Hj in Hj'. injection Hi' as <-. injection Hj' as <-.
  apply label_shape in Hl1 as (_ & x & Hx). apply label_shape in Hl2 as (_ & y & Hy).
  rewrite Hx in Hy. apply dump_nat_prefix_inj in Hy. cbn in Hy. lia.
Qed.

Lemma index_of_lookup (x : string) (l : list string) (k : nat) :
  NoDup l -> l !! k = Some x -> index_of x l = Some k.
Proof.
  revert k. induction l as [| y rest IH]; intros k Hnd Hk; [discriminate|].
  apply NoDup_cons in Hnd as [Hy Hrest].
  destruct k as [| k]; cbn in Hk; cbn [index_of].
  - injection Hk as ->. now rewrite String.eqb_refl.
  - destruct (String.eqb_spec y x) as [-> | _].
    + exfalso. apply Hy. eapply list_elem_of_lookup_2. eassumption.
    + now rewrite (IH k Hrest Hk).
Qed.

Lemma index_of_absent (x : string) (l : list string) :
  x ∉ l -> index_of x l = None.
Proof.
  induction l as [| y rest IH]; intros Hx; [reflexivity|].
  apply not_elem_of_cons in Hx as [Hne Hrest]. cbn [index_of].
  destruct (String.eqb_spec y x) as [-> | _]; [contradiction|].
  now rewrite IH.
Qed.

Lemma label_not_placeholder (i : nat) (item : pyval) (l : string) :
  label py_repr i item = Ok l -> String.eqb l PLACEHOLDER = false.
Proof.
  intros Hl. apply label_shape in Hl as (_ & x & ->).
  destruct (dump_nat_head (N.of_nat (i + 1))) as (c & s & -> & Hc).
  rewrite str_app_cons. unfold PLACEHOLDER.
  revert Hc. each_char c; intros Hc; try discriminate Hc; reflexivity.
Qed.

(** X17: for a list of records with [time] and [name] the labels are
    built, one per record, and they are pairwise distinct even for records
    with the same time and name; none is the placeholder. *)
Theorem labels_of_records (items : list pyval) :
  Forall has_time_and_name items ->
  exists ls,
    labels py_repr (VList items) = Ok ls
    /\ length ls = length items
    /\ NoDup ls
    /\ PLACEHOLDER ∉ ls.
Proof.
  intros Hitems.
  assert (Hex : forall i0, exists ls, labels_from py_repr i0 items = Ok ls).
  { induction Hitems as [| item rest (fields & t & n & -> & Ht & Hn) _ IH]; intros i0.
    - exists []. reflexivity.
    - destruct (IH (S i0)) as [ls Hls]. eexists. cbn [labels_from].
      unfold label, and_then, py_getitem_key. rewrite Ht, Hn, Hls. reflexivity. }
  destruct (Hex 0%nat) as [ls Hls]. exists ls.
  destruct (labels_from_lookup 0 items ls Hls) as [Hlen Hall].
  split; [exact Hls|]. split; [exact Hlen|].
  split; [now apply (labels_from_nodup items)|].
  intros Hin. apply list_elem_of_lookup in Hin as [k Hk].
  destruct (Hall k) as (item & l & _ & Hk' & Hl);
    [rewrite <- Hlen; eapply lookup_lt_Some; eassumption|].
  rewrite Hk in Hk'. injection Hk' as <-.
  apply label_not_placeholder in Hl. now rewrite String.eqb_refl in Hl.
Qed.

Lemma labels_ok_inv (h : pyval) (ls : list string) :
  labels py_repr h = Ok ls ->
  ls <> [] ->
  exists items,
    h = VList items /\ Forall has_time_and_name items /\ length ls = length items.
Proof.
  unfold labels, and_then.
  destruct h as [| b | n | s | items | fields]; cbn [py_iter]; try discriminate.
  - destruct (str_chars s) as [| c rest]; cbn [map labels_from].
    + intros [= <-] Hne. now destruct Hne.
    + discriminate.
  - intros Hls _. exists items. destruct (labels_from_lookup 0 items ls Hls) as [Hlen Hall].
    split; [reflexivity|]. split; [|exact Hlen].
    apply Forall_lookup. intros k item Hk.
    destruct (Hall k) as (item' & l & Hk' & _ & Hl); [eapply lookup_lt_Some; eassumption|].
    rewrite Hk in Hk'. injection Hk' as <-. now apply label_shape in Hl.
  - destruct fields as [| kv rest]; cbn [map labels_from].
    + intros [= <-] Hne. now destruct Hne.
    + discriminate.
Qed.

(** X18: the sidebar has labels to show only for a list whose items are all
    dicts with the keys [time] and [name]. *)
Theorem labels_need_records (h : pyval) (ls : list string) :
  labels py_repr h = Ok ls ->
  ls <> [] ->
  exists items,
    h = VList items /\ Forall has_time_and_name items /\ length ls = length items.
Proof. exact (labels_ok_inv h ls). Qed.

(** The sidebar with a history that is a non-empty list: the entry at
    position [k] under the placeholder sets the index, and the handler of
    the pressed button runs in that state. *)
Lemma sidebar_selects (w : world) (items : list pyval) (ls : list string)
    (k : nat) (selected_label : string) (pressed : M unit) :
  history w = VList items ->
  labels py_repr (VList items) = Ok ls ->
  selectbox_options ls !! S k = Some selected_label ->
  sidebar py_repr selected_label pressed w
  = pressed (set_selected_history_index (Some (Z.of_nat (length items - 1 - k))) w).
Proof.
  intros Hh Hls Hk. change (reverse ls !! k = Some selected_label) in Hk.
  pose proof Hls as Hls'. unfold labels, and_then in Hls'. cbn [py_iter] in Hls'.
  destruct (labels_from_lookup 0 items ls Hls') as [Hlen Hall].
  pose proof (labels_from_nodup items ls Hls') as Hnd.
  assert (Hklt : (k < length ls)%nat).
  { rewrite <- length_reverse. eapply lookup_lt_Some; eassumption. }
  assert (Hpos : ls !! (length ls - S k)%nat = Some selected_label).
  { rewrite <- Hk. symmetry. now apply reverse_lookup. }
  destruct (Hall (length items - 1 - k)%nat) as (item & l & Hitem & Hl & Hlabel); [lia|].
  replace (length ls - S k)%nat with (length items - 1 - k)%nat in Hpos by lia.
  rewrite Hpos in Hl. injection Hl as <-. cbn [Nat.add] in Hlabel.
  unfold sidebar. unfold bind at 1. unfold get at 1. cbv beta iota.
  rewrite Hh.
  assert (Htruthy : truthy (VList items) = true).
  { destruct items; [cbn in Hlen; lia | reflexivity]. }
  rewrite Htruthy. unfold bind at 1. rewrite Hls. cbn [lift].
  rewrite (label_not_placeholder _ _ _ Hlabel).
  assert (Hndr : NoDup (reverse ls)) by now rewrite reverse_Permutation.
  rewrite (index_of_lookup selected_label (reverse ls) k Hndr Hk).
  cbv zeta. unfold bind, modify. rewrite Hlen.
  replace (Z.of_nat (length items) - 1 - Z.of_nat k)
    with (Z.of_nat (length items - 1 - k)) by lia.
  reflexivity.
Qed.

Lemma select_history_at (w : world) (items : list pyval) (ls : list string)
    (k : nat) (selected_label : string) :
  history w = VList items ->
  labels py_repr (VList items) = Ok ls ->
  selectbox_options ls !! S k = Some selected_label ->
  (k < length items)%nat
  /\ select_history py_repr selected_label w
     = (Ok tt, set_selected_history_index
                 (Some (Z.of_nat (length items - 1 - k))) w)
  /\ exists item,
       items !! (length items - 1 - k)%nat = Some item
       /\ label py_repr (length items - 1 - k) item = Ok selected_label.
Proof.
  intros Hh Hls Hk. change (reverse ls !! k = Some selected_label) in Hk.
  pose proof Hls as Hls'. unfold labels, and_then in Hls'. cbn [py_iter] in Hls'.
  destruct (labels_from_lookup 0 items ls Hls') as [Hlen Hall].
  pose proof (labels_from_nodup items ls Hls') as Hnd.
  assert (Hklt : (k < length ls)%nat).
  { rewrite <- length_reverse. eapply lookup_lt_Some; eassumption. }
  assert (Hpos : ls !! (length ls - S k)%nat = Some selected_label).
  { rewrite <- Hk. symmetry. now apply reverse_lookup. }
  destruct (Hall (length items - 1 - k)%nat) as (item & l & Hitem & Hl & Hlabel); [lia|].
  replace (length ls - S k)%nat with (length items - 1 - k)%nat in Hpos by lia.
  rewrite Hpos in Hl. injection Hl as <-. cbn [Nat.add] in Hlabel.
  split; [lia|]. split; [|eauto].
  apply (sidebar_selects w items ls k selected_label (ret tt) Hh Hls Hk).
Qed.

(** X19: the entry at position k under the placeholder, newest first, selects
    the history index N-1-k, and it is the label of the record at that
    index. *)
Theorem select_entry (w : world) (items : list pyval) (ls : list string)
    (k : nat) (selected_label : string) :
  history w = VList items ->
  labels py_repr (VList items) = Ok ls ->
  selectbox_options ls !! S k = Some selected_label ->
  (k < length items)%nat
  /\ select_history py_repr selected_label w
     = (Ok tt, set_selected_history_index
                 (Some (Z.of_nat (length items - 1 - k))) w)
  /\ exists item,
       items !! (length items - 1 - k)%nat = Some item
       /\ label py_repr (length items - 1 - k) item = Ok selected_label.
Proof. exact (select_history_at w items ls k selected_label). Qed.

(** X20: with a history that is not empty, the placeholder selects nothing,
    and a text that is not among the options makes [list.index] raise a
    [ValueError] and leaves the state as it is; with an empty history (or
    another false value) the select box is not there: only the note is
    shown and the selection stays as it was. *)
Theorem select_placeholder_or_unknown (w : world) (ls : list string)
    (selected_label : string) :
  (truthy (history w) = true -> labels py_repr (history w) = Ok ls ->
   selected_label = PLACEHOLDER ->
   select_history py_repr selected_label w = (Ok tt, set_selected_history_index None w))
  /\ (truthy (history w) = true -> labels py_repr (history w) = Ok ls ->
      selected_label ∉ selectbox_options ls ->
      exists e, select_history py_repr selected_label w = (Raise e, w)
                /\ exn_cls e = ValueError)
  /\ (truthy (history w) = false ->
      select_history py_repr selected_label w = (Ok tt, show (StInfo "No history yet.") w)).
Proof.
  split; [|split].
  - intros Ht Hls ->. unfold select_history, sidebar, bind, get. rewrite Ht, Hls. cbn [lift].
    now rewrite String.eqb_refl.
  - intros Ht Hls Hnot. unfold selectbox_options in Hnot.
    apply not_elem_of_cons in Hnot as [Hne Hrev].
    unfold select_history, sidebar, bind, get. rewrite Ht, Hls. cbn [lift].
    destruct (String.eqb_spec selected_label PLACEHOLDER); [contradiction|].
    rewrite index_of_absent by assumption. eexists. split; reflexivity.
  - intros Ht. unfold select_history, sidebar, bind, get. now rewrite Ht.
Qed.

(** X21: choosing the entry at position k and pressing Delete runs the
    Delete handler on the history index N-1-k, and the history afterwards is
    the list without the record at that index. *)
Theorem delete_pressed_deletes_selected (w : world) (items : list pyval)
    (ls : list string) (k : nat) (selected_label : string) :
  history w = VList items ->
  labels py_repr (VList items) = Ok ls ->
  selectbox_options ls !! S k = Some selected_label ->
  delete_pressed json_dumps json_partial json_error py_repr selected_label w
  = delete_clicked json_dumps json_partial json_error
      (set_selected_history_index (Some (Z.of_nat (length items - 1 - k))) w)
  /\ history (snd (delete_pressed json_dumps json_partial json_error py_repr selected_label w))
     = VList (delete (length items - 1 - k)%nat items).
Proof.
  intros Hh Hls Hk.
  destruct (select_history_at w items ls k selected_label Hh Hls Hk)
    as (Hlt & Hsel & item & Hitem & Hlabel).
  assert (Hrun : delete_pressed json_dumps json_partial json_error py_repr selected_label w
                 = delete_clicked json_dumps json_partial json_error
                     (set_selected_history_index
                        (Some (Z.of_nat (length items - 1 - k))) w)).
  { apply (sidebar_selects w items ls k selected_label _ Hh Hls Hk). }
  split; [exact Hrun|]. rewrite Hrun.
  apply label_shape in Hlabel as ((fields & t & n & -> & _) & _).
  destruct (delete_clicked_run json_dumps json_partial json_error
              (set_selected_history_index (Some (Z.of_nat (length items - 1 - k))) w)
              items (Z.of_nat (length items - 1 - k)) fields)
    as (w1 & _ & _ & ->); try reflexivity; try assumption; try lia.
  - now rewrite Nat2Z.id.
  - rewrite Nat2Z.id.
    match goal with
    | |- context [bind (save_history _ _ _ ?h) _ ?w2] =>
        destruct (save_and_rerun json_dumps json_partial json_error h w2)
          as (r & w' & -> & Hh' & _)
    end.
    exact Hh'.
Qed.

Lemma labels_from_raises (i0 : nat) (items : list pyval) (e : exn) :
  labels_from py_repr i0 items = Raise e ->
  exn_cls e = KeyError \/ exn_cls e = TypeError.
Proof.
  revert i0. induction items as [| item rest IH]; intros i0; [discriminate|].
  cbn [labels_from]. unfold and_then at 1.
  destruct (label py_repr i0 item) as [l | e'] eqn:Hl.
  - unfold and_then.
    destruct (labels_from py_repr (S i0) rest) as [ls | e'] eqn:Hrest; [discriminate|].
    intros [= <-]. eapply IH. eassumption.
  - intros [= <-]. revert Hl. unfold label, and_then, py_getitem_key.
    destruct item as [| b | n | s | l | fields];
      try (intros [= <-]; right; reflexivity).
    destruct (assoc "time" fields); [|intros [= <-]; left; reflexivity].
    destruct (assoc "name" fields); [discriminate | intros [= <-]; left; reflexivity].
Qed.

(** X22: one item without [time] or [name] (or not a dict) makes the
    sidebar raise while it builds the labels: neither Delete nor Clear All
    runs, and the state is as before. *)
Theorem sidebar_fails_on_malformed_record (w : world) (items : list pyval)
    (selected_label : string) :
  history w = VList items ->
  ~ Forall has_time_and_name items ->
  exists e,
    select_history py_repr selected_label w = (Raise e, w)
    /\ delete_pressed json_dumps json_partial json_error py_repr selected_label w = (Raise e, w)
    /\ clear_all_pressed json_dumps json_partial json_error py_repr selected_label w = (Raise e, w)
    /\ (exn_cls e = KeyError \/ exn_cls e = TypeError).
Proof.
  intros Hh Hbad.
  destruct (labels py_repr (VList items)) as [ls | e] eqn:Hls.
  - exfalso. destruct items as [| x rest]; [apply Hbad; constructor|].
    destruct (labels_ok_inv (VList (x :: rest)) ls Hls) as (items' & [= <-] & H & _).
    + intros ->. unfold labels, and_then in Hls. cbn [py_iter] in Hls.
      apply labels_from_lookup in Hls as [Hlen _]. discriminate Hlen.
    + contradiction.
  - assert (Hside : forall pressed, sidebar py_repr selected_label pressed w = (Raise e, w)).
    { intros pressed. unfold sidebar, bind, get. rewrite Hh, Hls.
      destruct items; [destruct Hbad; constructor | reflexivity]. }
    exists e. split; [apply Hside|]. split; [apply Hside|]. split; [apply Hside|].
    unfold labels, and_then in Hls. cbn [py_iter] in Hls.
    eapply labels_from_raises. eassumption.
Qed.

End MoreProperties.

(** * What is saved is what a later session loads, with the codec above *)

(** X14: what [save_history] writes is what [load_history] returns, for any
    value that [json.dump] can write and not only for lists of records;
    saving changes no other file and not the session. *)
Theorem save_then_load (h : pyval) (w : world) :
  well_formed h = true ->
  encodable h = true ->
  HISTORY_FILE ∉ deny_write (disk w) ->
  HISTORY_FILE ∉ deny_read (disk w) ->
  exists w',
    save_history dumps dump_partial dump_error h w = (Ok tt, w')
    /\ load_history loads w' = (Ok h, w')
    /\ history w' = history w
    /\ (forall other, other <> HISTORY_FILE ->
          files (disk w') !! other = files (disk w) !! other).
Proof.
  exact (save_then_load_with_codec dumps dump_partial dump_error loads loads_dumps h w).
Qed.

(** X15: a deletion is persistent: when the strings of the remaining
    records can be encoded, a session loading the document after the Delete
    handler gets the history without the deleted record. *)
Theorem delete_then_load (w : world) (items : list pyval) (idx : Z)
    (fields : list (string * pyval)) :
  history w = VList items ->
  well_formed (VList items) = true ->
  encodable (VList (delete (Z.to_nat idx) items)) = true ->
  selected_history_index w = Some idx ->
  0 <= idx < Z.of_nat (length items) ->
  items !! Z.to_nat idx = Some (VDict fields) ->
  HISTORY_FILE ∉ deny_write (disk w) ->
  HISTORY_FILE ∉ deny_read (disk w) ->
  exists w',
    delete_clicked dumps dump_partial dump_error w = (Ok tt, w')
    /\ load_history loads w' = (Ok (VList (delete (Z.to_nat idx) items)), w')
    /\ selected_history_index w' = None
    /\ ui w' = (ui w ++ [StRerun])%list.
Proof.
  exact (delete_then_load_with_codec dumps dump_partial dump_error loads loads_dumps
           w items idx fields).
Qed.

(** * The further properties at sample states *)

Lemma save_uploaded_image_locally_stores_witness :
  exists w',
    save_uploaded_image_locally "20240101_101500" "0a1b2c3d4e5f60718293a4b5c6d7e8f9"
      sample_upload sample_world = (Ok (sample_image, "relic.jpg"), w')
    /\ files (disk w') !! sample_image = Some "ABC".
Proof.
  destruct (save_uploaded_image_locally_stores "20240101_101500"
              "0a1b2c3d4e5f60718293a4b5c6d7e8f9" sample_upload sample_world sample_image)
    as (w' & Hrun & Hfile & _).
  - reflexivity.
  - decide_by_computation.
  - exists w'. split; assumption.
Defined.

Lemma estimate_stores_failure_witness :
  exists e w',
    exn_cls e = OSError
    /\ estimate_clicked dumps dump_partial dump_error
         (sample_inputs (Some "sk-test") (Ok (Some "1 Type: vase")))
         sample_upload no_image_space_world
       = (Ok tt, w')
    /\ ui w' = [StError (generic_message e)]
    /\ history w' = VList [older_record]
    /\ files (disk w') !! sample_image = Some "AB".
Proof.
  destruct (estimate_stores_failure dumps dump_partial dump_error
              (sample_inputs (Some "sk-test") (Ok (Some "1 Type: vase")))
              sample_upload no_image_space_world)
    as (e & w' & Hcls & Hrun & Hui & Hh & _ & _ & Hfile & _).
  - reflexivity.
  - decide_by_computation.
  - exists e, w'. split; [exact Hcls|]. split; [exact Hrun|]. split; [exact Hui|].
    split; [exact Hh|]. etrans; [exact Hfile | vm_compute; reflexivity].
Defined.

Lemma estimate_provider_failure_witness :
  exists w',
    estimate_clicked dumps dump_partial dump_error
      (sample_inputs (Some "sk-test") (Raise (Exn RateLimitError "Rate limit reached")))
      sample_upload sample_world = (Ok tt, w')
    /\ history w' = history sample_world
    /\ ui w' = [StError RATE_LIMIT_MESSAGE]
    /\ files (disk w') !! sample_image = Some "ABC".
Proof.
  destruct (estimate_provider_failure dumps dump_partial dump_error
              (sample_inputs (Some "sk-test") (Raise (Exn RateLimitError "Rate limit reached")))
              sample_upload sample_world (Exn RateLimitError "Rate limit reached"))
    as (w' & Hrun & Hh & Hui & Hfile & _).
  - reflexivity.
  - decide_by_computation.
  - reflexivity.
  - exists w'. repeat split; assumption.
Defined.

Lemma estimate_success_witness :
  exists w',
    estimate_clicked dumps dump_partial dump_error
      (sample_inputs (Some "sk-test") (Ok (Some "1 Type: vase")))
      sample_upload sample_world = (Ok tt, w')
    /\ history w' = VList [older_record; sample_record]
    /\ files (disk w') !! sample_image = Some "ABC".
Proof.
  destruct (estimate_success dumps dump_partial dump_error
              (sample_inputs (Some "sk-test") (Ok (Some "1 Type: vase")))
              sample_upload sample_world [older_record] (Some "1 Type: vase"))
    as (w' & Hrun & Hh & Hfile & _).
  - reflexivity.
  - decide_by_computation.
  - decide_by_computation.
  - reflexivity.
  - reflexivity.
  - reflexivity.
  - exists w'. repeat split; assumption.
Defined.

Lemma estimate_history_not_a_list_witness :
  exists w',
    estimate_clicked dumps dump_partial dump_error
      (sample_inputs (Some "sk-test") (Ok (Some "1 Type: vase")))
      sample_upload object_history_world = (Ok tt, w')
    /\ history w' = VDict [("version", VInt 2)]
    /\ ui w' = [StError "❌ Error: 'dict' object has no attribute 'append'"].
Proof.
  destruct (estimate_history_not_a_list dumps dump_partial dump_error
              (sample_inputs (Some "sk-test") (Ok (Some "1 Type: vase")))
              sample_upload object_history_world (Some "1 Type: vase"))
    as (w' & Hrun & Hh & Hui & _).
  - reflexivity.
  - decide_by_computation.
  - reflexivity.
  - intros items. discriminate.
  - exists w'. repeat split; assumption.
Defined.

Lemma estimate_document_unwritable_witness :
  exists w',
    estimate_clicked dumps dump_partial dump_error
      (sample_inputs (Some "sk-test") (Ok None)) sample_upload full_disk_world
    = (Ok tt, w')
    /\ history w'
       = VList [older_record; sample_record;
                make_record "2024-01-01 10:15:02" "relic.jpg" sample_image ""]
    /\ files (disk full_disk_world) !! HISTORY_FILE
       = Some (dumps (VList [older_record; sample_record]))
    /\ files (disk w') !! HISTORY_FILE = Some "".
Proof.
  destruct (estimate_document_unwritable dumps dump_partial dump_error
              (sample_inputs (Some "sk-test") (Ok None))
              sample_upload full_disk_world [older_record; sample_record] None)
    as (w' & Hrun & Hh & Hdoc & _).
  - reflexivity.
  - decide_by_computation.
  - decide_by_computation.
  - reflexivity.
  - reflexivity.
  - exists w'. split; [exact Hrun|]. split; [exact Hh|].
    split; [vm_compute; reflexivity|].
    etrans; [exact Hdoc | rewrite Hh; vm_compute; reflexivity].
Defined.



Lemma save_history_unwritable_document_witness :
  exists e w',
    save_history dumps dump_partial dump_error (VList [older_record]) full_disk_world
    = (Raise e, w')
    /\ exn_cls e = OSError
    /\ files (disk full_disk_world) !! HISTORY_FILE
       = Some (dumps (VList [older_record; sample_record]))
    /\ files (disk w') !! HISTORY_FILE = Some "".
Proof.
  destruct (save_history_unwritable_document dumps dump_partial dump_error
              (VList [older_record]) full_disk_world)
    as (e & w' & Hrun & Hcls & Hdoc & _).
  - decide_by_computation.
  - exists e, w'. split; [exact Hrun|]. split; [exact Hcls|].
    split; [vm_compute; reflexivity|].
    etrans; [exact Hdoc | vm_compute; reflexivity].
Defined.

Lemma delete_keeps_other_files_witness :
  files (disk (snd (delete_clicked dumps dump_partial dump_error readonly_document_world)))
    !! older_image
  = Some "PNG".
Proof.
  rewrite (delete_keeps_other_files dumps dump_partial dump_error readonly_document_world
             [older_record; sample_record] 1 sample_fields older_image).
  - reflexivity.
  - reflexivity.
  - reflexivity.
  - vm_compute. split; [discriminate | reflexivity].
  - reflexivity.
  - intros p Hp. vm_compute in Hp. injection Hp as <-. right. reflexivity.
  - reflexivity.
  - discriminate.
  - vm_compute. discriminate.
Defined.

Lemma delete_document_unwritable_witness :
  exists e w',
    delete_clicked dumps dump_partial dump_error full_disk_world = (Raise e, w')
    /\ exn_cls e = OSError
    /\ history w' = VList [older_record]
    /\ selected_history_index w' = Some 1
    /\ files (disk w') !! HISTORY_FILE = Some ""
    /\ files (disk w') !! older_image = Some "PNG".
Proof.
  destruct (delete_document_unwritable dumps dump_partial dump_error full_disk_world
              [older_record; sample_record] 1 sample_fields)
    as (e & w' & Hrun & Hcls & Hh & Hsel & _ & Hdoc & Hother).
  - reflexivity.
  - reflexivity.
  - vm_compute. split; [discriminate | reflexivity].
  - reflexivity.
  - intros p Hp. vm_compute in Hp. injection Hp as <-. right. reflexivity.
  - vm_compute. discriminate.
  - decide_by_computation.
  - exists e, w'. split; [exact Hrun|]. split; [exact Hcls|]. split; [exact Hh|].
    split; [exact Hsel|]. split.
    + etrans; [exact Hdoc | rewrite Hh; vm_compute; reflexivity].
    + etrans; [apply (Hother older_image) | vm_compute; reflexivity];
        [discriminate | vm_compute; discriminate].
Defined.

Lemma delete_image_file_ignores_non_strings_witness :
  delete_image_file (VInt 3) two_records_world = (Ok tt, two_records_world).
Proof.
  apply (delete_image_file_ignores_non_strings (VInt 3) two_records_world).
  intros p. discriminate.
Defined.

Lemma clear_all_keeps_unreferenced_files_witness :
  files (disk (snd (clear_all_clicked dumps dump_partial dump_error
                      (set_history (VList [sample_record]) two_records_world))))
    !! older_image
  = Some "PNG".
Proof.
  rewrite (clear_all_keeps_unreferenced_files dumps dump_partial dump_error
             (set_history (VList [sample_record]) two_records_world)
             [sample_record] older_image).
  - reflexivity.
  - reflexivity.
  - repeat constructor. exists sample_fields. reflexivity.
  - apply List.Forall_cons; [|apply List.Forall_nil].
    intros p Hp. vm_compute in Hp. injection Hp as <-. right. reflexivity.
  - reflexivity.
  - discriminate.
  - intros item Hin. apply list_elem_of_singleton in Hin as ->. vm_compute. discriminate.
Defined.

Lemma save_then_load_witness :
  exists w',
    save_history dumps dump_partial dump_error (VDict [("version", VInt 2)]) sample_world
    = (Ok tt, w')
    /\ load_history loads w' = (Ok (VDict [("version", VInt 2)]), w').
Proof.
  destruct (save_then_load (VDict [("version", VInt 2)]) sample_world)
    as (w' & Hsave & Hload & _).
  - reflexivity.
  - reflexivity.
  - decide_by_computation.
  - decide_by_computation.
  - exists w'. split; assumption.
Defined.

Lemma delete_then_load_witness :
  exists w',
    delete_clicked dumps dump_partial dump_error
      (set_selected_history_index (Some 0) two_records_world) = (Ok tt, w')
    /\ load_history loads w' = (Ok (VList [sample_record]), w').
Proof.
  destruct (delete_then_load
              (set_selected_history_index (Some 0) two_records_world)
              [older_record; sample_record] 0
              [("time", VStr "2023-12-31 09:00:00"); ("name", VStr "coin.png");
               ("image_path", VStr older_image); ("result", VStr "1 Type: coin")])
    as (w' & Hrun & Hload & _).
  - reflexivity.
  - reflexivity.
  - reflexivity.
  - reflexivity.
  - vm_compute. split; [discriminate | reflexivity].
  - reflexivity.
  - decide_by_computation.
  - decide_by_computation.
  - exists w'. split; assumption.
Defined.

Lemma clear_all_then_load_and_repeat_witness :
  exists w' w'',
    clear_all_clicked dumps dump_partial dump_error two_records_world = (Ok tt, w')
    /\ load_history loads w' = (Ok (VList []), w')
    /\ clear_all_clicked dumps dump_partial dump_error w' = (Ok tt, w'')
    /\ history w'' = VList []
    /\ disk w'' = disk w'.
Proof.
  apply (clear_all_then_load_and_repeat dumps dump_partial dump_error loads loads_dumps
           two_records_world [older_record; sample_record]).
  - reflexivity.
  - repeat constructor; eexists; reflexivity.
  - decide_by_computation.
  - decide_by_computation.
Defined.

Lemma labels_of_records_witness :
  exists ls,
    labels dumps (VList [older_record; sample_record]) = Ok ls
    /\ length ls = length [older_record; sample_record]
    /\ NoDup ls
    /\ PLACEHOLDER ∉ ls.
Proof.
  apply (labels_of_records dumps [older_record; sample_record]).
  repeat constructor; do 3 eexists; repeat split; reflexivity.
Defined.

Lemma labels_need_records_witness :
  exists items,
    VList [older_record; sample_record] = VList items
    /\ Forall has_time_and_name items
    /\ length sample_labels = length items.
Proof.
  apply (labels_need_records dumps (VList [older_record; sample_record]) sample_labels).
  - vm_compute. reflexivity.
  - discriminate.
Defined.

Lemma select_entry_witness :
  (0 < length [older_record; sample_record])%nat
  /\ select_history dumps "2. 2024-01-01 10:15:02 — relic.jpg" two_records_world
     = (Ok tt, set_selected_history_index
                 (Some (Z.of_nat (length [older_record; sample_record] - 1 - 0)))
                 two_records_world)
  /\ exists item,
       [older_record; sample_record]
         !! (length [older_record; sample_record] - 1 - 0)%nat = Some item
       /\ label dumps (length [older_record; sample_record] - 1 - 0) item
          = Ok "2. 2024-01-01 10:15:02 — relic.jpg".
Proof.
  apply (select_entry dumps two_records_world [older_record; sample_record]
           sample_labels 0 "2. 2024-01-01 10:15:02 — relic.jpg").
  - reflexivity.
  - vm_compute. reflexivity.
  - reflexivity.
Defined.

(** The three cases: the placeholder, a text that no option has, and a
    session without history. *)
Lemma select_placeholder_or_unknown_witness :
  select_history dumps PLACEHOLDER two_records_world
  = (Ok tt, set_selected_history_index None two_records_world)
  /\ (exists e, select_history dumps "3. 2024-01-03 08:00:00 — none.jpg" two_records_world
                = (Raise e, two_records_world)
                /\ exn_cls e = ValueError)
  /\ select_history dumps PLACEHOLDER
       (World (plain_disk ∅) (VList []) (Some 4) [])
     = (Ok tt, World (plain_disk ∅) (VList []) (Some 4) [StInfo "No history yet."]).
Proof.
  split; [|split].
  - apply (select_placeholder_or_unknown dumps two_records_world sample_labels PLACEHOLDER);
      [reflexivity | vm_compute; reflexivity | reflexivity].
  - apply (select_placeholder_or_unknown dumps two_records_world sample_labels
             "3. 2024-01-03 08:00:00 — none.jpg");
      [reflexivity | vm_compute; reflexivity|].
    intros Hin. apply elem_of_cons in Hin as [Heq | Hin]; [discriminate Heq|].
    apply elem_of_cons in Hin as [Heq | Hin]; [discriminate Heq|].
    apply elem_of_cons in Hin as [Heq | Hin]; [discriminate Heq|].
    now apply elem_of_nil in Hin.
  - apply (select_placeholder_or_unknown dumps
             (World (plain_disk ∅) (VList []) (Some 4) []) [] PLACEHOLDER).
    reflexivity.
Defined.

Lemma delete_pressed_deletes_selected_witness :
  delete_pressed dumps dump_partial dump_error dumps "1. 2023-12-31 09:00:00 — coin.png"
    two_records_world
  = delete_clicked dumps dump_partial dump_error
      (set_selected_history_index
         (Some (Z.of_nat (length [older_record; sample_record] - 1 - 1)))
         two_records_world)
  /\ history (snd (delete_pressed dumps dump_partial dump_error dumps
                     "1. 2023-12-31 09:00:00 — coin.png" two_records_world))
     = VList (delete (length [older_record; sample_record] - 1 - 1)%nat
                [older_record; sample_record]).
Proof.
  apply (delete_pressed_deletes_selected dumps dump_partial dump_error dumps
           two_records_world [older_record; sample_record] sample_labels 1
           "1. 2023-12-31 09:00:00 — coin.png").
  - reflexivity.
  - vm_compute. reflexivity.
  - reflexivity.
Defined.

Lemma sidebar_fails_on_malformed_record_witness :
  exists e,
    select_history dumps PLACEHOLDER malformed_world = (Raise e, malformed_world)
    /\ delete_pressed dumps dump_partial dump_error dumps PLACEHOLDER malformed_world
       = (Raise e, malformed_world)
    /\ clear_all_pressed dumps dump_partial dump_error dumps PLACEHOLDER malformed_world
       = (Raise e, malformed_world)
    /\ (exn_cls e = KeyError \/ exn_cls e = TypeError).
Proof.
  apply (sidebar_fails_on_malformed_record dumps dump_partial dump_error dumps
           malformed_world [sample_record; VDict [("name", VStr "x.png")]] PLACEHOLDER).
  - reflexivity.
  - intros Hall. apply Forall_cons in Hall as [_ Hall].
    apply Forall_cons in Hall as [(fields & t & n & [= <-] & Ht & _) _].
    discriminate Ht.
Defined.
